(** * Mobile automation agent: coordinate reconciler, structural locators,
      retry schedule and orchestration workflow

    A shallow embedding of the parts of the agent that the properties below
    are about:
    - [src/device/actions.py]        (modules [Actions] and [Gestures])
    - [src/device/accessibility.py]  (modules [Re], [Accessibility] and
                                      [Locators])
    - [src/agent/error_recovery.py]  (modules [Recovery] and [Popups])
    - [src/agent/orchestrator.py]    (modules [Orchestrator], [LoginFlow] and
                                      [Confirmation])
    - [src/agent/state.py]           (module [State])

    Conventions of the embedding.
    - A Python [int] is a [Z].
    - A Python [float] is an exact rational ([Q]); [int(f)] is truncation
      toward zero.  The concrete inputs evaluated below only involve values
      (quarters, halves, small integers) that binary floating point represents
      exactly.
    - A Python [str] is a [string] of bytes, its UTF-8 encoding; [str.lower]
      and the case-insensitive matching of [re.IGNORECASE] act on the ASCII
      letters.  The windows of 500 and 800 characters that the structural
      locators cut at the start of a node are cut by code points
      ([slice_chars]); the other positions are byte offsets, which are the
      character positions on an ASCII dump.
    - A call that can raise returns an [option] or a dedicated outcome type;
      device commands and sleeps are collected in a trace. *)

From Stdlib Require Import ZArith QArith Qabs Bool List Ascii String Lia Arith.
From Stdlib Require Import Numbers.DecimalString.
From Stdlib Require Import Lqa Sorting.Sorted Sorting.Permutation.
Import ListNotations.

Set Warnings "-abstract-large-number,-register-all".

Open Scope Z_scope.

(* ------------------------------------------------------------------ *)
(** ** Python string helpers *)

Module PyStr.

Local Open Scope string_scope.

(** [str(n)] for an integer. *)
Definition str (n : Z) : string := NilEmpty.string_of_int (Z.to_int n).

Definition is_upper (c : ascii) : bool :=
  let n := nat_of_ascii c in (Nat.leb 65 n && Nat.leb n 90)%bool.

Definition lower_char (c : ascii) : ascii :=
  if is_upper c then ascii_of_nat (nat_of_ascii c + 32) else c.

(** [s.lower()] *)
Fixpoint lower (s : string) : string :=
  match s with
  | EmptyString => EmptyString
  | String c s' => String (lower_char c) (lower s')
  end.

(** [s.startswith(p)] *)
Fixpoint startswith (p s : string) : bool :=
  match p, s with
  | EmptyString, _ => true
  | String _ _, EmptyString => false
  | String a p', String b s' => (Ascii.eqb a b && startswith p' s')%bool
  end.

(** [sub in s] *)
Fixpoint contains (sub s : string) : bool :=
  if startswith sub s then true
  else match s with
       | EmptyString => false
       | String _ s' => contains sub s'
       end.

(** [any(k in s for k in ks)] *)
Definition any_in (ks : list string) (s : string) : bool :=
  existsb (fun k => contains k s) ks.

(** The double quote character, and the one-character string of it. *)
Definition dquote : ascii := ascii_of_nat 34.
Definition dq : string := String dquote EmptyString.

(** Truthiness of a string: non-empty. *)
Definition nonempty (s : string) : bool :=
  match s with EmptyString => false | _ => true end.

(** [s[a:]] and [s[:n]] for non-negative indices, and [s[a:a+n]]. *)
Fixpoint drop (a : nat) (s : string) : string :=
  match a, s with
  | O, _ => s
  | S a', String _ s' => drop a' s'
  | S _, EmptyString => EmptyString
  end.

Fixpoint take (n : nat) (s : string) : string :=
  match n, s with
  | S n', String c s' => String c (take n' s')
  | _, _ => EmptyString
  end.

Definition slice (a n : nat) (s : string) : string := take n (drop a s).

(** A byte that continues a character of more than one byte. *)
Definition is_continuation (c : ascii) : bool :=
  let n := nat_of_ascii c in (Nat.leb 128 n && Nat.ltb n 192)%bool.

(** The first [n] characters of [s]: every byte that starts a character
    counts for one, the bytes that continue it come with it. *)
Fixpoint take_chars (n : nat) (s : string) : string :=
  match s with
  | EmptyString => EmptyString
  | String c s' =>
      if is_continuation c then String c (take_chars n s')
      else match n with
           | O => EmptyString
           | S n' => String c (take_chars n' s')
           end
  end.

(** [s[a:a + n]] where the character at index [a] starts at byte [a] of the
    encoding, as the start of a match does, and [n] counts characters. *)
Definition slice_chars (a n : nat) (s : string) : string :=
  take_chars n (drop a s).

(** The ASCII characters [str.strip()] removes. *)
Definition is_space (c : ascii) : bool :=
  let n := nat_of_ascii c in
  ((Nat.leb 9 n && Nat.leb n 13) || (Nat.leb 28 n && Nat.leb n 32))%bool.

Fixpoint lstrip (s : string) : string :=
  match s with
  | String c s' => if is_space c then lstrip s' else s
  | EmptyString => EmptyString
  end.

Fixpoint rstrip (s : string) : string :=
  match s with
  | EmptyString => EmptyString
  | String c s' =>
      match rstrip s' with
      | EmptyString => if is_space c then EmptyString else String c EmptyString
      | r => String c r
      end
  end.

(** [s.strip()] *)
Definition strip (s : string) : string := rstrip (lstrip s).

Definition digit_val (c : ascii) : Z := Z.of_nat (nat_of_ascii c) - 48.

(** [int(s)] on a string of decimal digits (the only use in the source is on
    a [\d+] group). *)
Definition int_of_digits (s : string) : Z :=
  fold_left (fun acc c => 10 * acc + digit_val c) (list_ascii_of_string s) 0.

End PyStr.

(* ------------------------------------------------------------------ *)
(** ** The device handle *)

(** [device.shell(cmd)]: the output of the command, or [None] when the call
    raises.  The device is observed in one state for the duration of a call
    of a locator or of a primitive. *)
Record Device := { shell : string -> option string }.

(** What a primitive does to the outside world. *)
Inductive Event :=
| Shell (cmd : string)
| Sleep (seconds : Q).

(** [int(f)] on a float: truncation toward zero. *)
Definition int_of_float (q : Q) : Z := Z.quot (Qnum q) (Zpos (Qden q)).

(* ------------------------------------------------------------------ *)
(** ** [src/device/actions.py] *)

Module Actions.

Import PyStr.

(** The instance attributes of [DeviceActions] that the methods read. *)
Record DeviceActions := {
  device : Device;
  SCREEN_WIDTH : Z;
  SCREEN_HEIGHT : Z;
  STATUS_BAR_HEIGHT : Z
}.

(** The class defaults (Pixel 7A). *)
Definition default_actions (d : Device) : DeviceActions :=
  {| device := d; SCREEN_WIDTH := 1080; SCREEN_HEIGHT := 2400;
     STATUS_BAR_HEIGHT := 50 |}.

(** [DeviceActions.map_vision_to_device_coords] *)
Definition map_vision_to_device_coords (self : DeviceActions)
    (x_vision y_vision screenshot_width screenshot_height : Z) : Z * Z :=
  let scale_x := if 0 <? screenshot_width
                 then (inject_Z (SCREEN_WIDTH self) / inject_Z screenshot_width)%Q
                 else 1%Q in
  let scale_y := if 0 <? screenshot_height
                 then (inject_Z (SCREEN_HEIGHT self) / inject_Z screenshot_height)%Q
                 else 1%Q in
  let device_x := int_of_float (inject_Z x_vision * scale_x)%Q in
  let device_y := int_of_float
                    (inject_Z y_vision * scale_y
                     + inject_Z (STATUS_BAR_HEIGHT self))%Q in
  (device_x, device_y).

(** The scale factors alone, as the method computes them. *)
Definition scale_factors (self : DeviceActions)
    (screenshot_width screenshot_height : Z) : Q * Q :=
  (if 0 <? screenshot_width
   then (inject_Z (SCREEN_WIDTH self) / inject_Z screenshot_width)%Q else 1%Q,
   if 0 <? screenshot_height
   then (inject_Z (SCREEN_HEIGHT self) / inject_Z screenshot_height)%Q else 1%Q).

(** Modelled from the spec: the inverse scaling of the round-trip law, which
    the source does not contain: subtract the status bar height from the
    device y and divide both coordinates by the scale factors. *)
Definition inverse_scaling (self : DeviceActions)
    (device_x device_y screenshot_width screenshot_height : Z) : Q * Q :=
  let '(scale_x, scale_y) :=
    scale_factors self screenshot_width screenshot_height in
  ((inject_Z device_x / scale_x)%Q,
   (inject_Z (device_y - STATUS_BAR_HEIGHT self) / scale_y)%Q).

(** [f"input tap {x} {y}"] *)
Definition tap_command (x y : Z) : string :=
  ("input tap " ++ str x ++ " " ++ str y)%string.

(** [DeviceActions.tap]: the returned flag and the trace of what reached the
    device.  [time.sleep] raises on a negative delay, which the enclosing
    [try] turns into [False] like any other exception. *)
Definition tap (self : DeviceActions) (x y : Z) (delay : Q)
  : bool * list Event :=
  let x := Z.max 0 (Z.min x (SCREEN_WIDTH self)) in
  let y := Z.max 0 (Z.min y (SCREEN_HEIGHT self)) in
  if (x =? 0) && (y =? 0) then (false, [])
  else if (x <=? 0) || (y <=? 0) then (false, [])
  else
    let cmd := tap_command x y in
    match shell (device self) cmd with
    | None => (false, [Shell cmd])
    | Some result =>
        if nonempty result && contains "error" (lower result)
        then (false, [Shell cmd])
        else if Qle_bool 0 delay
             then (true, [Shell cmd; Sleep delay])
             else (false, [Shell cmd])
    end.

(** The device commands of a trace. *)
Definition shell_commands (t : list Event) : list string :=
  flat_map (fun e => match e with Shell c => [c] | Sleep _ => [] end) t.

End Actions.

(* ------------------------------------------------------------------ *)
(** ** The fragment of Python's [re] that the locators use

    The patterns of [accessibility.py] are sequences of single characters,
    character sets, greedy [*] and [+] over a single character or set, and
    capturing groups that do not nest.  The matcher below is the backtracking
    matcher of [re] on that fragment: a quantifier first takes as many
    characters as it can and gives them back one at a time, and the first
    alternative that lets the rest of the pattern match wins. *)

Module Re.

Import PyStr.

Inductive cclass :=
| Lit (c : ascii)           (* a literal character *)
| OneOf (l : list ascii)    (* [...] *)
| NoneOf (l : list ascii)   (* [^...] *)
| Digit.                    (* \d *)

Inductive item :=
| One (c : cclass)
| Star (c : cclass)         (* c* *)
| Plus (c : cclass)         (* c+ *)
| GOpen                     (* ( *)
| GClose.                   (* ) *)

Definition pattern := list item.

(** A literal piece of a pattern. *)
Definition lits (s : string) : pattern :=
  map (fun c => One (Lit c)) (list_ascii_of_string s).

(** Character equality, modulo case under [re.IGNORECASE]. *)
Definition char_eq (ignorecase : bool) (a b : ascii) : bool :=
  if ignorecase then Ascii.eqb (lower_char a) (lower_char b)
  else Ascii.eqb a b.

Definition is_digit (a : ascii) : bool :=
  let n := nat_of_ascii a in (Nat.leb 48 n && Nat.leb n 57)%bool.

Definition accepts (ignorecase : bool) (c : cclass) (a : ascii) : bool :=
  match c with
  | Lit b => char_eq ignorecase a b
  | OneOf l => existsb (char_eq ignorecase a) l
  | NoneOf l => negb (existsb (char_eq ignorecase a) l)
  | Digit => is_digit a
  end.

(** Spans [(start, end)] of the groups closed so far, in group order. *)
Definition spans := list (nat * nat).

(** A greedy run of characters accepted by [accept], then the continuation
    [k]; the longest run is tried first. *)
Fixpoint greedy {R} (accept : ascii -> bool) (k : string -> nat -> option R)
    (s : string) (pos : nat) : option R :=
  match s with
  | String a s' =>
      if accept a then
        match greedy accept k s' (S pos) with
        | Some r => Some r
        | None => k s pos
        end
      else k s pos
  | EmptyString => k s pos
  end.

(** Match pattern [p] against [s], whose first character is at index [pos] of
    the subject: the end of the match and the group spans. *)
Fixpoint match_here (ignorecase : bool) (p : pattern) (s : string) (pos : nat)
    (opens : list nat) (caps : spans) {struct p} : option (nat * spans) :=
  match p with
  | [] => Some (pos, caps)
  | One c :: rest =>
      match s with
      | String a s' =>
          if accepts ignorecase c a
          then match_here ignorecase rest s' (S pos) opens caps
          else None
      | EmptyString => None
      end
  | Star c :: rest =>
      greedy (accepts ignorecase c)
        (fun s' pos' => match_here ignorecase rest s' pos' opens caps) s pos
  | Plus c :: rest =>
      match s with
      | String a s' =>
          if accepts ignorecase c a
          then greedy (accepts ignorecase c)
                 (fun s'' pos' => match_here ignorecase rest s'' pos' opens caps)
                 s' (S pos)
          else None
      | EmptyString => None
      end
  | GOpen :: rest => match_here ignorecase rest s pos (pos :: opens) caps
  | GClose :: rest =>
      match opens with
      | o :: opens' =>
          match_here ignorecase rest s pos opens' (caps ++ [(o, pos)])
      | [] => match_here ignorecase rest s pos [] caps
      end
  end.

(** A match object: [m.start()], [m.end()] and the spans of its groups. *)
Record Match := {
  m_start : nat;
  m_end : nat;
  m_groups : spans
}.

(** [re.finditer]: the leftmost match, then the scan resumes where it ended.
    [skip] counts the characters of the previous match still to pass.  (The
    patterns of the source all begin with a literal, so no match is empty.) *)
Fixpoint scan (ignorecase : bool) (p : pattern) (s : string) (pos skip : nat)
  : list Match :=
  match skip with
  | S k =>
      match s with
      | String _ s' => scan ignorecase p s' (S pos) k
      | EmptyString => []
      end
  | O =>
      match match_here ignorecase p s pos [] [] with
      | Some (e, caps) =>
          {| m_start := pos; m_end := e; m_groups := caps |} ::
          match s with
          | String _ s' => scan ignorecase p s' (S pos) (e - pos - 1)
          | EmptyString => []
          end
      | None =>
          match s with
          | String _ s' => scan ignorecase p s' (S pos) 0
          | EmptyString => []
          end
      end
  end.

Definition finditer (ignorecase : bool) (p : pattern) (s : string)
  : list Match := scan ignorecase p s 0 0.

(** [re.search(p, s)] (without flags): the leftmost match. *)
Definition search (p : pattern) (s : string) : option Match :=
  hd_error (finditer false p s).

(** [m.group(0)] and [m.group(i)] for [i >= 1], on the subject [s]. *)
Definition group0 (s : string) (m : Match) : string :=
  slice (m_start m) (m_end m - m_start m) s.

Definition group (s : string) (m : Match) (i : nat) : string :=
  match nth_error (m_groups m) (i - 1) with
  | Some (a, b) => slice a (b - a) s
  | None => EmptyString
  end.

(** The patterns of [accessibility.py].  In the comments, Q stands for the
    set of the two quote characters (double and single) and D for the double
    quote. *)
Definition quote : item := One (OneOf [dquote; "'"%char]).
Definition not_gt : item := Star (NoneOf [">"%char]).

(** [Q ( [^Q]* ) Q] *)
Definition quoted_value : pattern :=
  [quote; GOpen; Star (NoneOf [dquote; "'"%char]); GClose; quote].

(** [(\d+)] *)
Definition number : pattern := [GOpen; Plus Digit; GClose].

(** [bounds=Q\[(\d+),(\d+)\]\[(\d+),(\d+)\]Q] *)
Definition bounds_attr : pattern :=
  lits "bounds=" ++ [quote] ++ lits "[" ++ number ++ lits "," ++ number
  ++ lits "][" ++ number ++ lits "," ++ number ++ lits "]" ++ [quote].

(** The string [clickable=DtrueD]. *)
Definition clickable_true : string :=
  ("clickable=" ++ dq ++ "true" ++ dq)%string.

(** [<node[^>]*clickable=DtrueD[^>]*bounds=...] *)
Definition clickable_bounds : pattern :=
  lits "<node" ++ [not_gt] ++ lits clickable_true ++ [not_gt] ++ bounds_attr.

(** [<node[^>]*clickable=DtrueD[^>]*bounds=...[^>]*>] *)
Definition clickable_node : pattern :=
  clickable_bounds ++ [not_gt] ++ lits ">".

(** [name=Q ( [^Q]* ) Q] *)
Definition attr (name : string) : pattern :=
  lits name ++ lits "=" ++ quoted_value.

(** [<node[^>]*clickable=DtrueD[^>]*name=Q ( [^Q]* ) Q[^>]*bounds=...] *)
Definition clickable_with (name : string) : pattern :=
  lits "<node" ++ [not_gt] ++ lits clickable_true ++ [not_gt]
  ++ attr name ++ [not_gt] ++ bounds_attr.

(** [<node[^>]*text=Q ( [^Q]* ) Q] *)
Definition node_text : pattern :=
  lits "<node" ++ [not_gt] ++ attr "text".

End Re.

(* ------------------------------------------------------------------ *)
(** ** Python list helpers *)

Module PyList.

(** [list.sort(key=...)] is stable: an insertion sort that puts an element
    before the first later element whose key is not smaller.  [le a b] is
    [key(a) <= key(b)]. *)
Fixpoint insert_by {A} (le : A -> A -> bool) (a : A) (l : list A) : list A :=
  match l with
  | [] => [a]
  | b :: l' => if le a b then a :: l else b :: insert_by le a l'
  end.

Definition sort_by {A} (le : A -> A -> bool) (l : list A) : list A :=
  fold_right (insert_by le) [] l.

(** A [for] loop whose body returns from the function at the first element
    that yields a result. *)
Fixpoint first_some {A B} (f : A -> option B) (l : list A) : option B :=
  match l with
  | [] => None
  | a :: l' => match f a with Some b => Some b | None => first_some f l' end
  end.

(** A loop that appends at most one record per element. *)
Definition collect {A B} (f : A -> option B) (l : list A) : list B :=
  flat_map (fun a => match f a with Some b => [b] | None => [] end) l.

End PyList.

(* ------------------------------------------------------------------ *)
(** ** [src/device/accessibility.py] *)

Module Accessibility.

Import PyStr PyList Re.

(** [AccessibilityTree.get_tree_file] *)
Definition get_tree_file (dev : Device) : option string :=
  match shell dev "uiautomator dump /sdcard/window_dump.xml" with
  | None => None
  | Some _ => shell dev "cat /sdcard/window_dump.xml"
  end.

(** The tree a locator goes on with: [get_tree_file] followed by the
    [if not tree: return ...] guard. *)
Definition usable_tree (dev : Device) : option string :=
  match get_tree_file dev with
  | Some tree => if nonempty tree then Some tree else None
  | None => None
  end.

(** The four integers of a match whose groups [i], [i+1], [i+2], [i+3] are
    the bounds. *)
Definition int_group (s : string) (m : Match) (i : nat) : Z :=
  int_of_digits (group s m i).

(** [g.group(1) if g else default] for [g = re.search(name=Q ( [^Q]* ) Q, s)]. *)
Definition attr_or (name : string) (s : string) (default : string) : string :=
  match search (attr name) s with
  | Some g => group s g 1
  | None => default
  end.

(** The dictionary that [find_clickable_elements] builds per node. *)
Record Element := {
  text : string;
  content_desc : string;
  class : string;
  resource_id : string;
  package : string;
  bounds : list Z;
  center : list Z;
  x : Z;
  y : Z;
  width : Z;
  height : Z
}.

(** The body of the loop of [find_clickable_elements]. *)
Definition element_of_match (tree : string) (m : Match) : Element :=
  let x1 := int_group tree m 1 in
  let y1 := int_group tree m 2 in
  let x2 := int_group tree m 3 in
  let y2 := int_group tree m 4 in
  let center_x := (x1 + x2) / 2 in
  let center_y := (y1 + y2) / 2 in
  let node_text := group0 tree m in
  {| text := attr_or "text" node_text "";
     content_desc := attr_or "content-desc" node_text "";
     class := attr_or "class" node_text "";
     resource_id := attr_or "resource-id" node_text "";
     package := attr_or "package" node_text "";
     bounds := [x1; y1; x2; y2];
     center := [center_x; center_y];
     x := center_x;
     y := center_y;
     width := x2 - x1;
     height := y2 - y1 |}.

(** [AccessibilityTree.find_clickable_elements] *)
Definition find_clickable_elements (dev : Device) : list Element :=
  match usable_tree dev with
  | None => []
  | Some tree => map (element_of_match tree) (finditer true clickable_node tree)
  end.

(** *** [find_send_button_near_input] *)

Record SendCandidate := {
  c_x : Z;
  c_y : Z;
  distance : Z;
  has_up_arrow : bool;
  has_send_indicator : bool;
  desc : string
}.

(** The third component of the result: a candidate record, or the dictionary
    of the fixed fallback. *)
Inductive SendInfo :=
| Candidate (c : SendCandidate)
| Fallback (fx fy : Z) (fdesc : string).

(** [w] and [h] of an element, as the loop computes them. *)
Definition bounds_width (b : list Z) : Z :=
  if Nat.leb 4 (List.length b) then nth 2 b 0 - nth 0 b 0 else 80.
Definition bounds_height (b : list Z) : Z :=
  if Nat.leb 4 (List.length b) then nth 3 b 0 - nth 1 b 0 else 80.

(** The body of the loop: [None] where the source says [continue]. *)
Definition send_candidate (input_x input_y : Z) (elem : Element)
  : option SendCandidate :=
  let x := x elem in
  let y := y elem in
  let bounds := bounds elem in
  if (x <=? 0) || (y <=? 0) then None
  else if x <=? input_x + 20 then None
  else if x - input_x >? 450 then None
  else if Z.abs (y - input_y) >? 120 then None
  else
    let w := bounds_width bounds in
    let h := bounds_height bounds in
    if (w <? 20) || (w >? 180) || (h <? 20) || (h >? 180) then None
    else
      let raw_desc := content_desc elem in
      let raw_text := text elem in
      let combined := (lower raw_desc ++ " " ++ lower raw_text)%string in
      Some {| c_x := x; c_y := y;
              distance := (x - input_x) ^ 2 + (y - input_y) ^ 2;
              has_up_arrow := contains "↑" raw_desc || contains "↑" raw_text;
              has_send_indicator :=
                any_in ["send"; "submit"; "arrow"; "up"]%string combined;
              desc := let d := strip (if nonempty raw_desc then raw_desc
                                      else raw_text) in
                      if nonempty d then d else "(no desc)" |}.

(** Order of the sort key
    [(not has_up_arrow, not has_send_indicator, distance)]. *)
Definition send_key_le (a b : SendCandidate) : bool :=
  let ka1 := negb (has_up_arrow a) in
  let kb1 := negb (has_up_arrow b) in
  let ka2 := negb (has_send_indicator a) in
  let kb2 := negb (has_send_indicator b) in
  if Bool.eqb ka1 kb1 then
    if Bool.eqb ka2 kb2 then distance a <=? distance b
    else negb ka2
  else negb ka1.

Definition CHATGPT_SEND_BUTTON : Z * Z := (990, 1427).

(** [AccessibilityTree.find_send_button_near_input] *)
Definition find_send_button_near_input (dev : Device) (input_x input_y : Z)
  : option (Z * Z * SendInfo) :=
  let elements := find_clickable_elements dev in
  match elements with
  | [] => None
  | _ =>
      let candidates := collect (send_candidate input_x input_y) elements in
      match sort_by send_key_le candidates with
      | best :: _ => Some (c_x best, c_y best, Candidate best)
      | [] =>
          Some (fst CHATGPT_SEND_BUTTON, snd CHATGPT_SEND_BUTTON,
                Fallback (fst CHATGPT_SEND_BUTTON) (snd CHATGPT_SEND_BUTTON)
                         "send (fallback)")
      end
  end.

(** *** [find_real_login_button] *)

(** The dictionary appended to [clickable_buttons]. *)
Record Button := {
  b_x : Z;
  b_y : Z;
  b_bounds : list Z;
  b_width : Z;
  b_height : Z;
  b_text : string;
  b_class : string
}.

Definition input_types : list string :=
  ["edittext"; "textfield"; "textinput"; "edit"; "input";
   "autocomplete"; "searchview"; "editabletext"]%string.

(** [is_input_field], from the class name as extracted. *)
Definition is_input_field (class_name : string) : bool :=
  any_in input_types (lower class_name).

(** The body of the loop of [find_real_login_button]: the button appended
    for a match, if any.  The class and the text are searched in the 500
    characters that start at the match. *)
Definition login_candidate (tree : string) (m : Match) : option Button :=
  let x1 := int_group tree m 1 in
  let y1 := int_group tree m 2 in
  let x2 := int_group tree m 3 in
  let y2 := int_group tree m 4 in
  let width := x2 - x1 in
  let height := y2 - y1 in
  if (width >? 300) && (height >? 80) then
    let center_x := (x1 + x2) / 2 in
    let center_y := (y1 + y2) / 2 in
    let node_tag := slice_chars (m_start m) 500 tree in
    let class_name := attr_or "class" node_tag "" in
    let text_content := attr_or "text" node_tag "" in
    if is_input_field class_name then None
    else Some {| b_x := center_x; b_y := center_y;
                 b_bounds := [x1; y1; x2; y2];
                 b_width := width; b_height := height;
                 b_text := text_content; b_class := class_name |}
  else None.

(** The list [clickable_buttons] when the loop ends (empty without a tree). *)
Definition clickable_buttons (dev : Device) : list Button :=
  match usable_tree dev with
  | None => []
  | Some tree => collect (login_candidate tree) (finditer true clickable_bounds tree)
  end.

Definition button_y_le (a b : Button) : bool := b_y a <=? b_y b.

(** [AccessibilityTree.find_real_login_button] *)
Definition find_real_login_button (dev : Device) : option (Z * Z * Button) :=
  match sort_by button_y_le (clickable_buttons dev) with
  | best_button :: _ => Some (b_x best_button, b_y best_button, best_button)
  | [] => None
  end.

(** *** [find_button_by_keywords] *)

(** The dictionary returned with the coordinates; only the last two methods
    add a class entry. *)
Record Hit := {
  h_text : string;
  h_bounds : list Z;
  h_center : list Z;
  h_class : option string
}.

(** The result built from four bounds groups starting at group [i]. *)
Definition hit_at (s : string) (m : Match) (i : nat) (txt : string)
    (cls : option string) : Z * Z * Hit :=
  let x1 := int_group s m i in
  let y1 := int_group s m (i + 1) in
  let x2 := int_group s m (i + 2) in
  let y2 := int_group s m (i + 3) in
  let center_x := (x1 + x2) / 2 in
  let center_y := (y1 + y2) / 2 in
  (center_x, center_y,
   {| h_text := txt; h_bounds := [x1; y1; x2; y2];
      h_center := [center_x; center_y]; h_class := cls |}).

(** METHOD 1: clickable nodes with a text attribute. *)
Definition by_direct_text (tree : string) (keywords_lower : list string)
  : option (Z * Z * Hit) :=
  first_some
    (fun m =>
       let text := lower (group tree m 1) in
       if nonempty text && any_in keywords_lower text
       then Some (hit_at tree m 2 (group tree m 1) None)
       else None)
    (finditer true (clickable_with "text") tree).

(** METHOD 1B: a clickable node, then the text of the nodes in the 3000
    characters after its opening tag. *)
Definition by_child_text (tree : string) (keywords_lower : list string)
  : option (Z * Z * Hit) :=
  first_some
    (fun m =>
       let start_pos := m_end m in
       let search_end := Nat.min (start_pos + 3000)%nat (String.length tree) in
       let node_section := slice start_pos (search_end - start_pos) tree in
       first_some
         (fun child_match =>
            let child_text := strip (lower (group node_section child_match 1)) in
            if nonempty child_text && any_in keywords_lower child_text
            then Some (hit_at tree m 1 (group node_section child_match 1) None)
            else None)
         (finditer true node_text node_section))
    (finditer true clickable_node tree).

(** METHOD 1C: a text node, then the last clickable node in the 8000
    characters before it. *)
Definition by_parent_search (tree : string) (keywords_lower : list string)
  : option (Z * Z * Hit) :=
  first_some
    (fun text_match =>
       let text := strip (lower (group tree text_match 1)) in
       let original_text := strip (group tree text_match 1) in
       if nonempty text && any_in keywords_lower text then
         let text_pos := m_start text_match in
         let search_start := (text_pos - 8000)%nat in
         let section_before :=
           slice search_start (text_pos - search_start) tree in
         match rev (finditer true clickable_node section_before) with
         | parent_match :: _ =>
             Some (hit_at section_before parent_match 1 original_text None)
         | [] => None
         end
       else None)
    (finditer true node_text tree).

(** METHOD 2: clickable nodes with a content-desc attribute. *)
Definition by_content_desc (tree : string) (keywords_lower : list string)
  : option (Z * Z * Hit) :=
  first_some
    (fun m =>
       let content_desc := lower (group tree m 1) in
       if any_in keywords_lower content_desc
       then Some (hit_at tree m 2 (group tree m 1) None)
       else None)
    (finditer true (clickable_with "content-desc") tree).

(** METHOD 3: clickable nodes of a button class. *)
Definition by_class (tree : string) (keywords_lower : list string)
  : option (Z * Z * Hit) :=
  first_some
    (fun m =>
       let node_text := group0 tree m in
       let class_match := search (attr "class") node_text in
       let resource_id_match := search (attr "resource-id") node_text in
       let text_match := search (attr "text") node_text in
       let desc_match := search (attr "content-desc") node_text in
       let element_class := lower (attr_or "class" node_text "") in
       let resource_id := lower (attr_or "resource-id" node_text "") in
       let text := lower (attr_or "text" node_text "") in
       let content_desc := lower (attr_or "content-desc" node_text "") in
       let is_button := contains "button" element_class
                        || contains "imagebutton" element_class in
       let all_text :=
         lower (text ++ " " ++ content_desc ++ " " ++ resource_id)%string in
       if is_button && any_in keywords_lower all_text then
         let found_text :=
           match text_match, desc_match, resource_id_match with
           | Some g, _, _ => group node_text g 1
           | None, Some g, _ => group node_text g 1
           | None, None, Some g => group node_text g 1
           | None, None, None => "button"%string
           end in
         Some (hit_at tree m 1 found_text (Some element_class))
       else None)
    (finditer true clickable_node tree).

(** METHOD 4: button-like clickable elements in the middle of the screen. *)
Definition by_position (dev : Device) (keywords_lower : list string)
  : option (Z * Z * Hit) :=
  let all_clickable := find_clickable_elements dev in
  let screen_height := 2400 in
  let screen_width := 1080 in
  first_some
    (fun elem =>
       let x := x elem in
       let y := y elem in
       let bounds := bounds elem in
       let elem_class := lower (class elem) in
       let text := lower (text elem) in
       if Nat.leb 4 (List.length bounds) then
         let width := nth 2 bounds 0 - nth 0 bounds 0 in
         let height := nth 3 bounds 0 - nth 1 bounds 0 in
         let is_button_like :=
           contains "button" elem_class
           || ((width >? 200) && (height >? 50)
               && (width <? 1000) && (height <? 200)) in
         let is_reasonable_position :=
           (y >? 300) && (y <? screen_height - 200)
           && (x >? 100) && (x <? screen_width - 100) in
         if is_button_like && is_reasonable_position then
           let all_attrs := lower (text ++ " " ++ elem_class)%string in
           if any_in keywords_lower all_attrs then
             Some (x, y,
                   {| h_text := if nonempty text then text else "button"%string;
                      h_bounds := bounds; h_center := [x; y];
                      h_class := Some elem_class |})
           else None
         else None
       else None)
    all_clickable.

Definition or_else {A} (a : option A) (b : option A) : option A :=
  match a with Some r => Some r | None => b end.

(** [AccessibilityTree.find_button_by_keywords] *)
Definition find_button_by_keywords (dev : Device) (keywords : list string)
  : option (Z * Z * Hit) :=
  match usable_tree dev with
  | None => None
  | Some tree =>
      let keywords_lower := map lower keywords in
      or_else (by_direct_text tree keywords_lower)
     (or_else (by_child_text tree keywords_lower)
     (or_else (by_parent_search tree keywords_lower)
     (or_else (by_content_desc tree keywords_lower)
     (or_else (by_class tree keywords_lower)
              (by_position dev keywords_lower)))))
  end.

End Accessibility.

(* ------------------------------------------------------------------ *)
(** ** [src/agent/error_recovery.py] *)

Module Recovery.

(** What one call of the retried action does: it returns a value or raises
    an [Exception]. *)
Inductive Outcome (A : Type) :=
| Returns (a : A)
| Raises.
Arguments Returns {A} a.
Arguments Raises {A}.

(** What [retry_with_backoff] does, in order: the calls of the action
    (numbered from 0) and the sleeps. *)
Inductive RetryEvent :=
| Called (attempt : nat)
| Slept (seconds : Q).

Record ErrorRecovery := {
  max_retries : Z;
  retry_delay : Q
}.

Section Retry.

Context {A : Type}.
(** Truthiness of a result, and the action: the outcome of its call number
    [attempt]. *)
Variable truthy : A -> bool.
Variable action : nat -> Outcome A.

(** The [for attempt in range(self.max_retries)] loop with [remaining]
    iterations to go.  [time.sleep] raises on a negative delay, outside of
    the [try], so the exception leaves the method. *)
Fixpoint retry_loop (max_retries : Z) (remaining attempt : nat) (delay : Q)
  : Outcome (option A) * list RetryEvent :=
  match remaining with
  | O => (Returns None, [])
  | S remaining' =>
      let after_failure :=
        if Z.of_nat attempt <? max_retries - 1 then
          if Qle_bool 0 delay then
            let (r, t) :=
              retry_loop max_retries remaining' (S attempt) (delay * 2)%Q in
            (r, Slept delay :: t)
          else (Raises, [])
        else retry_loop max_retries remaining' (S attempt) delay in
      match action attempt with
      | Returns result =>
          if truthy result then (Returns (Some result), [Called attempt])
          else (fst after_failure, Called attempt :: snd after_failure)
      | Raises => (fst after_failure, Called attempt :: snd after_failure)
      end
  end.

(** [ErrorRecovery.retry_with_backoff] *)
Definition retry_with_backoff (self : ErrorRecovery)
  : Outcome (option A) * list RetryEvent :=
  retry_loop (max_retries self) (Z.to_nat (max_retries self)) 0
    (retry_delay self).

End Retry.

(** The delays slept, and the number of calls, of a trace. *)
Definition delays (t : list RetryEvent) : list Q :=
  flat_map (fun e => match e with Slept d => [d] | Called _ => [] end) t.

Definition calls (t : list RetryEvent) : list nat :=
  flat_map (fun e => match e with Called i => [i] | Slept _ => [] end) t.

End Recovery.

(* ------------------------------------------------------------------ *)
(** ** [src/agent/orchestrator.py] *)

Module Orchestrator.

Import PyStr.

(** [AgentOrchestrator._validate_coordinates] *)
Definition _validate_coordinates (device_actions : Actions.DeviceActions)
    (x y : Z) : bool :=
  if (x <? 1) || (y <? 1) then false
  else if (x >? Actions.SCREEN_WIDTH device_actions)
          || (y >? Actions.SCREEN_HEIGHT device_actions) then false
  else
    let STATUS_BAR_MAX := 100 in
    if y <? STATUS_BAR_MAX then false
    else true.

(** The margin of the check above. *)
Definition STATUS_BAR_MAX : Z := 100.

(** *** The workflow state

    The state of the workflow is a Python dictionary, and so is
    [intent_parts] inside it: association lists from keys to values, where an
    assignment shadows the older entries of its key. *)

Inductive Val :=
| VNone
| VBool (b : bool)
| VInt (n : Z)
| VStr (s : string)
| VDict (d : list (string * Val)).

Definition Dict := list (string * Val).

(** [d.get(k, default)] *)
Fixpoint get (k : string) (default : Val) (d : Dict) : Val :=
  match d with
  | [] => default
  | (k', v) :: d' => if String.eqb k' k then v else get k default d'
  end.

(** [d[k] = v] *)
Definition set (k : string) (v : Val) (d : Dict) : Dict := (k, v) :: d.

(** Truthiness of a value. *)
Definition truthy (v : Val) : bool :=
  match v with
  | VNone => false
  | VBool b => b
  | VInt n => negb (n =? 0)
  | VStr s => nonempty s
  | VDict d => match d with [] => false | _ => true end
  end.

(** [v == name] for a string literal. *)
Definition is_str (v : Val) (name : string) : bool :=
  match v with VStr s => String.eqb s name | _ => false end.

Definition as_int (v : Val) : Z :=
  match v with VInt n => n | VBool true => 1 | _ => 0 end.

(** [state.get(k, False)] read as a condition, and an entry of the dictionary
    under [k]. *)
Definition flag (k : string) (state : Dict) : bool :=
  truthy (get k (VBool false) state).

Definition sub (k : string) (state : Dict) : Dict :=
  match get k (VDict []) state with VDict d => d | _ => [] end.

(** [initial_state] of [process_command], for a command given outside of a
    query session and without an issue context. *)
Definition initial_state (user_command task_id : string) : Dict :=
  [ ("user_intent", VStr user_command);
    ("task_id", VStr task_id);
    ("action_success", VBool false);
    ("task_complete", VBool false);
    ("iteration_count", VInt 0);
    ("session_active", VBool false);
    ("issue_context", VNone) ]%string.

(** *** The collaborators

    The services behind the nodes, and the branches of the nodes that are not
    modelled line by line.  Each takes the number of node executions so far,
    so that its answers may change over time. *)
Record Collaborators := {
  _parse_intent : string -> Dict;
  analyze_screen : nat -> Val;
  _perform_llm_guided_login : nat -> bool * string;
  act_other : nat -> Dict -> Dict;
  verify_open_app : nat -> Dict -> Dict;
  _confirm_action : nat -> Dict -> Dict;
  _execute_query : nat -> Dict -> Dict;
  _handle_error : nat -> Dict -> Dict;
  _respond : nat -> Dict -> Dict
}.

(** The nodes of the graph of [_build_workflow], and its end. *)
Inductive Node :=
| observe | analyze | act | authenticate | verify | respond | handle_error
| confirm_action | execute_query | END.

Section Workflow.

Variable c : Collaborators.

Local Open Scope string_scope.

(** [AgentOrchestrator._observe] *)
Definition _observe (t : nat) (state : Dict) : Dict :=
  let state :=
    set "iteration_count"
        (VInt (as_int (get "iteration_count" (VInt 0) state) + 1)) state in
  let max_iterations := 5 in
  if as_int (get "iteration_count" VNone state) >? max_iterations then
    let state :=
      set "error" (VStr "Maximum iterations reached. Task may be incomplete.")
          state in
    let state := set "task_complete" (VBool true) state in
    state
  else
    let state := set "screen_analysis" (analyze_screen c t) state in
    state.

(** [AgentOrchestrator._analyze] *)
Definition _analyze (state : Dict) : Dict :=
  if truthy (get "query_session_follow_up" VNone state)
     && truthy (get "pending_query" VNone state)
     && truthy (get "pending_app" VNone state) then
    let pending_app := get "pending_app" VNone state in
    let state :=
      set "intent_parts"
          (VDict [("action", VStr "open_app"); ("app", pending_app);
                  ("query", get "pending_query" VNone state)]) state in
    let state := set "needs_query_execution" (VBool true) state in
    state
  else if truthy (get "whatsapp_follow_up" VNone state)
          && truthy (get "intent_parts" VNone state)
          && is_str (get "action" VNone (sub "intent_parts" state))
                    "send_whatsapp_message" then
    state
  else
    let intent_parts :=
      _parse_intent c
        (match get "user_intent" (VStr "") state with
         | VStr s => s
         | _ => ""
         end) in
    let state := set "intent_parts" (VDict intent_parts) state in
    let wants_login := get "wants_login" (VBool false) intent_parts in
    let needs_auth := wants_login in
    let state := set "needs_auth" needs_auth state in
    state.

(** [AgentOrchestrator._should_authenticate] *)
Definition _should_authenticate (state : Dict) : string :=
  let intent_parts := sub "intent_parts" state in
  let action := get "action" VNone intent_parts in
  if is_str action "open_app" && flag "action_success" state then "act"
  else if is_str action "login" && flag "session_active" state
  then "authenticate"
  else if flag "needs_auth" state then
    if truthy (get "login_complete" VNone state)
       && is_str (get "login_method" VNone state) "google"
    then "act"
    else "authenticate"
  else "act".

(** [AgentOrchestrator._authenticate] *)
Definition _authenticate (t : nat) (state : Dict) : Dict :=
  if truthy (get "login_complete" VNone state)
     && is_str (get "login_method" VNone state) "google" then
    let state := set "auth_success" (VBool true) state in
    let state := set "auth_message" (VStr "Logged in via Google") state in
    let state := set "action_success" (VBool true) state in
    let state := set "session_active" (VBool true) state in
    let state := set "task_complete" (VBool false) state in
    state
  else
    let '(success, message) := _perform_llm_guided_login c t in
    let state := set "auth_success" (VBool success) state in
    let state := set "auth_message" (VStr message) state in
    let state := set "action_success" (VBool success) state in
    if success then
      let state := set "session_active" (VBool true) state in
      let state := set "task_complete" (VBool false) state in
      state
    else
      let state := set "error" (VStr message) state in
      let state := set "task_complete" (VBool false) state in
      state.

(** [AgentOrchestrator._act]: the follow-up, close and login branches as
    written, the other actions through [act_other]. *)
Definition _act (t : nat) (state : Dict) : Dict :=
  let intent_parts := sub "intent_parts" state in
  let action := get "action" VNone intent_parts in
  if truthy (get "query_session_follow_up" VNone state) then
    set "action_success" (VBool true) state
  else if is_str action "open_app" then act_other c t state
  else if is_str action "close_app" then
    let state := set "action_success" (VBool true) state in
    let state := set "task_complete" (VBool true) state in
    state
  else if is_str action "login" then
    let state := set "action_success" (VBool true) state in
    let state := set "needs_auth" (VBool true) state in
    let state := set "task_complete" (VBool false) state in
    state
  else act_other c t state.

(** [AgentOrchestrator._verify]: the open-app branch through
    [verify_open_app], the rest as written. *)
Definition _verify (t : nat) (state : Dict) : Dict :=
  if flag "action_success" state then
    let intent_parts := sub "intent_parts" state in
    let action := get "action" VNone intent_parts in
    if is_str action "open_app" then verify_open_app c t state
    else if is_str action "extract" || is_str action "query" then
      let state := set "task_complete" (VBool false) state in
      let state := set "session_active" (VBool true) state in
      state
    else
      let state := set "task_complete" (VBool false) state in
      let state := set "session_active" (VBool true) state in
      state
  else state.

(** [AgentOrchestrator._is_complete] *)
Definition _is_complete (state : Dict) : string :=
  if flag "needs_auth" state then "authenticate"
  else if flag "task_complete" state && negb (flag "session_active" state)
  then "complete"
  else if flag "needs_confirmation" state then "confirm"
  else if flag "needs_query_execution" state then "execute_query"
  else if truthy (get "error" VNone state) && negb (flag "session_active" state)
  then "error"
  else if flag "session_active" state then "complete"
  else "continue".

(** The conditional edges of [_build_workflow]. *)
Definition analyze_edges (r : string) : Node :=
  if String.eqb r "authenticate" then authenticate else act.

Definition verify_edges (r : string) : Node :=
  if String.eqb r "complete" then respond
  else if String.eqb r "confirm" then confirm_action
  else if String.eqb r "execute_query" then execute_query
  else if String.eqb r "authenticate" then authenticate
  else if String.eqb r "continue" then observe
  else handle_error.

(** One node execution and the edge taken after it; [t] node executions
    came before. *)
Definition step (t : nat) (n : Node) (state : Dict) : Node * Dict :=
  match n with
  | observe => (analyze, _observe t state)
  | analyze =>
      let state := _analyze state in
      (analyze_edges (_should_authenticate state), state)
  | act => (verify, _act t state)
  | authenticate => (verify, _authenticate t state)
  | verify =>
      let state := _verify t state in
      (verify_edges (_is_complete state), state)
  | confirm_action =>
      let state := _confirm_action c t state in
      (if truthy (get "needs_query_execution" VNone state)
       then execute_query else respond, state)
  | execute_query => (respond, _execute_query c t state)
  | handle_error => (respond, _handle_error c t state)
  | respond => (END, _respond c t state)
  | END => (END, state)
  end.

(** [workflow.invoke]: the graph run from its entry point for [fuel] node
    executions.  (The graph library's own limit on the number of steps is not
    part of the source.) *)
Fixpoint run_from (fuel t : nat) (n : Node) (state : Dict) : Node * Dict :=
  match fuel with
  | O => (n, state)
  | S fuel' =>
      let '(n', state') := step t n state in
      run_from fuel' (S t) n' state'
  end.

Definition invoke (fuel : nat) (initial : Dict) : Node * Dict :=
  run_from fuel 0 observe initial.

End Workflow.

End Orchestrator.

(* ------------------------------------------------------------------ *)
(** ** [src/device/accessibility.py]: the other locators *)

Module Locators.

Import PyStr PyList Re Accessibility.

(** [AccessibilityTree.is_keyboard_visible] *)
Definition is_keyboard_visible (dev : Device) : bool :=
  match shell dev "dumpsys input_method" with
  | None => false
  | Some out =>
      if nonempty out && contains "mInputShown=true" out then true
      else if nonempty out && contains "mInputShown=false" out then false
      else false
  end.

(** *** [find_button_below_y] *)

Definition below_input_types : list string :=
  ["edittext"; "textfield"; "edit"; "input"]%string.

(** The body of the loop of [find_button_below_y]. *)
Definition below_candidate (tree : string) (min_y min_width min_height : Z)
    (m : Match) : option Button :=
  let x1 := int_group tree m 1 in
  let y1 := int_group tree m 2 in
  let x2 := int_group tree m 3 in
  let y2 := int_group tree m 4 in
  let width := x2 - x1 in
  let height := y2 - y1 in
  let center_y := (y1 + y2) / 2 in
  if center_y <=? min_y + 50 then None
  else if (width >=? min_width) && (height >=? min_height) then
    let center_x := (x1 + x2) / 2 in
    let node_tag := slice_chars (m_start m) 500 tree in
    let class_name := attr_or "class" node_tag "" in
    let text_content := attr_or "text" node_tag "" in
    let class_lower := lower class_name in
    if any_in below_input_types class_lower then None
    else Some {| b_x := center_x; b_y := center_y;
                 b_bounds := [x1; y1; x2; y2];
                 b_width := width; b_height := height;
                 b_text := text_content; b_class := class_name |}
  else None.

(** The list [clickable_buttons] of [find_button_below_y] when its loop
    ends. *)
Definition buttons_below (dev : Device) (min_y min_width min_height : Z)
  : list Button :=
  match usable_tree dev with
  | None => []
  | Some tree =>
      collect (below_candidate tree min_y min_width min_height)
        (finditer true clickable_bounds tree)
  end.

(** [AccessibilityTree.find_button_below_y]; the defaults of [min_width] and
    [min_height] are 300 and 80. *)
Definition find_button_below_y (dev : Device) (min_y min_width min_height : Z)
  : option (Z * Z * Button) :=
  match sort_by button_y_le (buttons_below dev min_y min_width min_height) with
  | best_button :: _ => Some (b_x best_button, b_y best_button, best_button)
  | [] => None
  end.

(** *** [find_whatsapp_send_button] *)

Definition WHATSAPP_SEND_REGION : Z * Z * Z * Z := (1000, 1080, 1200, 1800).
Definition WHATSAPP_SEND_FALLBACK : Z * Z := (1080, 1500).

Record WhatsAppCandidate := {
  w_x : Z;
  w_y : Z;
  priority : Z
}.

Inductive WhatsAppInfo :=
| WCandidate (c : WhatsAppCandidate)
| WFallback (fx fy : Z) (fdesc : string).

(** The body of the loop: [None] where the source says [continue]. *)
Definition whatsapp_candidate (elem : Element) : option WhatsAppCandidate :=
  let '(x_min, x_max, y_min, y_max) := WHATSAPP_SEND_REGION in
  let x := x elem in
  let y := y elem in
  if negb ((x_min <=? x) && (x <=? x_max) && (y_min <=? y) && (y <=? y_max))
  then None
  else if contains "edittext" (lower (class elem)) then None
  else
    let desc := lower (content_desc elem) in
    let cls := lower (class elem) in
    let priority :=
      if contains "send" desc then 4
      else if contains "image" cls || contains "button" cls then 3
      else 2 in
    Some {| w_x := x; w_y := y; priority := priority |}.

(** Order of the sort key [(-priority, -x)]. *)
Definition whatsapp_key_le (a b : WhatsAppCandidate) : bool :=
  if - priority a =? - priority b then - w_x a <=? - w_x b
  else - priority a <? - priority b.

(** [AccessibilityTree.find_whatsapp_send_button] *)
Definition find_whatsapp_send_button (dev : Device)
  : option (Z * Z * WhatsAppInfo) :=
  let elements := find_clickable_elements dev in
  let candidates := collect whatsapp_candidate elements in
  match sort_by whatsapp_key_le candidates with
  | best :: _ => Some (w_x best, w_y best, WCandidate best)
  | [] =>
      let '(fx, fy) := WHATSAPP_SEND_FALLBACK in
      Some (fx, fy, WFallback fx fy "send (fallback)")
  end.

(** *** [find_input_field] *)

(** [<node[^>]*bounds=...[^>]*>] *)
Definition bounds_node : pattern :=
  lits "<node" ++ [not_gt] ++ bounds_attr ++ [not_gt] ++ lits ">".

Record InputField := {
  i_x : Z;
  i_y : Z;
  i_bounds : list Z;
  i_width : Z;
  i_height : Z;
  i_class : string;
  i_hint : string;
  i_text : string
}.

Definition input_field_types : list string :=
  ["edittext"; "textfield"; "textinput"; "edit"; "editabletext";
   "autocomplete"; "searchview"; "input"]%string.

(** What one turn of the loop of [find_input_field] does. *)
Inductive Turn (A : Type) :=
| Skip
| Keep (a : A)
| Raise.
Arguments Skip {A}.
Arguments Keep {A} a.
Arguments Raise {A}.

(** The body of the loop.  A node without a class attribute makes
    [class_match.group(1)] raise, for [class_match] is [None]. *)
Definition input_candidate (tree : string) (m : Match) : Turn InputField :=
  let x1 := int_group tree m 1 in
  let y1 := int_group tree m 2 in
  let x2 := int_group tree m 3 in
  let y2 := int_group tree m 4 in
  let node_tag := group0 tree m in
  match search (attr "class") node_tag with
  | None => Raise
  | Some class_match =>
      let class_name := lower (group node_tag class_match 1) in
      let is_input := any_in input_field_types class_name in
      if negb is_input then Skip
      else
        let center_x := (x1 + x2) / 2 in
        let center_y := (y1 + y2) / 2 in
        let width := x2 - x1 in
        let height := y2 - y1 in
        if (width <? 50) || (height <? 30) then Skip
        else
          Keep {| i_x := center_x; i_y := center_y;
                  i_bounds := [x1; y1; x2; y2];
                  i_width := width; i_height := height;
                  i_class := class_name;
                  i_hint := attr_or "hint" node_tag "";
                  i_text := attr_or "text" node_tag "" |}
  end.

(** The loop: the candidates in document order, or [None] when a turn
    raises. *)
Fixpoint run_turns {A B} (f : A -> Turn B) (l : list A) : option (list B) :=
  match l with
  | [] => Some []
  | a :: l' =>
      match f a with
      | Raise => None
      | Skip => run_turns f l'
      | Keep b =>
          match run_turns f l' with
          | Some bs => Some (b :: bs)
          | None => None
          end
      end
  end.

Definition in_region (y_min y_max : Z) (c : InputField) : bool :=
  (300 <=? i_x c) && (i_x c <=? 800) && (y_min <=? i_y c) && (i_y c <=? y_max).

(** Order of the sort key [dist(e)], the squared distance to
    [(540, target_y)]. *)
Definition dist (target_y : Z) (e : InputField) : Z :=
  (i_x e - 540) ^ 2 + (i_y e - target_y) ^ 2.

Definition dist_le (target_y : Z) (a b : InputField) : bool :=
  dist target_y a <=? dist target_y b.

(** [AccessibilityTree.find_input_field] *)
Definition find_input_field (dev : Device) : option (Z * Z * InputField) :=
  match usable_tree dev with
  | None => None
  | Some tree =>
      let keyboard_open := is_keyboard_visible dev in
      let '(region_y_min, region_y_max, target_y) :=
        if keyboard_open then (1200, 1800, 1500) else (2000, 2500, 2200) in
      match run_turns (input_candidate tree) (finditer true bounds_node tree) with
      | None => None
      | Some candidates =>
          match candidates with
          | [] => None
          | _ =>
              let in_first :=
                filter (in_region region_y_min region_y_max) candidates in
              let '(in_reg, target_y) :=
                match in_first with
                | [] =>
                    let '(other_y_min, other_y_max) :=
                      if keyboard_open then (2000, 2500) else (1200, 1800) in
                    let other_target := if keyboard_open then 2200 else 1500 in
                    let in_other :=
                      filter (in_region other_y_min other_y_max) candidates in
                    match in_other with
                    | [] => (in_other, target_y)
                    | _ => (in_other, other_target)
                    end
                | _ => (in_first, target_y)
                end in
              match sort_by (dist_le target_y) in_reg with
              | best :: _ => Some (i_x best, i_y best, best)
              | [] => None
              end
          end
      end
  end.

(** *** [find_continue_button] *)

(** The dictionary [button_info]. *)
Record ContinueButton := {
  k_x : Z;
  k_y : Z;
  k_bounds : list Z;
  k_width : Z;
  k_height : Z;
  k_text : string;
  k_desc : string;
  k_class : string
}.

Definition continue_keywords : list string :=
  ["continue"; "next"; "proceed"; "ok"; "confirm"; "done"]%string.

(** The body of the loop of [find_continue_button]: the button, whether it
    goes to [text_matches] and whether it goes to [position_matches]; [None]
    where the source says [continue]. *)
Definition continue_candidate (tree : string) (m : Match)
  : option (ContinueButton * bool * bool) :=
  let x1 := int_group tree m 1 in
  let y1 := int_group tree m 2 in
  let x2 := int_group tree m 3 in
  let y2 := int_group tree m 4 in
  let width := x2 - x1 in
  let height := y2 - y1 in
  let center_x := (x1 + x2) / 2 in
  let center_y := (y1 + y2) / 2 in
  if (width <? 80) || (height <? 30) then None
  else
    let node_str := slice_chars (m_start m) 800 tree in
    let text := attr_or "text" node_str "" in
    let desc := attr_or "content-desc" node_str "" in
    let class_name := attr_or "class" node_str "" in
    let text_lower := lower text in
    let desc_lower := lower desc in
    let combined := (text_lower ++ " " ++ desc_lower)%string in
    if any_in ["edittext"; "edit"; "input"]%string (lower class_name) then None
    else
      let button_info :=
        {| k_x := center_x; k_y := center_y; k_bounds := [x1; y1; x2; y2];
           k_width := width; k_height := height;
           k_text := text; k_desc := desc; k_class := class_name |} in
      Some (button_info,
            any_in continue_keywords combined,
            (center_y >? 350) && (width >? 80) && (height >? 35)).

Definition continue_candidates (dev : Device)
  : list (ContinueButton * bool * bool) :=
  match usable_tree dev with
  | None => []
  | Some tree =>
      collect (continue_candidate tree) (finditer true clickable_bounds tree)
  end.

(** The lists [text_matches] and [position_matches] when the loop ends. *)
Definition text_matches (dev : Device) : list ContinueButton :=
  map (fun c => fst (fst c))
      (filter (fun c => snd (fst c)) (continue_candidates dev)).

Definition position_matches (dev : Device) : list ContinueButton :=
  map (fun c => fst (fst c))
      (filter (fun c => snd c) (continue_candidates dev)).

(** Order of the sort keys [-y] and [(-y, -x)]. *)
Definition lower_first (a b : ContinueButton) : bool := - k_y a <=? - k_y b.

Definition lower_right_first (a b : ContinueButton) : bool :=
  if - k_y a =? - k_y b then - k_x a <=? - k_x b else - k_y a <? - k_y b.

(** [AccessibilityTree.find_continue_button] *)
Definition find_continue_button (dev : Device)
  : option (Z * Z * ContinueButton) :=
  match sort_by lower_first (text_matches dev) with
  | best :: _ => Some (k_x best, k_y best, best)
  | [] =>
      match sort_by lower_right_first (position_matches dev) with
      | best :: _ => Some (k_x best, k_y best, best)
      | [] => None
      end
  end.

End Locators.

(* ------------------------------------------------------------------ *)
(** ** [src/device/actions.py]: keys, swipes and typing *)

Module Gestures.

Import PyStr Actions.
Local Open Scope string_scope.

(** The class constant [NAVIGATION_BAR_HEIGHT], which no method updates. *)
Definition NAVIGATION_BAR_HEIGHT : Z := 100.

(** A device command followed by a sleep, inside a [try]: the flag returned
    and the trace.  The output of the command is not looked at. *)
Definition shell_then_sleep (dev : Device) (cmd : string) (seconds : Q)
  : bool * list Event :=
  match shell dev cmd with
  | None => (false, [Shell cmd])
  | Some _ => (true, [Shell cmd; Sleep seconds])
  end.

(** [DeviceActions.press_key] *)
Definition press_key (self : DeviceActions) (keycode : string)
  : bool * list Event :=
  shell_then_sleep (device self) ("input keyevent " ++ keycode) (1 # 5).

(** [DeviceActions.back], [home] and [recent_apps] *)
Definition back (self : DeviceActions) : bool * list Event :=
  press_key self "KEYCODE_BACK".
Definition home (self : DeviceActions) : bool * list Event :=
  press_key self "KEYCODE_HOME".
Definition recent_apps (self : DeviceActions) : bool * list Event :=
  press_key self "KEYCODE_APP_SWITCH".

(** [f"input swipe {x1} {y1} {x2} {y2} {duration}"] *)
Definition swipe_command (x1 y1 x2 y2 duration : Z) : string :=
  "input swipe " ++ str x1 ++ " " ++ str y1 ++ " " ++ str x2 ++ " " ++ str y2
  ++ " " ++ str duration.

(** [DeviceActions.swipe]; the default of [duration] is 300. *)
Definition swipe (self : DeviceActions) (x1 y1 x2 y2 duration : Z)
  : bool * list Event :=
  shell_then_sleep (device self) (swipe_command x1 y1 x2 y2 duration) (1 # 5).

(** [DeviceActions.swipe_up]; the default of [distance] is 500. *)
Definition swipe_up (self : DeviceActions) (distance : Z) : bool * list Event :=
  let center_x := SCREEN_WIDTH self / 2 in
  let start_y := SCREEN_HEIGHT self - NAVIGATION_BAR_HEIGHT - 200 in
  let end_y := start_y - distance in
  swipe self center_x start_y center_x end_y 300.

(** [DeviceActions.swipe_down]; the default of [distance] is 500. *)
Definition swipe_down (self : DeviceActions) (distance : Z)
  : bool * list Event :=
  let center_x := SCREEN_WIDTH self / 2 in
  let start_y := STATUS_BAR_HEIGHT self + 200 in
  let end_y := start_y + distance in
  swipe self center_x start_y center_x end_y 300.

(** [DeviceActions.long_press]; the default of [duration] is 500. *)
Definition long_press (self : DeviceActions) (x y duration : Z)
  : bool * list Event :=
  shell_then_sleep (device self) (swipe_command x y x y duration) (3 # 10).

(** [DeviceActions.wait]: it returns [None]; [time.sleep] raises on a negative
    argument. *)
Definition wait (seconds : Q) : option (list Event) :=
  if Qle_bool 0 seconds then Some [Sleep seconds] else None.

(** The steps of a method body inside one [try]: they run in order until a
    device command raises; the flag says whether all of them ran. *)
Fixpoint run_steps (dev : Device) (steps : list Event) : bool * list Event :=
  match steps with
  | [] => (true, [])
  | Sleep s :: rest =>
      let '(ok, t) := run_steps dev rest in (ok, Sleep s :: t)
  | Shell cmd :: rest =>
      match shell dev cmd with
      | None => (false, [Shell cmd])
      | Some _ => let '(ok, t) := run_steps dev rest in (ok, Shell cmd :: t)
      end
  end.

(** The body of [clear_text_field]: select all and delete, move to the end,
    then sixty deletes. *)
Definition clear_steps : list Event :=
  ([Shell "input keyevent KEYCODE_CTRL_A"; Sleep (1 # 10);
   Shell "input keyevent KEYCODE_DEL"; Sleep (1 # 10);
   Shell "input keyevent KEYCODE_MOVE_END"; Sleep (1 # 20)]
  ++ repeat (Shell "input keyevent KEYCODE_DEL") 60
  ++ [Sleep (1 # 10)])%list.

(** [DeviceActions.clear_text_field] *)
Definition clear_text_field (self : DeviceActions) : bool * list Event :=
  run_steps (device self) clear_steps.

(** [text.replace(' ', '%s')] *)
Fixpoint replace_spaces (text : string) : string :=
  match text with
  | EmptyString => EmptyString
  | String c rest =>
      if Ascii.eqb c " "%char then "%s" ++ replace_spaces rest
      else String c (replace_spaces rest)
  end.

(** [DeviceActions.type_text]: [Some] of the flag returned, or [None] when the
    method ends in its [except] branch, which has no [return].  The flag of
    [clear_text_field] is not looked at. *)
Definition type_text (self : DeviceActions) (text : string) (clear_first : bool)
  : option bool * list Event :=
  let cleared := if clear_first then snd (clear_text_field self) else [] in
  let escaped_text := replace_spaces text in
  let cmd := "input text " ++ escaped_text in
  match shell (device self) cmd with
  | None => (None, (cleared ++ [Shell cmd])%list)
  | Some result =>
      if nonempty result && contains "error" (lower result)
      then (Some false, (cleared ++ [Shell cmd; Sleep (3 # 10)])%list)
      else (Some true, (cleared ++ [Shell cmd; Sleep (3 # 10)])%list)
  end.

(** The dictionary [keycode_map]. *)
Definition keycode_map : list (ascii * string) :=
  [("0"%char, "KEYCODE_0"); ("1"%char, "KEYCODE_1"); ("2"%char, "KEYCODE_2");
   ("3"%char, "KEYCODE_3"); ("4"%char, "KEYCODE_4"); ("5"%char, "KEYCODE_5");
   ("6"%char, "KEYCODE_6"); ("7"%char, "KEYCODE_7"); ("8"%char, "KEYCODE_8");
   ("9"%char, "KEYCODE_9")].

Definition keycode_of (c : ascii) : option string :=
  match find (fun kv => Ascii.eqb (fst kv) c) keycode_map with
  | Some kv => Some (snd kv)
  | None => None
  end.

(** The loop of [type_digits_keyevent] over the characters left. *)
Fixpoint type_digits_loop (dev : Device) (chars : list ascii)
  : bool * list Event :=
  match chars with
  | [] => (true, [])
  | char :: rest =>
      match keycode_of char with
      | Some keycode =>
          let cmd := "input keyevent " ++ keycode in
          match shell dev cmd with
          | None => (false, [Shell cmd])
          | Some _ =>
              let '(ok, t) := type_digits_loop dev rest in
              (ok, Shell cmd :: Sleep (3 # 20) :: t)
          end
      | None => type_digits_loop dev rest
      end
  end.

(** [DeviceActions.type_digits_keyevent] *)
Definition type_digits_keyevent (self : DeviceActions) (digits_str : string)
  : bool * list Event :=
  type_digits_loop (device self) (list_ascii_of_string digits_str).

End Gestures.

(* ------------------------------------------------------------------ *)
(** ** [src/agent/error_recovery.py]: popups and recovery *)

Module Popups.

Import PyStr Actions Gestures Recovery.
Local Open Scope string_scope.

(** An element of the screen analysis, with the defaults of
    [element.get(...)] filled in: the description, x and y. *)
Record ScreenElement := {
  e_description : string;
  e_x : Z;
  e_y : Z
}.

(** The screen analyzer as [handle_popup] uses it: the outcome of
    [detect_popup(device)] and the list [result.get("elements", [])] of
    [analyze_screen(device, detect_elements=True)], each of which may raise.
    What the analyzer itself does to the device is not part of the traces
    below. *)
Record ScreenAnalyzer := {
  detect_popup : Outcome bool;
  analyze_screen : Outcome (list ScreenElement)
}.

(** The collaborators that [ErrorRecovery.__init__] stores. *)
Record Recoverer := {
  screen_analyzer : ScreenAnalyzer;
  device_actions : DeviceActions
}.

Definition dismiss_words : list string :=
  ["close"; "dismiss"; "ok"; "cancel"; "x"].

(** The test of the loop of [handle_popup] on one element. *)
Definition mentions_dismissal (element : ScreenElement) : bool :=
  any_in dismiss_words (lower (e_description element)).

(** [ErrorRecovery.handle_popup].  The argument [action] is [None] for the
    default, or the outcome of calling the given callable: the trace it
    leaves, or [Raises]. *)
Definition handle_popup (self : Recoverer)
    (action : option (Outcome (list Event))) : bool * list Event :=
  match detect_popup (screen_analyzer self) with
  | Raises => (false, [])
  | Returns false => (false, [])
  | Returns true =>
      match analyze_screen (screen_analyzer self) with
      | Raises => (false, [])
      | Returns elements =>
          match find mentions_dismissal elements with
          | Some element =>
              let tapped :=
                tap (device_actions self) (e_x element) (e_y element) (1 # 10) in
              (true, (snd tapped ++ [Sleep 1%Q])%list)
          | None =>
              match action with
              | Some Raises => (false, [])
              | Some (Returns t) => (true, (t ++ [Sleep 1%Q])%list)
              | None => (true, (snd (back (device_actions self)) ++ [Sleep 1%Q])%list)
              end
          end
      end
  end.

(** The loop over [alternative_strategies]: each strategy is the outcome of
    its call; the loop stops at the first that returns a true value. *)
Definition strategy_succeeds (strategies : list (Outcome bool)) : bool :=
  existsb (fun s => match s with Returns true => true | _ => false end)
          strategies.

(** [ErrorRecovery.handle_element_not_found] *)
Definition handle_element_not_found (self : Recoverer)
    (alternative_strategies : list (Outcome bool)) : bool * list Event :=
  let '(handled, t) := handle_popup self None in
  if handled then (true, t)
  else if strategy_succeeds alternative_strategies then (true, t)
  else
    (false, (t ++ snd (swipe_up (device_actions self) 500) ++ [Sleep 1%Q])%list).

(** [ErrorRecovery.recover_from_error]: [Some] of the flag returned, or
    [None] for the [None] that [wait] returns. *)
Definition recover_from_error (self : Recoverer) (error_type : string)
  : option bool * list Event :=
  if String.eqb error_type "popup" then
    let '(r, t) := handle_popup self None in (Some r, t)
  else if String.eqb error_type "timeout" then
    let '(r, t) := back (device_actions self) in (Some r, t)
  else if String.eqb error_type "element_not_found" then
    let '(r, t) := handle_element_not_found self [] in (Some r, t)
  else if String.eqb error_type "network" then
    (None, [Sleep 2%Q])
  else
    (Some true, (snd (back (device_actions self)) ++ [Sleep 1%Q])%list).

End Popups.

(* ------------------------------------------------------------------ *)
(** ** [src/agent/state.py] *)

Module State.

Import Orchestrator.
Local Open Scope string_scope.

Inductive AgentState :=
| IDLE | LISTENING | OBSERVING | ANALYZING | ACTING | AUTHENTICATING
| VERIFYING | RESPONDING | ERROR | COMPLETED.

(** The [value] of a member of the enumeration. *)
Definition value (s : AgentState) : string :=
  match s with
  | IDLE => "idle" | LISTENING => "listening" | OBSERVING => "observing"
  | ANALYZING => "analyzing" | ACTING => "acting"
  | AUTHENTICATING => "authenticating" | VERIFYING => "verifying"
  | RESPONDING => "responding" | ERROR => "error" | COMPLETED => "completed"
  end.

Record TaskState := {
  task_id : string;
  user_intent : string;
  current_state : AgentState;
  steps_completed : list string;
  current_step : option string;
  screen_context : option Dict;
  detected_elements : list Dict;
  error_count : Z;
  retry_count : Z;
  metadata : Dict
}.

(** [TaskState(task_id=..., user_intent=...)] with the defaults of the data
    class. *)
Definition new_task (task_id user_intent : string) : TaskState :=
  {| task_id := task_id; user_intent := user_intent; current_state := IDLE;
     steps_completed := []; current_step := None; screen_context := None;
     detected_elements := []; error_count := 0; retry_count := 0;
     metadata := [] |}.

Record AgentStateManager := {
  current_task : option TaskState;
  task_history : list TaskState;
  authentication_state : option Dict;
  device_info : option Dict;
  last_screen_analysis : option Dict;
  cached_screen : option string
}.

(** [AgentStateManager()] *)
Definition new_manager : AgentStateManager :=
  {| current_task := None; task_history := []; authentication_state := None;
     device_info := None; last_screen_analysis := None;
     cached_screen := None |}.

Definition with_current (self : AgentStateManager) (t : option TaskState)
  : AgentStateManager :=
  {| current_task := t; task_history := task_history self;
     authentication_state := authentication_state self;
     device_info := device_info self;
     last_screen_analysis := last_screen_analysis self;
     cached_screen := cached_screen self |}.

(** A method that updates the current task when there is one. *)
Definition on_current (self : AgentStateManager)
    (f : TaskState -> TaskState) : AgentStateManager :=
  match current_task self with
  | Some t => with_current self (Some (f t))
  | None => self
  end.

(** [start_task]: the manager afterwards; the task returned is its current
    task. *)
Definition start_task (self : AgentStateManager) (task_id user_intent : string)
  : AgentStateManager :=
  with_current self (Some (new_task task_id user_intent)).

Definition update_state (self : AgentStateManager) (new_state : AgentState)
  : AgentStateManager :=
  on_current self (fun t =>
    {| task_id := task_id t; user_intent := user_intent t;
       current_state := new_state;
       steps_completed := steps_completed t; current_step := current_step t;
       screen_context := screen_context t;
       detected_elements := detected_elements t;
       error_count := error_count t; retry_count := retry_count t;
       metadata := metadata t |}).

Definition add_step (self : AgentStateManager) (step : string)
  : AgentStateManager :=
  on_current self (fun t =>
    {| task_id := task_id t; user_intent := user_intent t;
       current_state := current_state t;
       steps_completed := steps_completed t ++ [step];
       current_step := current_step t;
       screen_context := screen_context t;
       detected_elements := detected_elements t;
       error_count := error_count t; retry_count := retry_count t;
       metadata := metadata t |}).

Definition set_current_step (self : AgentStateManager) (step : string)
  : AgentStateManager :=
  on_current self (fun t =>
    {| task_id := task_id t; user_intent := user_intent t;
       current_state := current_state t;
       steps_completed := steps_completed t; current_step := Some step;
       screen_context := screen_context t;
       detected_elements := detected_elements t;
       error_count := error_count t; retry_count := retry_count t;
       metadata := metadata t |}).

Definition increment_error (self : AgentStateManager) : AgentStateManager :=
  on_current self (fun t =>
    {| task_id := task_id t; user_intent := user_intent t;
       current_state := current_state t;
       steps_completed := steps_completed t; current_step := current_step t;
       screen_context := screen_context t;
       detected_elements := detected_elements t;
       error_count := error_count t + 1; retry_count := retry_count t;
       metadata := metadata t |}).

Definition increment_retry (self : AgentStateManager) : AgentStateManager :=
  on_current self (fun t =>
    {| task_id := task_id t; user_intent := user_intent t;
       current_state := current_state t;
       steps_completed := steps_completed t; current_step := current_step t;
       screen_context := screen_context t;
       detected_elements := detected_elements t;
       error_count := error_count t; retry_count := retry_count t + 1;
       metadata := metadata t |}).

Definition complete_task (self : AgentStateManager) : AgentStateManager :=
  match current_task self with
  | Some t =>
      let completed :=
        {| task_id := task_id t; user_intent := user_intent t;
           current_state := COMPLETED;
           steps_completed := steps_completed t;
           current_step := current_step t;
           screen_context := screen_context t;
           detected_elements := detected_elements t;
           error_count := error_count t; retry_count := retry_count t;
           metadata := metadata t |} in
      {| current_task := None;
         task_history := task_history self ++ [completed];
         authentication_state := authentication_state self;
         device_info := device_info self;
         last_screen_analysis := last_screen_analysis self;
         cached_screen := cached_screen self |}
  | None => self
  end.

Definition set_authentication_state (self : AgentStateManager)
    (auth_state : Dict) : AgentStateManager :=
  {| current_task := current_task self; task_history := task_history self;
     authentication_state := Some auth_state;
     device_info := device_info self;
     last_screen_analysis := last_screen_analysis self;
     cached_screen := cached_screen self |}.

Definition clear_authentication_state (self : AgentStateManager)
  : AgentStateManager :=
  {| current_task := current_task self; task_history := task_history self;
     authentication_state := None;
     device_info := device_info self;
     last_screen_analysis := last_screen_analysis self;
     cached_screen := cached_screen self |}.

Definition update_screen_context (self : AgentStateManager) (context : Dict)
  : AgentStateManager :=
  let self' := on_current self (fun t =>
    {| task_id := task_id t; user_intent := user_intent t;
       current_state := current_state t;
       steps_completed := steps_completed t; current_step := current_step t;
       screen_context := Some context;
       detected_elements := detected_elements t;
       error_count := error_count t; retry_count := retry_count t;
       metadata := metadata t |}) in
  {| current_task := current_task self'; task_history := task_history self';
     authentication_state := authentication_state self';
     device_info := device_info self';
     last_screen_analysis := Some context;
     cached_screen := cached_screen self' |}.

(** The dictionary of [get_state_summary]. *)
Record Summary := {
  s_task_id : option string;
  s_intent : option string;
  s_state : option string;
  s_steps_completed : list string;
  s_error_count : Z;
  has_auth_state : bool;
  task_count : Z
}.

Definition get_state_summary (self : AgentStateManager) : Summary :=
  {| s_task_id := option_map task_id (current_task self);
     s_intent := option_map user_intent (current_task self);
     s_state := option_map (fun t => value (current_state t))
                           (current_task self);
     s_steps_completed :=
       match current_task self with
       | Some t => steps_completed t
       | None => []
       end;
     s_error_count :=
       match current_task self with
       | Some t => error_count t
       | None => 0
       end;
     has_auth_state :=
       match authentication_state self with Some _ => true | None => false end;
     task_count := Z.of_nat (List.length (task_history self)) |}.

End State.

(* ------------------------------------------------------------------ *)
(** ** [src/agent/orchestrator.py]: the button below a field *)

Module LoginFlow.

Import PyStr Actions Gestures Accessibility Locators.
Local Open Scope string_scope.

(** [_click_continue_button_below_field]: what the device actions do.  The
    locator and the actions work on the same device. *)
Definition _click_continue_button_below_field (device_actions : DeviceActions)
    (field_y : Z) : list Event :=
  match find_button_below_y (device device_actions) field_y 300 80 with
  | Some (x, y, button_info) =>
      (snd (tap device_actions x y (1 # 2)) ++ [Sleep 2%Q])%list
  | None =>
      (snd (press_key device_actions "KEYCODE_ENTER") ++ [Sleep 2%Q])%list
  end.

(** [_click_submit_button_below_field] *)
Definition _click_submit_button_below_field (device_actions : DeviceActions)
    (field_y : Z) : list Event :=
  match find_button_below_y (device device_actions) field_y 300 80 with
  | Some (x, y, button_info) =>
      (snd (tap device_actions x y (1 # 2)) ++ [Sleep 3%Q])%list
  | None =>
      (snd (press_key device_actions "KEYCODE_ENTER") ++ [Sleep 3%Q])%list
  end.

End LoginFlow.

(* ------------------------------------------------------------------ *)
(** ** [src/agent/orchestrator.py]: the confirmation of a login *)

Module Confirmation.

Import PyStr.
Local Open Scope string_scope.

(** The text that this module is about: ASCII characters only.  On other
    text [\w], [\s], [split] and [strip] follow the Unicode tables, which
    are not embedded. *)
Fixpoint is_ascii (s : string) : bool :=
  match s with
  | EmptyString => true
  | String c s' => (Nat.ltb (nat_of_ascii c) 128 && is_ascii s')%bool
  end.

(** The class [\w] on an ASCII character: a letter, a digit or the
    underscore. *)
Definition is_word (c : ascii) : bool :=
  let n := nat_of_ascii c in
  ((Nat.leb 48 n && Nat.leb n 57) || (Nat.leb 65 n && Nat.leb n 90)
   || (Nat.leb 97 n && Nat.leb n 122) || Nat.eqb n 95)%bool.

(** [re.sub(r'[^\w\s]', ' ', s)] *)
Fixpoint blank_punctuation (s : string) : string :=
  match s with
  | EmptyString => EmptyString
  | String c s' =>
      String (if (is_word c || is_space c)%bool then c else " "%char)
             (blank_punctuation s')
  end.

(** [s.split()]: the maximal runs without white space; [cur] is the run
    being read. *)
Fixpoint split_from (cur : string) (s : string) : list string :=
  match s with
  | EmptyString => if nonempty cur then [cur] else []
  | String c s' =>
      if is_space c then
        if nonempty cur then cur :: split_from EmptyString s'
        else split_from EmptyString s'
      else split_from (cur ++ String c EmptyString) s'
  end.

Definition split (s : string) : list string := split_from EmptyString s.

(** [word in words] *)
Definition mem (word : string) (words : list string) : bool :=
  existsb (String.eqb word) words.

Definition confirmation_phrases : list string :=
  ["log in"; "login"; "sign in"; "signin";
   "yes"; "yeah"; "yep"; "yup"; "okay"; "ok"; "sure"; "alright";
   "proceed"; "go ahead"; "continue"; "do it"; "tap login"; "click login";
   "press login"; "tap log in"; "click log in"; "press log in"].

Definition confirmation_words : list string :=
  ["yes"; "okay"; "ok"; "sure"; "proceed"; "continue"; "go"].

(** [AgentOrchestrator._is_login_confirmation], on ASCII text. *)
Definition _is_login_confirmation (text : string) : bool :=
  let text_lower := strip (lower text) in
  let text_clean := blank_punctuation text_lower in
  let words := split text_clean in
  if any_in confirmation_phrases text_lower then true
  else if (existsb (fun word => mem word words) confirmation_words
           && Nat.leb (List.length words) 3)%bool then true
  else if (mem "log" words && mem "in" words)%bool then true
  else if (mem "login" words && Nat.leb (List.length words) 3)%bool then true
  else false.

End Confirmation.

(* ================================================================== *)
(** * Vocabulary of the properties

    Sample devices and dumps, and the predicates in which the properties
    below are stated. *)

Module Sample.

Import PyStr.
Local Open Scope string_scope.

(** A device that answers every command with the empty output. *)
Definition quiet_device : Device := {| shell := fun _ => Some EmptyString |}.

(** A device whose window dump is [tree]. *)
Definition showing (tree : string) : Device := {| shell := fun _ => Some tree |}.

(** A node tag with the attributes in the order of a uiautomator dump. *)
Definition node (txt cls bnds : string) : string :=
  "<node index='0' text='" ++ txt ++ "' resource-id='' class='" ++ cls
  ++ "' package='com.app' content-desc='' " ++ Re.clickable_true
  ++ " enabled='true' bounds='" ++ bnds ++ "' />".

Definition hierarchy (nodes : string) : string :=
  "<hierarchy rotation='0'>" ++ nodes ++ "</hierarchy>".

(** One clickable node without area. *)
Definition zero_area_dump : string :=
  hierarchy (node "" "android.view.View" "[0,0][0,0]").

(** One clickable button of exactly 300 by 80 pixels. *)
Definition exact_300_by_80_dump : string :=
  hierarchy (node "Continue" "android.widget.Button" "[100,400][400,480]").


(** Two large buttons, the lower one first in the document: vertical
    centres 900 and 400. *)
Definition two_button_dump : string :=
  hierarchy (node "Log in" "android.widget.Button" "[100,850][900,950]"
             ++ node "Continue" "android.widget.Button" "[100,350][900,450]").

(** A text of [n] letters a. *)
Fixpoint letters (n : nat) : string :=
  match n with
  | O => EmptyString
  | S n' => String "a"%char (letters n')
  end.

(** A text of [n] letters of two bytes each (the Cyrillic a). *)
Fixpoint two_byte_letters (n : nat) : string :=
  match n with
  | O => EmptyString
  | S n' =>
      String (ascii_of_nat 208) (String (ascii_of_nat 176)
                                        (two_byte_letters n'))
  end.

(** A large text box that holds 600 letters, above a large button:
    vertical centres 400 and 900. *)
Definition long_text_box_dump : string :=
  hierarchy (node (letters 600) "android.widget.EditText" "[100,350][900,450]"
             ++ node "Continue" "android.widget.Button" "[100,850][900,950]").

(** One large text box that holds 240 letters of two bytes each. *)
Definition two_byte_text_box_dump : string :=
  hierarchy (node (two_byte_letters 240) "android.widget.EditText"
                  "[100,400][900,500]").

(** One clickable text box that reads Login. *)
Definition text_box_dump : string :=
  hierarchy (node "Login" "android.widget.EditText" "[100,400][900,500]").

End Sample.

(** The clamped coordinates that [tap] works with. *)
Definition clamped_x (self : Actions.DeviceActions) (x : Z) : Z :=
  Z.max 0 (Z.min x (Actions.SCREEN_WIDTH self)).
Definition clamped_y (self : Actions.DeviceActions) (y : Z) : Z :=
  Z.max 0 (Z.min y (Actions.SCREEN_HEIGHT self)).

(** Vision to device and back, as a pair of rationals. *)
Definition round_trip (self : Actions.DeviceActions)
    (x_vision y_vision screenshot_width screenshot_height : Z) : Q * Q :=
  let '(device_x, device_y) :=
    Actions.map_vision_to_device_coords self x_vision y_vision
      screenshot_width screenshot_height in
  Actions.inverse_scaling self device_x device_y
    screenshot_width screenshot_height.

(** *** Retry schedule *)

Module RetrySpec.

Import Recovery.

(** The trace of [more + 1] calls numbered from [first], with a sleep between
    two consecutive calls and none after the last; the first sleep lasts
    [delay] and each next one twice the one before. *)
Fixpoint schedule (first : nat) (delay : Q) (more : nat) : list RetryEvent :=
  match more with
  | O => [Called first]
  | S m => Called first :: Slept delay :: schedule (S first) (delay * 2)%Q m
  end.

(** The truthy result of a call, if it has one. *)
Definition success {A} (truthy : A -> bool) (o : Outcome A) : option A :=
  match o with
  | Returns a => if truthy a then Some a else None
  | Raises => None
  end.

(** An action none of whose calls has a truthy result. *)
Definition never_succeeds {A} (truthy : A -> bool) (action : nat -> Outcome A)
  : Prop :=
  forall i, success truthy (action i) = None.

(** An action that raises on every call. *)
Definition always_raises : nat -> Outcome bool := fun _ => Raises.

End RetrySpec.

(** *** Locators *)

Module LocatorSpec.

Import PyStr PyList Re Accessibility.

(** What [find_real_login_button] reads off a match of its pattern in
    [tree]: the bounds and the centre. *)
Definition node_width (tree : string) (m : Match) : Z :=
  int_group tree m 3 - int_group tree m 1.
Definition node_height (tree : string) (m : Match) : Z :=
  int_group tree m 4 - int_group tree m 2.
Definition node_center_x (tree : string) (m : Match) : Z :=
  (int_group tree m 1 + int_group tree m 3) / 2.
Definition node_center_y (tree : string) (m : Match) : Z :=
  (int_group tree m 2 + int_group tree m 4) / 2.

(** The class as the locator reads it: the first class attribute in the 500
    characters from the start of the match. *)
Definition class_read (tree : string) (m : Match) : string :=
  attr_or "class" (slice_chars (m_start m) 500 tree) "".

(** The tag of the node itself: from the start of the match to the first
    closing angle bracket. *)
Fixpoint upto_gt (s : string) : string :=
  match s with
  | EmptyString => EmptyString
  | String c s' =>
      if Ascii.eqb c ">"%char then String c EmptyString
      else String c (upto_gt s')
  end.

Definition node_tag (tree : string) (m : Match) : string :=
  upto_gt (drop (m_start m) tree).

(** The class of the node: the class attribute of its own tag. *)
Definition node_class (tree : string) (m : Match) : string :=
  attr_or "class" (node_tag tree m) "".


(** What the locator keeps: wider than 300, higher than 80, and no input
    class read. *)
Definition kept_button (tree : string) (m : Match) : Prop :=
  300 < node_width tree m /\ 80 < node_height tree m
  /\ is_input_field (class_read tree m) = false.

(** A large button: wider than 300, higher than 80, not of an input class. *)
Definition large_button (tree : string) (m : Match) : Prop :=
  300 < node_width tree m /\ 80 < node_height tree m
  /\ is_input_field (node_class tree m) = false.


(** The record that the locator builds for a match. *)
Definition button_of (tree : string) (m : Match) : Button :=
  {| b_x := node_center_x tree m;
     b_y := node_center_y tree m;
     b_bounds := [int_group tree m 1; int_group tree m 2;
                  int_group tree m 3; int_group tree m 4];
     b_width := node_width tree m;
     b_height := node_height tree m;
     b_text := attr_or "text" (slice_chars (m_start m) 500 tree) "";
     b_class := class_read tree m |}.

(** A button record is consistent with its bounds. *)
Definition well_formed_button (b : Button) : Prop :=
  exists x1 y1 x2 y2,
    b_bounds b = [x1; y1; x2; y2]
    /\ b_width b = x2 - x1 /\ b_height b = y2 - y1
    /\ b_x b = (x1 + x2) / 2 /\ b_y b = (y1 + y2) / 2.

(** An element passes the positional filters of the send-control locator:
    right of the input by more than 20 and at most 450 pixels, within 120
    pixels of its row, between 20 and 180 pixels wide and high. *)
Definition near_input (input_x input_y : Z) (e : Element) : Prop :=
  0 < x e /\ 0 < y e
  /\ input_x + 20 < x e /\ x e - input_x <= 450
  /\ Z.abs (y e - input_y) <= 120
  /\ 20 <= width e <= 180 /\ 20 <= height e <= 180.

(** An element record is consistent with its bounds. *)
Definition well_formed_element (e : Element) : Prop :=
  exists x1 y1 x2 y2,
    bounds e = [x1; y1; x2; y2]
    /\ width e = x2 - x1 /\ height e = y2 - y1
    /\ x e = (x1 + x2) / 2 /\ y e = (y1 + y2) / 2
    /\ center e = [x e; y e].

End LocatorSpec.

(** *** Workflow *)

Module WorkflowSpec.

Import Orchestrator.
Local Open Scope string_scope.

(** What [_parse_intent] makes of a bare login command. *)
Definition login_intent : Dict :=
  [ ("action", VStr "login"); ("app", VNone); ("query", VNone);
    ("target", VNone); ("recipient", VNone); ("message", VNone);
    ("amount", VNone) ].

(** Collaborators for a login command on which the guided login fails each
    time; the branches that such a run does not reach leave the state as it
    is. *)
Definition failing_login : Collaborators :=
  {| _parse_intent := fun _ => login_intent;
     analyze_screen := fun _ => VDict [("description", VStr "Login screen")];
     _perform_llm_guided_login := fun _ => (false, "Login failed");
     act_other := fun _ state => state;
     verify_open_app := fun _ state => state;
     _confirm_action := fun _ state => state;
     _execute_query := fun _ state => state;
     _handle_error := fun _ state => state;
     _respond := fun _ state => state |}.

(** The run is between [authenticate] and [verify] with a login pending and
    the iteration counter at one. *)
Definition login_pending (n : Node) (state : Dict) : Prop :=
  (n = authenticate \/ n = verify)
  /\ flag "needs_auth" state = true
  /\ get "action" VNone (sub "intent_parts" state) = VStr "login"
  /\ as_int (get "iteration_count" VNone state) = 1.

End WorkflowSpec.

(** *** Counting the entries of [observe] *)

Module WorkflowBounds.

Import Orchestrator.
Local Open Scope string_scope.

(** How many of the first [fuel] node executions are executions of
    [observe]. *)
Fixpoint observe_entries (c : Collaborators) (fuel t : nat) (n : Node)
    (state : Dict) : nat :=
  match fuel with
  | O => O
  | S fuel' =>
      let '(n', state') := step c t n state in
      ((match n with observe => 1 | _ => 0 end)
       + observe_entries c fuel' (S t) n' state')%nat
  end.

(** The iteration counter and the error flag of a state. *)
Definition count (state : Dict) : Z :=
  as_int (get "iteration_count" VNone state).

Definition stopped (state : Dict) : bool :=
  truthy (get "error" VNone state).

(** What the workflow relies on in the branches that are collaborators here:
    they leave the iteration counter alone (the source assigns it in
    [_observe] only), they do not clear an error that is set (the source
    only assigns non-empty messages), and a failed guided login comes with a
    message. *)
Record well_behaved (c : Collaborators) : Prop := {
  act_keeps_count :
    forall t s, count (act_other c t s) = count s;
  verify_keeps_count :
    forall t s, count (verify_open_app c t s) = count s;
  act_keeps_error :
    forall t s, stopped s = true -> stopped (act_other c t s) = true;
  verify_keeps_error :
    forall t s, stopped s = true -> stopped (verify_open_app c t s) = true;
  login_failure_has_message :
    forall t, fst (_perform_llm_guided_login c t) = false ->
              PyStr.nonempty (snd (_perform_llm_guided_login c t)) = true
}.

(** The entries of [observe] still possible from a node and a state. *)
Definition budget (n : Node) (state : Dict) : Z :=
  match n with
  | observe => Z.max 1 (6 - count state)
  | analyze | act | authenticate | verify =>
      if stopped state then 0 else Z.max 1 (6 - count state)
  | _ => 0
  end.

(** What [_parse_intent] makes of a close command. *)
Definition close_intent : Dict :=
  [ ("action", VStr "close_app"); ("app", VNone); ("query", VNone);
    ("target", VNone); ("recipient", VNone); ("message", VNone);
    ("amount", VNone) ].

(** Collaborators that read every command as a close command. *)
Definition closing : Collaborators :=
  {| _parse_intent := fun _ => close_intent;
     analyze_screen := fun _ => VDict [("description", VStr "Home screen")];
     _perform_llm_guided_login := fun _ => (false, "Login failed");
     act_other := fun _ state => state;
     verify_open_app := fun _ state => state;
     _confirm_action := fun _ state => state;
     _execute_query := fun _ state => state;
     _handle_error := fun _ state => state;
     _respond := fun _ state => state |}.

End WorkflowBounds.

(** *** The other locators *)

Module LocatorsSpec.

Import PyStr PyList Re Accessibility Locators LocatorSpec Sample.
Local Open Scope string_scope.

(** What [find_button_below_y] asks of a match: far enough below, large
    enough, and no input class read in the 500 characters from its start. *)
Definition large_below (tree : string) (min_y min_width min_height : Z)
    (m : Match) : Prop :=
  min_y + 50 < node_center_y tree m
  /\ min_width <= node_width tree m /\ min_height <= node_height tree m
  /\ any_in below_input_types (lower (class_read tree m)) = false.


(** The candidates of [find_input_field], or [None] when its loop raises or
    there is no tree. *)
Definition input_candidates (dev : Device) : option (list InputField) :=
  match usable_tree dev with
  | Some tree =>
      run_turns (input_candidate tree) (finditer true bounds_node tree)
  | None => None
  end.

(** A text box in the keyboard-open region, then a node without a class. *)
Definition classless_node_dump : string :=
  hierarchy (node "" "android.widget.EditText" "[300,1400][800,1500]"
             ++ "<node index='1' bounds='[0,0][10,10]' />").

(** One text box in the keyboard-open band. *)
Definition keyboard_field_dump : string :=
  hierarchy (node "" "android.widget.EditText" "[300,1400][800,1500]").

Definition keyboard_field : InputField :=
  {| i_x := 550; i_y := 1450; i_bounds := [300; 1400; 800; 1500];
     i_width := 500; i_height := 100; i_class := "android.widget.edittext";
     i_hint := EmptyString; i_text := EmptyString |}.

(** A message box with two small buttons to its right: Sign up, then Send. *)
Definition send_icon_dump : string :=
  hierarchy (node "Message" "android.widget.EditText" "[40,1380][860,1480]"
             ++ node "Sign up" "android.widget.Button" "[880,1300][980,1400]"
             ++ node "Send" "android.widget.ImageButton"
                     "[900,1380][1000,1480]").

Definition sign_up_candidate : SendCandidate :=
  {| c_x := 930; c_y := 1350; distance := 158500; has_up_arrow := false;
     has_send_indicator := true; desc := "Sign up" |}.

(** The candidates of [find_send_button_near_input]. *)
Definition send_candidates (dev : Device) (input_x input_y : Z)
  : list SendCandidate :=
  collect (send_candidate input_x input_y) (find_clickable_elements dev).

(** The text that [find_continue_button] matches its keywords against. *)
Definition combined_text (b : ContinueButton) : string :=
  lower (k_text b) ++ " " ++ lower (k_desc b).

End LocatorsSpec.


(** *** Keys and typing *)

Module GestureSpec.

Import PyStr Actions Gestures.
Local Open Scope string_scope.

(** An ASCII digit. *)
Definition is_digit (c : ascii) : bool :=
  let n := nat_of_ascii c in (Nat.leb 48 n && Nat.leb n 57)%bool.

(** The key event of a digit. *)
Definition digit_command (c : ascii) : string :=
  "input keyevent KEYCODE_" ++ String c EmptyString.

(** The key events of the digits of a string, in its order. *)
Definition digit_commands (s : string) : list string :=
  map digit_command (filter is_digit (list_ascii_of_string s)).

(** The device answers a command: the call does not raise. *)
Definition answers (dev : Device) (cmd : string) : Prop :=
  shell dev cmd <> None.

End GestureSpec.

(** *** Sequences of calls on the state manager *)

Module StateSpec.

Import Orchestrator State.

(** A call of a method of [AgentStateManager]. *)
Inductive Call :=
| StartTask (task_id user_intent : string)
| UpdateState (new_state : AgentState)
| AddStep (step : string)
| SetCurrentStep (step : string)
| IncrementError
| IncrementRetry
| CompleteTask
| SetAuthenticationState (auth_state : Dict)
| ClearAuthenticationState
| UpdateScreenContext (context : Dict).

Definition call (self : AgentStateManager) (c : Call) : AgentStateManager :=
  match c with
  | StartTask i u => start_task self i u
  | UpdateState s => update_state self s
  | AddStep s => add_step self s
  | SetCurrentStep s => set_current_step self s
  | IncrementError => increment_error self
  | IncrementRetry => increment_retry self
  | CompleteTask => complete_task self
  | SetAuthenticationState a => set_authentication_state self a
  | ClearAuthenticationState => clear_authentication_state self
  | UpdateScreenContext x => update_screen_context self x
  end.

(** The manager after a sequence of calls on a new one. *)
Definition after (calls : list Call) : AgentStateManager :=
  fold_left call calls new_manager.

Definition is_start (c : Call) : bool :=
  match c with StartTask _ _ => true | _ => false end.

Definition is_increment_error (c : Call) : bool :=
  match c with IncrementError => true | _ => false end.

(** The tasks the manager holds: the history and the current one. *)
Definition held (self : AgentStateManager) : list TaskState :=
  task_history self
  ++ match current_task self with Some t => [t] | None => [] end.

End StateSpec.

(** *** The confirmation of a login *)

Module ConfirmationSpec.

Import PyStr Confirmation.

(** The text that the phrases are looked for in, and its words. *)
Definition lowered (text : string) : string := strip (lower text).

Definition words_of (text : string) : list string :=
  split (blank_punctuation (lowered text)).

(** No character of the string is white space. *)
Fixpoint spaceless (s : string) : bool :=
  match s with
  | EmptyString => true
  | String c s' => negb (is_space c) && spaceless s'
  end.

End ConfirmationSpec.
(* ================================================================== *)
(** * Properties *)

(* ------------------------------------------------------------------ *)
(** ** Coordinates: validation, tap, vision-to-device mapping *)

Section Coordinates.

Import Actions Orchestrator Sample.

(** C5.  A point whose y lies under the status bar margin
    ([STATUS_BAR_MAX], 100 pixels) fails [_validate_coordinates], whatever
    its x and whatever the screen size. *)
Theorem validate_rejects_status_bar :
  forall (da : DeviceActions) (x y : Z),
    y < STATUS_BAR_MAX -> _validate_coordinates da x y = false.
Proof.
  intros da x y Hy. unfold STATUS_BAR_MAX in Hy. unfold _validate_coordinates.
  destruct ((x <? 1) || (y <? 1)); [reflexivity|].
  destruct ((x >? SCREEN_WIDTH da) || (y >? SCREEN_HEIGHT da)); [reflexivity|].
  assert (E : (y <? 100) = true) by (apply Z.ltb_lt; exact Hy).
  rewrite E. reflexivity.
Qed.

(** C5 at a point: (540, 60) on the default screen. *)
Lemma validate_rejects_status_bar_witness :
  _validate_coordinates (default_actions quiet_device) 540 60 = false.
Proof.
  apply (validate_rejects_status_bar (default_actions quiet_device) 540 60).
  unfold STATUS_BAR_MAX. lia.
Defined.

(** Outside of the margin the same x is accepted: the rejection above is
    the margin's doing. *)
Lemma validate_accepts_below_margin :
  _validate_coordinates (default_actions quiet_device) 540 100 = true.
Proof. reflexivity. Qed.

(** C2, as the code has it.  [tap] clamps both coordinates into the screen
    rectangle.  It returns [False] without any device command exactly when a
    clamped coordinate is not positive; every other point, one beyond the
    right or the bottom edge included, is tapped at its clamped position,
    with that one device command. *)
Theorem tap_clamps_then_taps :
  forall (self : DeviceActions) (x y : Z) (delay : Q),
    let cx := clamped_x self x in
    let cy := clamped_y self y in
    (cx <= 0 \/ cy <= 0 <-> tap self x y delay = (false, []))
    /\ (0 < cx /\ 0 < cy ->
        shell_commands (snd (tap self x y delay)) = [tap_command cx cy])
    /\ 0 <= cx <= Z.max 0 (SCREEN_WIDTH self)
    /\ 0 <= cy <= Z.max 0 (SCREEN_HEIGHT self).
Proof.
  intros self x y delay cx cy.
  assert (Hpos : 0 < cx /\ 0 < cy ->
                 shell_commands (snd (tap self x y delay)) = [tap_command cx cy]
                 /\ tap self x y delay <> (false, [])).
  { intros [Hx Hy]. unfold tap. fold (clamped_x self x) (clamped_y self y).
    fold cx cy.
    assert (E1 : (cx =? 0) = false) by (apply Z.eqb_neq; lia).
    assert (E2 : (cx <=? 0) = false) by (apply Z.leb_gt; lia).
    assert (E3 : (cy <=? 0) = false) by (apply Z.leb_gt; lia).
    rewrite E1, E2, E3. cbn [andb orb].
    destruct (shell (device self) (tap_command cx cy)) as [result|].
    - destruct (PyStr.nonempty result &&
                PyStr.contains "error" (PyStr.lower result)).
      + split; [reflexivity | discriminate].
      + destruct (Qle_bool 0 delay); split; try reflexivity; discriminate.
    - split; [reflexivity | discriminate]. }
  split; [split|split].
  - intros H. unfold tap. fold (clamped_x self x) (clamped_y self y).
    fold cx cy.
    destruct ((cx =? 0) && (cy =? 0)); [reflexivity|].
    assert (E : (cx <=? 0) || (cy <=? 0) = true).
    { apply orb_true_iff. destruct H; [left|right]; apply Z.leb_le; lia. }
    rewrite E. reflexivity.
  - intros H.
    destruct (Z_le_gt_dec cx 0) as [Hx|Hx]; [left; exact Hx|].
    destruct (Z_le_gt_dec cy 0) as [Hy|Hy]; [right; exact Hy|].
    exfalso. assert (Hc : 0 < cx /\ 0 < cy) by (split; lia).
    apply (proj2 (Hpos Hc)). exact H.
  - intros H. apply (proj1 (Hpos H)).
  - unfold cx, cy, clamped_x, clamped_y. lia.
Qed.

(** C2, as stated, fails: on the default 1080 x 2400 screen the point
    (2000, 500) lies outside of the screen, and [tap] sends the device a tap
    at the clamped position (1080, 500) and reports success. *)
Lemma tap_out_of_bounds_is_tapped :
  let self := default_actions quiet_device in
  2000 > SCREEN_WIDTH self
  /\ tap self 2000 500 (1 # 10)
     = (true, [Shell "input tap 1080 500"; Sleep (1 # 10)])
  /\ ~ (shell_commands (snd (tap self 2000 500 (1 # 10))) = []).
Proof.
  cbv zeta. split; [reflexivity|]. split; [reflexivity|].
  vm_compute. discriminate.
Qed.

(** [int(f)] is within one of [f], on either side. *)
Lemma int_of_float_close (q : Q) :
  (inject_Z (int_of_float q) - 1 < q /\ q < inject_Z (int_of_float q) + 1)%Q.
Proof.
  destruct q as [a b]. unfold int_of_float, Qlt, Qminus, Qplus, Qopp, inject_Z.
  cbn [Qnum Qden].
  pose proof (Z.quot_rem' a (Zpos b)) as E.
  assert (Hb : Zpos b <> 0) by lia.
  pose proof (Z.rem_bound_abs a (Zpos b) Hb) as Hr.
  set (t := Z.quot a (Zpos b)) in *. set (r := Z.rem a (Zpos b)) in *.
  rewrite !Pos.mul_1_r, !Z.mul_1_r. split; nia.
Qed.

(** Dividing by a scale of at least one keeps a point within one pixel. *)
Lemma unscale_close (x s d : Q) :
  (1 <= s -> d - 1 < x * s -> x * s < d + 1 -> Qabs (x - d / s) <= 1)%Q.
Proof.
  intros Hs Hlo Hhi.
  assert (Hs0 : ~ (s == 0)%Q) by (intro E; rewrite E in Hs; lra).
  assert (Hb : (d / s * s == d)%Q) by (field; exact Hs0).
  set (b := (d / s)%Q) in *.
  apply Qabs_Qle_condition. split; nra.
Qed.

(** The scale factor of an image that is not larger than the screen. *)
Lemma scale_at_least_one (w sw : Z) :
  0 < sw -> sw <= w -> (1 <= inject_Z w / inject_Z sw)%Q.
Proof.
  intros Hsw Hw.
  apply Qle_shift_div_l.
  - change 0%Q with (inject_Z 0). rewrite <- Zlt_Qlt. exact Hsw.
  - rewrite Qmult_1_l. rewrite <- Zle_Qle. exact Hw.
Qed.

(** C1, as the code has it.  When the vision image is not larger than the
    device screen in either direction (both scale factors are at least one),
    mapping a point of the image to device space and scaling it back recovers
    it within one pixel on each axis. *)
Theorem round_trip_within_one_pixel :
  forall (self : DeviceActions) (x_vision y_vision sw sh : Z),
    0 < sw <= SCREEN_WIDTH self ->
    0 < sh <= SCREEN_HEIGHT self ->
    0 <= x_vision <= sw ->
    0 <= y_vision <= sh ->
    (Qabs (inject_Z x_vision - fst (round_trip self x_vision y_vision sw sh))
       <= 1
     /\ Qabs (inject_Z y_vision - snd (round_trip self x_vision y_vision sw sh))
       <= 1)%Q.
Proof.
  intros self xv yv sw sh [Hsw Hw] [Hsh Hh] _ _.
  unfold round_trip, map_vision_to_device_coords, inverse_scaling,
    scale_factors.
  assert (E1 : (0 <? sw) = true) by (apply Z.ltb_lt; exact Hsw).
  assert (E2 : (0 <? sh) = true) by (apply Z.ltb_lt; exact Hsh).
  rewrite E1, E2. cbn [fst snd].
  pose proof (scale_at_least_one _ _ Hsw Hw) as Sx.
  pose proof (scale_at_least_one _ _ Hsh Hh) as Sy.
  set (sx := (inject_Z (SCREEN_WIDTH self) / inject_Z sw)%Q) in *.
  set (sy := (inject_Z (SCREEN_HEIGHT self) / inject_Z sh)%Q) in *.
  split.
  - destruct (int_of_float_close (inject_Z xv * sx)%Q) as [Hlo Hhi].
    apply unscale_close; assumption.
  - set (q := (inject_Z yv * sy + inject_Z (STATUS_BAR_HEIGHT self))%Q).
    destruct (int_of_float_close q) as [Hlo Hhi].
    unfold Z.sub. rewrite inject_Z_plus, inject_Z_opp.
    apply unscale_close; [exact Sy | unfold q in *; lra | unfold q in *; lra].
Qed.

(** C1 at a point: the default screen, a 540 x 1200 image, the point
    (100, 333). *)
Lemma round_trip_within_one_pixel_witness :
  let self := default_actions quiet_device in
  (Qabs (inject_Z 100 - fst (round_trip self 100 333 540 1200)) <= 1
   /\ Qabs (inject_Z 333 - snd (round_trip self 100 333 540 1200)) <= 1)%Q.
Proof.
  apply (round_trip_within_one_pixel (default_actions quiet_device)
           100 333 540 1200); cbn; lia.
Defined.

(** C1, as stated, fails: positive dimensions alone do not give the law.
    With a 4320 x 9600 image on the default 1080 x 2400 screen both scale
    factors are one quarter; the point (7, 7) of the image maps to (1, 51)
    and scales back to (4, 4), three pixels away on each axis. *)
Lemma round_trip_fails_when_downscaling :
  let self := default_actions quiet_device in
  0 <= 7 <= 4320 /\ 0 <= 7 <= 9600
  /\ map_vision_to_device_coords self 7 7 4320 9600 = (1, 51)
  /\ (fst (round_trip self 7 7 4320 9600) == 4)%Q
  /\ (snd (round_trip self 7 7 4320 9600) == 4)%Q
  /\ ~ (Qabs (inject_Z 7 - fst (round_trip self 7 7 4320 9600)) <= 1)%Q
  /\ ~ (Qabs (inject_Z 7 - snd (round_trip self 7 7 4320 9600)) <= 1)%Q.
Proof.
  cbv zeta. repeat split; try lia; try reflexivity;
    vm_compute; intro H; apply H; reflexivity.
Qed.

End Coordinates.

(* ------------------------------------------------------------------ *)
(** ** Retry with backoff *)

Section RetryProperties.

Import Recovery RetrySpec.

Context {A : Type}.
Variable truthy : A -> bool.
Variable action : nat -> Outcome A.

(** The loop, when call [attempt + k] is the first with a truthy result. *)
Lemma retry_loop_success (mr : Z) (r : A) :
  forall (k remaining attempt : nat) (delay : Q),
    (0 <= delay)%Q ->
    Z.of_nat (attempt + remaining) = mr ->
    (k < remaining)%nat ->
    (forall i, (i < k)%nat -> success truthy (action (attempt + i)%nat) = None) ->
    success truthy (action (attempt + k)%nat) = Some r ->
    retry_loop truthy action mr remaining attempt delay
    = (Returns (Some r), schedule attempt delay k).
Proof.
  induction k as [|k IH]; intros remaining attempt delay Hd Hmr Hk Hfail Hok.
  - destruct remaining as [|remaining]; [lia|].
    rewrite Nat.add_0_r in Hok. cbn [retry_loop schedule].
    unfold success in Hok. destruct (action attempt) as [a|]; [|discriminate].
    destruct (truthy a); [|discriminate]. congruence.
  - destruct remaining as [|remaining]; [lia|].
    cbn [retry_loop schedule].
    assert (Ht : (Z.of_nat attempt <? mr - 1) = true) by (apply Z.ltb_lt; lia).
    assert (Hq : Qle_bool 0 delay = true) by (apply Qle_bool_iff; exact Hd).
    rewrite Ht, Hq.
    assert (Hd2 : (0 <= delay * 2)%Q) by lra.
    rewrite (IH remaining (S attempt) (delay * 2)%Q Hd2); try lia.
    + pose proof (Hfail 0%nat ltac:(lia)) as H0. rewrite Nat.add_0_r in H0.
      unfold success in H0. destruct (action attempt) as [a|]; [|reflexivity].
      destruct (truthy a); [discriminate | reflexivity].
    + intros i Hi. replace (S attempt + i)%nat with (attempt + S i)%nat by lia.
      apply Hfail. lia.
    + replace (S attempt + k)%nat with (attempt + S k)%nat by lia. exact Hok.
Qed.

(** The loop, when no call has a truthy result. *)
Lemma retry_loop_exhausted (mr : Z) :
  forall (remaining attempt : nat) (delay : Q),
    (0 <= delay)%Q ->
    Z.of_nat (attempt + S remaining) = mr ->
    (forall i, (i <= remaining)%nat -> success truthy (action (attempt + i)%nat) = None) ->
    retry_loop truthy action mr (S remaining) attempt delay
    = (Returns None, schedule attempt delay remaining).
Proof.
  induction remaining as [|remaining IH]; intros attempt delay Hd Hmr Hfail.
  - cbn [retry_loop schedule].
    assert (Ht : (Z.of_nat attempt <? mr - 1) = false) by (apply Z.ltb_ge; lia).
    rewrite Ht. cbn [fst snd].
    pose proof (Hfail 0%nat ltac:(lia)) as H0. rewrite Nat.add_0_r in H0.
    unfold success in H0. destruct (action attempt) as [a|]; [|reflexivity].
    destruct (truthy a); [discriminate | reflexivity].
  - cbn [schedule]. change (retry_loop truthy action mr (S (S remaining)) attempt delay)
      with (let after_failure :=
              if Z.of_nat attempt <? mr - 1 then
                if Qle_bool 0 delay then
                  let (r, t) := retry_loop truthy action mr (S remaining)
                                  (S attempt) (delay * 2)%Q in
                  (r, Slept delay :: t)
                else (Raises, [])
              else retry_loop truthy action mr (S remaining) (S attempt) delay in
            match action attempt with
            | Returns result =>
                if truthy result then (Returns (Some result), [Called attempt])
                else (fst after_failure, Called attempt :: snd after_failure)
            | Raises => (fst after_failure, Called attempt :: snd after_failure)
            end).
    assert (Ht : (Z.of_nat attempt <? mr - 1) = true) by (apply Z.ltb_lt; lia).
    assert (Hq : Qle_bool 0 delay = true) by (apply Qle_bool_iff; exact Hd).
    rewrite Ht, Hq.
    assert (Hd2 : (0 <= delay * 2)%Q) by lra.
    rewrite (IH (S attempt) (delay * 2)%Q Hd2); try lia.
    + cbv zeta. cbn [fst snd].
      pose proof (Hfail 0%nat ltac:(lia)) as H0. rewrite Nat.add_0_r in H0.
      unfold success in H0. destruct (action attempt) as [a|]; [|reflexivity].
      destruct (truthy a); [discriminate | reflexivity].
    + intros i Hi. replace (S attempt + i)%nat with (attempt + S i)%nat by lia.
      apply Hfail. lia.
Qed.

(** Either some call among the first [n] is the first with a truthy result,
    or none of them has one. *)
Lemma first_success_or_none (n : nat) :
  (exists k r, (k < n)%nat /\ (forall i, (i < k)%nat -> success truthy (action i) = None)
               /\ success truthy (action k) = Some r)
  \/ (forall i, (i < n)%nat -> success truthy (action i) = None).
Proof.
  induction n as [|n [ (k & r & Hk & Hf & Hs) | Hnone ]].
  - right. intros i Hi. lia.
  - left. exists k, r. repeat split; [lia | exact Hf | exact Hs].
  - destruct (success truthy (action n)) as [r|] eqn:E.
    + left. exists n, r. repeat split; [lia | | exact E].
      intros i Hi. apply Hnone. exact Hi.
    + right. intros i Hi. destruct (Nat.eq_dec i n) as [->|Hne];
        [exact E | apply Hnone; lia].
Qed.

(** The calls and the sleeps of a schedule. *)
Lemma schedule_calls (first : nat) (delay : Q) (more : nat) :
  calls (schedule first delay more) = seq first (S more).
Proof.
  revert first delay. induction more as [|m IH]; intros first delay.
  - reflexivity.
  - cbn [schedule calls flat_map app]. fold (calls (schedule (S first) (delay * 2)%Q m)).
    rewrite IH. reflexivity.
Qed.

Lemma schedule_delays (first : nat) (delay : Q) (more : nat) :
  Forall2 Qeq (delays (schedule first delay more))
    (map (fun i => (delay * inject_Z (2 ^ Z.of_nat i))%Q) (seq 0 more)).
Proof.
  revert first delay. induction more as [|m IH]; intros first delay.
  - constructor.
  - cbn [schedule delays flat_map app seq map].
    fold (delays (schedule (S first) (delay * 2)%Q m)).
    constructor.
    + change (2 ^ Z.of_nat 0) with 1. unfold inject_Z. lra.
    + rewrite <- seq_shift, map_map.
      specialize (IH (S first) (delay * 2)%Q).
      revert IH. generalize (delays (schedule (S first) (delay * 2)%Q m)).
      generalize (seq 0 m). intros l. induction l as [|i l IHl]; intros ds H.
      * inversion H; subst. constructor.
      * inversion H as [|d q ds' qs Hd Hrest]; subst. constructor.
        -- rewrite Hd. rewrite Nat2Z.inj_succ, Z.pow_succ_r by lia.
           rewrite inject_Z_mult. change (inject_Z 2) with 2%Q. ring.
        -- apply IHl. exact Hrest.
Qed.

Lemma schedule_ends_with_call (first : nat) (delay : Q) (more : nat) :
  last (schedule first delay more) (Slept 0) = Called (first + more).
Proof.
  revert first delay. induction more as [|m IH]; intros first delay.
  - cbn. rewrite Nat.add_0_r. reflexivity.
  - cbn [schedule]. rewrite Nat.add_succ_r, <- Nat.add_succ_l, <- (IH (S first) (delay * 2)%Q).
    destruct (schedule (S first) (delay * 2)%Q m) eqn:E; [|reflexivity].
    destruct m; discriminate.
Qed.

End RetryProperties.

Section RetryClaim.

Import Recovery RetrySpec.

(** C6.  With at least one retry allowed and a delay that is not negative,
    [retry_with_backoff] calls the action until its first truthy result and
    returns it at once, or returns [None] after [max_retries] calls without
    one; it calls the action at most [max_retries] times; between two
    consecutive calls it sleeps, first [retry_delay] and then twice the
    previous delay each time, and it does not sleep after the last call.
    With three retries and a delay of 2 a failing action is slept on for 2
    and then 4. *)
Theorem retry_with_backoff_schedule :
  forall (A : Type) (truthy : A -> bool) (action : nat -> Outcome A)
         (self : ErrorRecovery),
    1 <= max_retries self ->
    (0 <= retry_delay self)%Q ->
    let n := Z.to_nat (max_retries self) in
    let d := retry_delay self in
    let result := retry_with_backoff truthy action self in
    (forall k r,
        (k < n)%nat ->
        (forall i, (i < k)%nat -> success truthy (action i) = None) ->
        success truthy (action k) = Some r ->
        result = (Returns (Some r), schedule 0 d k))
    /\ ((forall i, (i < n)%nat -> success truthy (action i) = None) ->
        result = (Returns None, schedule 0 d (n - 1)))
    /\ (List.length (calls (snd result)) <= n)%nat
    /\ (exists k, (k < n)%nat /\ snd result = schedule 0 d k)
    /\ (forall first k,
           calls (schedule first d k) = seq first (S k)
           /\ Forall2 Qeq (delays (schedule first d k))
                (map (fun i => (d * inject_Z (2 ^ Z.of_nat i))%Q) (seq 0 k))
           /\ last (schedule first d k) (Slept 0) = Called (first + k))
    /\ (max_retries self = 3 -> retry_delay self = 2%Q ->
        never_succeeds truthy action ->
        fst result = Returns None /\ delays (snd result) = [2%Q; 4%Q]).
Proof.
  intros A truthy action self Hn Hd n d result.
  assert (Hsucc : forall k r,
             (k < n)%nat ->
             (forall i, (i < k)%nat -> success truthy (action i) = None) ->
             success truthy (action k) = Some r ->
             result = (Returns (Some r), schedule 0 d k)).
  { intros k r Hk Hf Hs. unfold result, retry_with_backoff. fold n d.
    apply retry_loop_success; try assumption; unfold n; cbn [Nat.add]; lia. }
  assert (Hnone : (forall i, (i < n)%nat -> success truthy (action i) = None) ->
                  result = (Returns None, schedule 0 d (n - 1))).
  { intros Hf. unfold result, retry_with_backoff. fold n d.
    assert (En : n = S (n - 1)) by (unfold n; lia).
    rewrite En at 1. apply retry_loop_exhausted.
    - exact Hd.
    - cbn [Nat.add]. unfold n. lia.
    - intros i Hi. cbn [Nat.add]. apply Hf. lia. }
  assert (Hshape : exists k, (k < n)%nat /\ snd result = schedule 0 d k).
  { destruct (first_success_or_none truthy action n)
      as [ (k & r & Hk & Hf & Hs) | Hf ].
    - exists k. split; [exact Hk|]. rewrite (Hsucc k r Hk Hf Hs). reflexivity.
    - exists (n - 1)%nat. split; [unfold n; lia|]. rewrite (Hnone Hf).
      reflexivity. }
  split; [exact Hsucc|]. split; [exact Hnone|]. split; [|split; [exact Hshape|split]].
  - destruct Hshape as (k & Hk & E). rewrite E, schedule_calls, length_seq. lia.
  - intros first k. split; [apply schedule_calls|].
    split; [apply schedule_delays | apply schedule_ends_with_call].
  - intros E3 E2 Hnever.
    assert (Hr : result = (Returns None, schedule 0 d (n - 1))).
    { apply Hnone. intros i _. apply Hnever. }
    rewrite Hr. unfold n, d. rewrite E3, E2. split; reflexivity.
Qed.

(** C6 on the defaults of [ErrorRecovery]: three retries, two seconds. *)
Lemma retry_with_backoff_schedule_witness :
  let self := {| max_retries := 3; retry_delay := 2 |} in
  let result := retry_with_backoff (fun b : bool => b) always_raises self in
  fst result = Returns None /\ delays (snd result) = [2%Q; 4%Q].
Proof.
  cbv zeta.
  apply (retry_with_backoff_schedule bool (fun b => b) always_raises
           {| max_retries := 3; retry_delay := 2 |}).
  - cbn. lia.
  - cbn. lra.
  - reflexivity.
  - reflexivity.
  - intro i. reflexivity.
Defined.

End RetryClaim.

(* ------------------------------------------------------------------ *)
(** ** Lists: the stable sort and the loops *)

Section SortBy.

Import PyList.

Context {A : Type}.
Variable key : A -> Z.
Variable le : A -> A -> bool.
Hypothesis le_key : forall a b, le a b = (key a <=? key b).

Lemma insert_by_perm (a : A) (l : list A) :
  Permutation (insert_by le a l) (a :: l).
Proof.
  induction l as [|b l IH]; cbn [insert_by].
  - apply Permutation_refl.
  - destruct (le a b).
    + apply Permutation_refl.
    + apply perm_trans with (b :: a :: l).
      * apply perm_skip. exact IH.
      * apply perm_swap.
Qed.

Lemma sort_by_perm (l : list A) : Permutation (sort_by le l) l.
Proof.
  induction l as [|a l IH]; cbn [sort_by fold_right].
  - apply perm_nil.
  - fold (sort_by le l). apply perm_trans with (a :: sort_by le l).
    + apply insert_by_perm.
    + apply perm_skip. exact IH.
Qed.

Lemma insert_by_sorted (a : A) (l : list A) :
  StronglySorted (fun u v => key u <= key v) l ->
  StronglySorted (fun u v => key u <= key v) (insert_by le a l).
Proof.
  induction l as [|b l IH]; intros Hs; cbn [insert_by].
  - constructor; constructor.
  - inversion Hs as [|? ? Hl Hb]; subst.
    destruct (le a b) eqn:E; rewrite le_key in E.
    + apply Z.leb_le in E. constructor; [exact Hs|].
      constructor; [exact E|].
      eapply Forall_impl; [|exact Hb]. cbn. intros; lia.
    + apply Z.leb_gt in E. constructor; [apply IH; exact Hl|].
      eapply Permutation_Forall; [apply Permutation_sym, insert_by_perm|].
      constructor; [lia | exact Hb].
Qed.

Lemma sort_by_sorted (l : list A) :
  StronglySorted (fun u v => key u <= key v) (sort_by le l).
Proof.
  induction l as [|a l IH]; cbn [sort_by fold_right].
  - constructor.
  - apply insert_by_sorted. exact IH.
Qed.

(** The first element after the sort has the least key. *)
Lemma sort_by_head (l : list A) (b : A) (rest : list A) :
  sort_by le l = b :: rest ->
  In b l /\ Forall (fun b' => key b <= key b') l.
Proof.
  intros E. pose proof (sort_by_perm l) as P. pose proof (sort_by_sorted l) as S.
  rewrite E in P, S. split.
  - eapply Permutation_in; [exact P | left; reflexivity].
  - eapply Permutation_Forall; [exact P|].
    inversion S as [|? ? _ Hb]; subst. constructor; [lia | exact Hb].
Qed.

End SortBy.

Section Loops.

Import PyList.

Context {A B : Type}.

Lemma sort_by_nil (le : A -> A -> bool) (l : list A) :
  sort_by le l = [] <-> l = [].
Proof.
  split; intros E.
  - pose proof (sort_by_perm le l) as P. rewrite E in P.
    apply Permutation_nil in P. exact P.
  - subst. reflexivity.
Qed.

Lemma collect_In (f : A -> option B) (l : list A) (b : B) :
  In b (collect f l) <-> exists a, In a l /\ f a = Some b.
Proof.
  unfold collect. rewrite in_flat_map. split.
  - intros (a & Ha & Hb). exists a. split; [exact Ha|].
    destruct (f a) as [b'|]; [|contradiction].
    destruct Hb as [->|[]]. reflexivity.
  - intros (a & Ha & Hf). exists a. split; [exact Ha|].
    rewrite Hf. left. reflexivity.
Qed.


Lemma collect_none (f : A -> option B) (l : list A) :
  Forall (fun a => f a = None) l -> collect f l = [].
Proof.
  induction 1 as [|a l Ha _ IH]; [reflexivity|].
  unfold collect in *. cbn [flat_map]. rewrite Ha, IH. reflexivity.
Qed.

End Loops.

(* ------------------------------------------------------------------ *)
(** ** The matcher: a pattern that starts with a literal *)

Section LiteralPrefix.

Import PyStr Re.

Lemma lits_app (a b : string) : lits (a ++ b) = (lits a ++ lits b)%list.
Proof.
  unfold lits. induction a as [|c a IH]; [reflexivity|].
  cbn [String.append list_ascii_of_string map app]. f_equal. exact IH.
Qed.

Lemma match_here_literal (l : string) (rest : pattern) :
  forall (s : string) (pos : nat) (opens : list nat) (caps : spans) r,
    match_here false (lits l ++ rest) s pos opens caps = Some r ->
    startswith l s = true.
Proof.
  induction l as [|a l IH]; intros s pos opens caps r H.
  - reflexivity.
  - change (lits (String a l) ++ rest)%list
      with (One (Lit a) :: (lits l ++ rest))%list in H.
    cbn [match_here] in H. destruct s as [|b s]; [discriminate|].
    cbn [accepts char_eq] in H. cbn [startswith].
    destruct (Ascii.eqb b a) eqn:E; [|discriminate].
    apply Ascii.eqb_eq in E. subst b. rewrite Ascii.eqb_refl. cbn [andb].
    eapply IH. exact H.
Qed.

Lemma contains_tail (l : string) (a : ascii) (s : string) :
  contains l s = true -> contains l (String a s) = true.
Proof.
  intros H. cbn [contains]. destruct (startswith l (String a s)); [reflexivity|].
  exact H.
Qed.

Lemma contains_here (l s : string) :
  startswith l s = true -> contains l s = true.
Proof.
  intros H. destruct s; cbn [contains]; rewrite H; reflexivity.
Qed.

Lemma scan_literal (l : string) (rest : pattern) :
  forall (s : string) (pos skip : nat),
    scan false (lits l ++ rest) s pos skip <> [] ->
    contains l s = true.
Proof.
  induction s as [|a s IH]; intros pos skip H.
  - destruct skip as [|k]; cbn [scan] in H; [|contradiction].
    destruct (match_here false (lits l ++ rest) EmptyString pos [] [])
      as [[e caps]|] eqn:E; [|contradiction].
    apply contains_here. eapply match_here_literal. exact E.
  - destruct skip as [|k]; cbn [scan] in H.
    + destruct (match_here false (lits l ++ rest) (String a s) pos [] [])
        as [[e caps]|] eqn:E.
      * apply contains_here. eapply match_here_literal. exact E.
      * apply contains_tail. eapply IH. exact H.
    + apply contains_tail. eapply IH. exact H.
Qed.

(** [re.search] of an attribute finds nothing in a string that does not
    contain the attribute's name followed by the equals sign. *)
Lemma search_attr_absent (name s : string) :
  contains (name ++ "=") s = false -> search (attr name) s = None.
Proof.
  intros H. unfold search, finditer.
  destruct (scan false (attr name) s 0 0) as [|m ms] eqn:E; [reflexivity|].
  exfalso. assert (C : contains (name ++ "=") s = true).
  { apply (scan_literal (name ++ "=") quoted_value s 0%nat 0%nat).
    unfold attr in E. rewrite lits_app, <- app_assoc.
    intros C. rewrite C in E. discriminate E. }
  rewrite C in H. discriminate.
Qed.

End LiteralPrefix.

(* ------------------------------------------------------------------ *)
(** ** The clickable-element parse *)

Section ClickableElements.

Import PyStr PyList Re Accessibility LocatorSpec Sample.

Lemma attr_or_absent (name s default : string) :
  contains (name ++ "=") s = false -> attr_or name s default = default.
Proof.
  intros H. unfold attr_or. rewrite (search_attr_absent name s H). reflexivity.
Qed.

Lemma element_of_match_well_formed (tree : string) (m : Match) :
  well_formed_element (element_of_match tree m).
Proof.
  exists (int_group tree m 1), (int_group tree m 2),
         (int_group tree m 3), (int_group tree m 4).
  cbn. repeat split; reflexivity.
Qed.

Lemma clickable_elements_well_formed (dev : Device) :
  Forall well_formed_element (find_clickable_elements dev).
Proof.
  unfold find_clickable_elements.
  destruct (usable_tree dev) as [tree|]; [|constructor].
  apply Forall_forall. intros e He. apply in_map_iff in He.
  destruct He as (m & <- & _). apply element_of_match_well_formed.
Qed.

(** C8, as the code has it.  [find_clickable_elements] returns one element
    per clickable node that its pattern matches, in document order, and
    drops none of them for its size: the width and the height of an element
    are the differences of its bounds, whatever their sign, and its centre is
    the midpoint.  A text, content-desc, class or resource-id field is the
    empty string when the tag of the node does not contain that attribute. *)
Theorem clickable_elements_keep_every_node :
  forall dev : Device,
    Forall well_formed_element (find_clickable_elements dev)
    /\ forall tree : string,
         usable_tree dev = Some tree ->
         let nodes := finditer true clickable_node tree in
         List.length (find_clickable_elements dev) = List.length nodes
         /\ forall m : Match,
              In m nodes ->
              exists e : Element,
                In e (find_clickable_elements dev)
                /\ bounds e = [int_group tree m 1; int_group tree m 2;
                               int_group tree m 3; int_group tree m 4]
                /\ (contains "text=" (group0 tree m) = false ->
                    text e = EmptyString)
                /\ (contains "content-desc=" (group0 tree m) = false ->
                    content_desc e = EmptyString)
                /\ (contains "class=" (group0 tree m) = false ->
                    class e = EmptyString)
                /\ (contains "resource-id=" (group0 tree m) = false ->
                    resource_id e = EmptyString).
Proof.
  intros dev. split.
  - apply clickable_elements_well_formed.
  - intros tree Ht nodes. unfold find_clickable_elements. rewrite Ht.
    fold nodes. split.
    + apply length_map.
    + intros m Hm. exists (element_of_match tree m).
      split; [apply in_map; exact Hm|]. split; [reflexivity|].
      cbn [text content_desc class resource_id element_of_match].
      repeat split; intros H; apply attr_or_absent; exact H.
Qed.

(** C8, as stated, fails: a clickable node with the bounds [0,0][0,0] is
    returned, with width and height zero. *)
Lemma zero_area_node_is_returned :
  let dev := showing zero_area_dump in
  find_clickable_elements dev
  = [ {| text := EmptyString; content_desc := EmptyString;
         class := "android.view.View"; resource_id := EmptyString;
         package := "com.app"; bounds := [0; 0; 0; 0]; center := [0; 0];
         x := 0; y := 0; width := 0; height := 0 |} ]
  /\ ~ Forall (fun e => 0 < width e /\ 0 < height e)
         (find_clickable_elements dev).
Proof.
  cbv zeta.
  assert (E : find_clickable_elements (showing zero_area_dump)
              = [ {| text := EmptyString; content_desc := EmptyString;
                     class := "android.view.View"; resource_id := EmptyString;
                     package := "com.app"; bounds := [0; 0; 0; 0];
                     center := [0; 0]; x := 0; y := 0;
                     width := 0; height := 0 |} ])
    by (vm_compute; reflexivity).
  split; [exact E|]. rewrite E. intros H.
  inversion H as [|? ? [Hpos _] _]; subst. cbn in Hpos. lia.
Qed.

End ClickableElements.

(* ------------------------------------------------------------------ *)
(** ** The bottom-sheet rule *)

Section BottomSheet.

Import PyStr PyList Re Accessibility LocatorSpec Sample.

Lemma login_candidate_large (tree : string) (m : Match) :
  kept_button tree m -> login_candidate tree m = Some (button_of tree m).
Proof.
  intros (Hw & Hh & Hc). unfold login_candidate.
  fold (node_width tree m) (node_height tree m).
  assert (E1 : (node_width tree m >? 300) = true)
    by (rewrite Z.gtb_ltb; apply Z.ltb_lt; exact Hw).
  assert (E2 : (node_height tree m >? 80) = true)
    by (rewrite Z.gtb_ltb; apply Z.ltb_lt; exact Hh).
  rewrite E1, E2. cbn [andb]. fold (class_read tree m). rewrite Hc.
  reflexivity.
Qed.

Lemma login_candidate_some (tree : string) (m : Match) (b : Button) :
  login_candidate tree m = Some b ->
  kept_button tree m /\ b = button_of tree m.
Proof.
  unfold login_candidate.
  fold (node_width tree m) (node_height tree m) (class_read tree m).
  destruct (node_width tree m >? 300) eqn:E1; [|discriminate].
  destruct (node_height tree m >? 80) eqn:E2; [|discriminate].
  cbn [andb]. destruct (is_input_field (class_read tree m)) eqn:E3;
    [discriminate|].
  intros H. injection H as <-.
  rewrite Z.gtb_ltb in E1, E2. apply Z.ltb_lt in E1, E2.
  split; [repeat split; assumption | reflexivity].
Qed.



Lemma button_of_well_formed (tree : string) (m : Match) :
  well_formed_button (button_of tree m).
Proof.
  exists (int_group tree m 1), (int_group tree m 2),
         (int_group tree m 3), (int_group tree m 4).
  repeat split; reflexivity.
Qed.

(** The answer of the locator from the list it has collected. *)
Lemma find_real_login_button_of_list (dev : Device) :
  find_real_login_button dev
  = match sort_by button_y_le (clickable_buttons dev) with
    | b :: _ => Some (b_x b, b_y b, b)
    | [] => None
    end.
Proof. reflexivity. Qed.

(** What [find_real_login_button] does on every dump.  It keeps the
    clickable nodes that are wider than 300 and higher than 80 pixels and
    for which the class read in the 500 characters from the start of the
    node is not an input class, all of them and only them; it sorts them by
    ascending vertical centre and returns the first.  It returns nothing
    exactly when it kept nothing.  When it kept two buttons with vertical
    centres 400 and 900, in either document order, it returns the one at
    400. *)
Lemma bottom_sheet_rule_keeps_and_sorts :
  forall dev : Device,
    let kept := clickable_buttons dev in
    let result := find_real_login_button dev in
    Forall (fun b => 300 < b_width b /\ 80 < b_height b
                     /\ is_input_field (b_class b) = false
                     /\ well_formed_button b) kept
    /\ (forall tree m,
           usable_tree dev = Some tree ->
           In m (finditer true clickable_bounds tree) ->
           kept_button tree m -> In (button_of tree m) kept)
    /\ (forall b, In b kept ->
           exists tree m,
             usable_tree dev = Some tree
             /\ In m (finditer true clickable_bounds tree)
             /\ kept_button tree m /\ b = button_of tree m)
    /\ (exists sorted,
           Permutation sorted kept
           /\ StronglySorted (fun a b => b_y a <= b_y b) sorted
           /\ result = match sorted with
                       | b :: _ => Some (b_x b, b_y b, b)
                       | [] => None
                       end)
    /\ (result = None <-> kept = [])
    /\ (forall x y b,
           result = Some (x, y, b) ->
           x = b_x b /\ y = b_y b /\ In b kept
           /\ Forall (fun b' => y <= b_y b') kept)
    /\ (forall b1 b2,
           b_y b1 = 400 -> b_y b2 = 900 ->
           kept = [b1; b2] \/ kept = [b2; b1] ->
           result = Some (b_x b1, 400, b1))
    /\ find_real_login_button (showing two_button_dump)
       = Some (500, 400,
               {| b_x := 500; b_y := 400; b_bounds := [100; 350; 900; 450];
                  b_width := 800; b_height := 100; b_text := "Continue";
                  b_class := "android.widget.Button" |}).
Proof.
  intros dev kept result.
  assert (Hle : forall a b, button_y_le a b = (b_y a <=? b_y b))
    by reflexivity.
  split; [|split; [|split; [|split; [|split; [|split; [|split]]]]]].
  - apply Forall_forall. intros b Hb. unfold kept, clickable_buttons in Hb.
    destruct (usable_tree dev) as [tree|]; [|contradiction].
    apply collect_In in Hb. destruct Hb as (m & _ & Hm).
    apply login_candidate_some in Hm. destruct Hm as ((Hw & Hh & Hc) & ->).
    repeat split; try assumption. apply button_of_well_formed.
  - intros tree m Ht Hm Hl. unfold kept, clickable_buttons. rewrite Ht.
    apply collect_In. exists m. split; [exact Hm|].
    apply login_candidate_large. exact Hl.
  - intros b Hb. unfold kept, clickable_buttons in Hb.
    destruct (usable_tree dev) as [tree|]; [|contradiction].
    apply collect_In in Hb. destruct Hb as (m & Hin & Hm).
    apply login_candidate_some in Hm. destruct Hm as (Hk & ->).
    exists tree, m. repeat split; try assumption; apply Hk.
  - exists (sort_by button_y_le kept). split; [apply sort_by_perm|].
    split; [apply (sort_by_sorted b_y button_y_le Hle)|]. reflexivity.
  - unfold result. rewrite find_real_login_button_of_list. fold kept.
    rewrite <- (sort_by_nil button_y_le kept).
    destruct (sort_by button_y_le kept); split; intros H;
      try reflexivity; discriminate.
  - intros x0 y0 b H. unfold result in H.
    rewrite find_real_login_button_of_list in H. fold kept in H.
    destruct (sort_by button_y_le kept) as [|b0 rest] eqn:E; [discriminate|].
    injection H as <- <- <-.
    destruct (sort_by_head b_y button_y_le Hle kept b0 rest E) as [Hin Hmin].
    repeat split; assumption.
  - intros b1 b2 H1 H2 Hk. unfold result.
    rewrite find_real_login_button_of_list. fold kept.
    destruct Hk as [-> | ->]; cbn [sort_by fold_right insert_by];
      unfold button_y_le; rewrite H1, H2; cbn; rewrite H1; reflexivity.
  - vm_compute. reflexivity.
Qed.

(** The window of 500 characters is counted in characters, not in bytes: a
    text box whose text is 240 letters of two bytes each has its class
    inside the window and is skipped. *)
Lemma two_byte_text_box_is_skipped :
  find_real_login_button (showing two_byte_text_box_dump) = None.
Proof. vm_compute. reflexivity. Qed.

(** C3, on the failing input: a dump with a large clickable text box that
    holds 600 letters, at vertical centre 400, above a large clickable
    button at 900.  The class attribute of the text box, EditText, lies
    beyond the 500 characters that [find_real_login_button] looks at, so it
    reads no class, does not skip the text box and returns it, at
    (500, 400), instead of the one button that qualifies. *)
Theorem bottom_sheet_rule_returns_long_text_box :
  let tree := long_text_box_dump in
  let text_box :=
    {| m_start := 24; m_end := 788;
       m_groups := [(770, 773); (774, 777); (779, 782); (783, 786)]%nat |} in
  let button :=
    {| m_start := 791; m_end := 961;
       m_groups := [(943, 946); (947, 950); (952, 955); (956, 959)]%nat |} in
  finditer true clickable_bounds tree = [text_box; button]
  /\ node_class tree text_box = "android.widget.EditText"%string
  /\ is_input_field (node_class tree text_box) = true
  /\ class_read tree text_box = EmptyString
  /\ node_center_y tree text_box = 400
  /\ large_button tree button /\ node_center_y tree button = 900
  /\ find_real_login_button (showing tree)
     = Some (500, 400,
             {| b_x := 500; b_y := 400; b_bounds := [100; 350; 900; 450];
                b_width := 800; b_height := 100; b_text := EmptyString;
                b_class := EmptyString |}).
Proof.
  cbv zeta.
  split; [vm_compute; reflexivity|].
  split; [vm_compute; reflexivity|].
  split; [vm_compute; reflexivity|].
  split; [vm_compute; reflexivity|].
  split; [vm_compute; reflexivity|].
  split; [|split; vm_compute; reflexivity].
  unfold large_button. repeat split; vm_compute; reflexivity.
Qed.




End BottomSheet.

(* ------------------------------------------------------------------ *)
(** ** The send control near an input field *)

Section SendButton.

Import PyStr PyList Re Accessibility LocatorSpec Sample.

Lemma bounds_of_well_formed (e : Element) :
  well_formed_element e ->
  bounds_width (bounds e) = width e /\ bounds_height (bounds e) = height e.
Proof.
  intros (x1 & y1 & x2 & y2 & Hb & Hw & Hh & _).
  rewrite Hb, Hw, Hh. split; reflexivity.
Qed.

(** The loop keeps exactly the elements that pass the positional filters. *)
Lemma send_candidate_none (input_x input_y : Z) (e : Element) :
  well_formed_element e ->
  (send_candidate input_x input_y e = None <-> ~ near_input input_x input_y e).
Proof.
  intros Hwf. destruct (bounds_of_well_formed e Hwf) as [Ew Eh].
  unfold send_candidate, near_input. rewrite Ew, Eh.
  rewrite !Z.gtb_ltb.
  destruct (x e <=? 0) eqn:T1; cbn [orb].
  { apply Z.leb_le in T1. split; [intros _; lia | reflexivity]. }
  destruct (y e <=? 0) eqn:T2.
  { apply Z.leb_le in T2. split; [intros _; lia | reflexivity]. }
  destruct (x e <=? input_x + 20) eqn:T3.
  { apply Z.leb_le in T3. split; [intros _; lia | reflexivity]. }
  destruct (450 <? x e - input_x) eqn:T4.
  { apply Z.ltb_lt in T4. split; [intros _; lia | reflexivity]. }
  destruct (120 <? Z.abs (y e - input_y)) eqn:T5.
  { apply Z.ltb_lt in T5. split; [intros _; lia | reflexivity]. }
  destruct (width e <? 20) eqn:T6; cbn [orb].
  { apply Z.ltb_lt in T6. split; [intros _; lia | reflexivity]. }
  destruct (180 <? width e) eqn:T7; cbn [orb].
  { apply Z.ltb_lt in T7. split; [intros _; lia | reflexivity]. }
  destruct (height e <? 20) eqn:T8; cbn [orb].
  { apply Z.ltb_lt in T8. split; [intros _; lia | reflexivity]. }
  destruct (180 <? height e) eqn:T9.
  { apply Z.ltb_lt in T9. split; [intros _; lia | reflexivity]. }
  apply Z.leb_gt in T1, T2, T3. apply Z.ltb_ge in T4, T5, T6, T7, T8, T9.
  split; [discriminate|]. intros H. exfalso. apply H. lia.
Qed.

(** C10.  [find_send_button_near_input] answers [None] exactly when the
    dump has no clickable element.  When it has some and none of them passes
    the positional filters (right of the input by more than 20 and at most
    450 pixels, within 120 pixels of its row, between 20 and 180 pixels wide
    and high), the answer is the fixed point (990, 1427), which is checked
    against nothing in the dump; when one passes, the answer is a candidate
    from the dump. *)
Theorem send_button_falls_back_to_fixed_point :
  forall (dev : Device) (input_x input_y : Z),
    let elements := find_clickable_elements dev in
    let result := find_send_button_near_input dev input_x input_y in
    (result = None <-> elements = [])
    /\ (elements <> [] ->
        Forall (fun e => ~ near_input input_x input_y e) elements ->
        result = Some (990, 1427, Fallback 990 1427 "send (fallback)"))
    /\ (Exists (near_input input_x input_y) elements ->
        exists c, result = Some (c_x c, c_y c, Candidate c))
    /\ find_send_button_near_input (showing exact_300_by_80_dump) 540 1427
       = Some (990, 1427, Fallback 990 1427 "send (fallback)").
Proof.
  intros dev input_x input_y elements result.
  pose proof (clickable_elements_well_formed dev) as Hwf. fold elements in Hwf.
  unfold result, find_send_button_near_input. fold elements.
  split; [|split; [|split]].
  - destruct elements as [|e es]; [split; reflexivity|].
    destruct (sort_by send_key_le
                (collect (send_candidate input_x input_y) (e :: es)));
      split; discriminate.
  - intros Hne Hnone. destruct elements as [|e es]; [contradiction|].
    rewrite (collect_none (send_candidate input_x input_y) (e :: es)).
    + reflexivity.
    + apply Forall_forall. intros e' He'.
      rewrite Forall_forall in Hwf, Hnone.
      apply (send_candidate_none input_x input_y e' (Hwf e' He')).
      apply Hnone. exact He'.
  - intros Hex. apply Exists_exists in Hex. destruct Hex as (e & He & Hnear).
    destruct elements as [|e0 es]; [contradiction|].
    destruct (sort_by send_key_le
                (collect (send_candidate input_x input_y) (e0 :: es)))
      as [|best rest] eqn:E.
    + exfalso. apply sort_by_nil in E.
      rewrite Forall_forall in Hwf.
      destruct (send_candidate input_x input_y e) as [cand|] eqn:Ec.
      * assert (Hin : In cand (collect (send_candidate input_x input_y)
                                 (e0 :: es)))
          by (apply collect_In; exists e; split; assumption).
        rewrite E in Hin. contradiction.
      * apply (send_candidate_none input_x input_y e (Hwf e He)) in Ec.
        contradiction.
    + exists best. reflexivity.
  - vm_compute. reflexivity.
Qed.

End SendButton.

(* ------------------------------------------------------------------ *)
(** ** The keyword match *)

Section KeywordMatch.

Import PyStr PyList Re Accessibility LocatorSpec Sample.

(** C7 on a text box.  The dump has one clickable node, an
    [android.widget.EditText] that reads Login.  The keyword match returns
    that node for the keyword login, while the bottom-sheet rule, which skips
    input classes, returns nothing on the same dump. *)
Theorem keyword_match_returns_text_box :
  let dev := showing text_box_dump in
  find_clickable_elements dev
  = [ {| text := "Login"; content_desc := EmptyString;
         class := "android.widget.EditText"; resource_id := EmptyString;
         package := "com.app"; bounds := [100; 400; 900; 500];
         center := [500; 450]; x := 500; y := 450;
         width := 800; height := 100 |} ]
  /\ is_input_field "android.widget.EditText" = true
  /\ find_button_by_keywords dev ["login"%string]
     = Some (500, 450,
             {| h_text := "login"; h_bounds := [100; 400; 900; 500];
                h_center := [500; 450];
                h_class := Some "android.widget.edittext"%string |})
  /\ find_real_login_button dev = None.
Proof.
  cbv zeta. repeat split; vm_compute; reflexivity.
Qed.

End KeywordMatch.

(* ------------------------------------------------------------------ *)
(** ** The workflow *)

Section WorkflowProperties.

Import PyStr Orchestrator WorkflowSpec.

Variable c : Collaborators.

Lemma is_str_eq (v : Val) (name : string) :
  is_str v name = true -> v = VStr name.
Proof.
  destruct v; cbn [is_str]; try discriminate.
  intros H. apply String.eqb_eq in H. subst. reflexivity.
Qed.

(** [_observe] counts each entry, and past five entries it sets the error
    and the completion flag and leaves the screen analysis alone. *)
Lemma observe_counts_and_stops (t : nat) (state : Dict) :
  let before := as_int (get "iteration_count" (VInt 0) state) in
  let state' := _observe c t state in
  as_int (get "iteration_count" VNone state') = before + 1
  /\ (5 <= before ->
      flag "task_complete" state' = true
      /\ get "error" VNone state'
         = VStr "Maximum iterations reached. Task may be incomplete."
      /\ get "screen_analysis" VNone state'
         = get "screen_analysis" VNone state)
  /\ (before < 5 ->
      flag "task_complete" state' = flag "task_complete" state
      /\ get "error" VNone state' = get "error" VNone state
      /\ get "screen_analysis" VNone state' = analyze_screen c t).
Proof.
  cbv zeta. unfold _observe. cbn [get set String.eqb Ascii.eqb Bool.eqb as_int].
  set (before := as_int (get "iteration_count" (VInt 0) state)).
  destruct (before + 1 >? 5) eqn:E; rewrite Z.gtb_ltb in E.
  - apply Z.ltb_lt in E. split; [reflexivity|]. split; [|intros; lia].
    intros _. repeat split; reflexivity.
  - apply Z.ltb_ge in E. split; [reflexivity|]. split; [intros; lia|].
    intros _. repeat split; reflexivity.
Qed.

(** The edge out of [observe] does not look at the state: after the guard
    has fired the graph still goes on to [analyze]. *)
Lemma observe_always_leads_to_analyze (t : nat) (state : Dict) :
  fst (step c t observe state) = analyze.
Proof. reflexivity. Qed.

(** One step between [authenticate] and [verify] keeps the login pending. *)
Lemma login_pending_step (t : nat) (n : Node) (state : Dict) :
  login_pending n state ->
  login_pending (fst (step c t n state)) (snd (step c t n state)).
Proof.
  intros ([-> | ->] & Hauth & Hact & Hcount).
  - cbn [step fst snd]. unfold login_pending, _authenticate.
    split; [right; reflexivity|].
    destruct (truthy (get "login_complete" VNone state)
              && is_str (get "login_method" VNone state) "google").
    + repeat split; assumption.
    + destruct (_perform_llm_guided_login c t) as [success message].
      destruct success; repeat split; assumption.
  - cbn [step fst snd].
    assert (Hkeep : flag "needs_auth" (_verify c t state) = true
                    /\ get "action" VNone (sub "intent_parts" (_verify c t state))
                       = VStr "login"
                    /\ as_int (get "iteration_count" VNone (_verify c t state))
                       = 1).
    { unfold _verify. destruct (flag "action_success" state);
        [|repeat split; assumption].
      rewrite Hact. cbn [is_str String.eqb Ascii.eqb Bool.eqb orb].
      repeat split; assumption. }
    destruct Hkeep as (H1 & H2 & H3).
    unfold login_pending, _is_complete. rewrite H1.
    split; [left; reflexivity|]. repeat split; assumption.
Qed.

Lemma login_pending_run (fuel : nat) :
  forall (t : nat) (n : Node) (state : Dict),
    login_pending n state ->
    login_pending (fst (run_from c fuel t n state))
                  (snd (run_from c fuel t n state)).
Proof.
  induction fuel as [|fuel IH]; intros t n state H.
  - exact H.
  - cbn [run_from]. pose proof (login_pending_step t n state H) as H'.
    destruct (step c t n state) as [n' state']. apply IH. exact H'.
Qed.

End WorkflowProperties.

Section WorkflowClaim.

Import PyStr Orchestrator WorkflowSpec.

(** The first two node executions of a login command: [observe], then
    [analyze]. *)
Lemma login_command_first_steps
    (c : Collaborators) (user_command task_id : string) :
  get "action" VNone (_parse_intent c user_command) = VStr "login" ->
  let s1 := snd (run_from c 1 0 observe (initial_state user_command task_id)) in
  let r2 := run_from c 2 0 observe (initial_state user_command task_id) in
  run_from c 1 0 observe (initial_state user_command task_id) = (analyze, s1)
  /\ as_int (get "iteration_count" VNone s1) = 1
  /\ as_int (get "iteration_count" VNone (snd r2)) = 1
  /\ (login_pending (fst r2) (snd r2)
      \/ (fst r2 = act
          /\ login_pending (fst (step c 2 act (snd r2)))
                           (snd (step c 2 act (snd r2))))).
Proof.
  intros Hact. cbv zeta.
  split; [reflexivity|]. split; [reflexivity|].
  cbn [run_from step fst snd].
  unfold _observe, initial_state.
  cbn [get set String.eqb Ascii.eqb Bool.eqb as_int Z.add Z.gtb Z.compare
       Pos.compare Pos.compare_cont Pos.add].
  unfold _analyze.
  cbn [get set String.eqb Ascii.eqb Bool.eqb truthy andb].
  set (ip := _parse_intent c user_command) in *.
  unfold _should_authenticate, sub, flag.
  cbn [get set String.eqb Ascii.eqb Bool.eqb truthy andb].
  rewrite Hact.
  cbn [is_str String.eqb Ascii.eqb Bool.eqb truthy andb].
  split; [reflexivity|].
  destruct (truthy (get "wants_login" (VBool false) ip)) eqn:W.
  - left. cbn [analyze_edges String.eqb Ascii.eqb Bool.eqb fst snd].
    unfold login_pending, flag, sub.
    cbn [get set String.eqb Ascii.eqb Bool.eqb truthy andb as_int].
    split; [left; reflexivity|]. repeat split; assumption.
  - right. cbn [analyze_edges String.eqb Ascii.eqb Bool.eqb fst snd step].
    split; [reflexivity|].
    unfold login_pending, _act, flag, sub.
    cbn [get set String.eqb Ascii.eqb Bool.eqb truthy andb as_int].
    rewrite Hact.
    cbn [is_str get set String.eqb Ascii.eqb Bool.eqb truthy andb as_int].
    split; [right; reflexivity|].
    repeat split; try reflexivity; exact Hact.
Qed.

Lemma run_from_split (c : Collaborators) (a b : nat) :
  forall (t : nat) (n : Node) (state : Dict),
    run_from c (a + b) t n state
    = run_from c b (a + t) (fst (run_from c a t n state))
        (snd (run_from c a t n state)).
Proof.
  induction a as [|a IH]; intros t n state.
  - reflexivity.
  - cbn [Nat.add run_from]. destruct (step c t n state) as [n' state'].
    rewrite IH. rewrite Nat.add_succ_r. reflexivity.
Qed.

Lemma login_pending_not_end (n : Node) (state : Dict) :
  login_pending n state ->
  n <> END /\ as_int (get "iteration_count" VNone state) = 1.
Proof.
  intros ([-> | ->] & _ & _ & H); split; try exact H; discriminate.
Qed.

(** C4 on a login command.  When [_parse_intent] reads the command as the
    action login, the run of the graph from [initial_state] goes through
    [observe] once and then alternates between [authenticate] and [verify]:
    after any number of node executions it has not reached the end of the
    graph, and the iteration counter that [_observe] checks against its
    maximum of five stays at one. *)
Theorem login_command_never_reaches_the_end :
  forall (c : Collaborators) (user_command task_id : string),
    is_str (get "action" VNone (_parse_intent c user_command)) "login" = true ->
    forall fuel : nat,
      let run := invoke c fuel (initial_state user_command task_id) in
      fst run <> END
      /\ ((1 <= fuel)%nat ->
          as_int (get "iteration_count" VNone (snd run)) = 1)
      /\ ((3 <= fuel)%nat -> login_pending (fst run) (snd run)).
Proof.
  intros c user_command task_id Hact fuel run.
  apply is_str_eq in Hact.
  destruct (login_command_first_steps c user_command task_id Hact)
    as (E1 & C1 & C2 & H2).
  cbv zeta in E1, C1, C2, H2. unfold run, invoke.
  set (init := initial_state user_command task_id) in *.
  assert (H3 : forall k, login_pending (fst (run_from c (3 + k) 0 observe init))
                                       (snd (run_from c (3 + k) 0 observe init))).
  { intros k. destruct H2 as [Hp | [Hn Hp]].
    - replace (3 + k)%nat with (2 + (1 + k))%nat by lia.
      rewrite run_from_split. apply login_pending_run. exact Hp.
    - replace (3 + k)%nat with (2 + (1 + k))%nat by lia.
      rewrite run_from_split. cbn [Nat.add].
      change (run_from c (S k) 2 (fst (run_from c 2 0 observe init))
                (snd (run_from c 2 0 observe init)))
        with (let '(n', state') :=
                step c 2 (fst (run_from c 2 0 observe init))
                  (snd (run_from c 2 0 observe init)) in
              run_from c k 3 n' state').
      rewrite Hn in *.
      destruct (step c 2 act (snd (run_from c 2 0 observe init)))
        as [n' state']. apply login_pending_run. exact Hp. }
  destruct fuel as [|[|[|fuel]]].
  - split; [discriminate|]. split; intros; lia.
  - rewrite E1. split; [discriminate|]. split; [intros _; exact C1 | intros; lia].
  - split; [|split; [intros _; exact C2 | intros; lia]].
    destruct H2 as [Hp | [Hn _]].
    + apply (login_pending_not_end _ _ Hp).
    + rewrite Hn. discriminate.
  - specialize (H3 fuel). cbn [Nat.add] in H3.
    destruct (login_pending_not_end _ _ H3) as [Hne Hc].
    split; [exact Hne|]. split; intros _; assumption.
Qed.

(** C4 on the command login with a guided login that fails each time: after
    a hundred node executions the run is still between [authenticate] and
    [verify]. *)
Lemma login_command_never_reaches_the_end_witness :
  let run := invoke failing_login 100 (initial_state "login" "task-1") in
  fst run <> END
  /\ ((1 <= 100)%nat -> as_int (get "iteration_count" VNone (snd run)) = 1)
  /\ ((3 <= 100)%nat -> login_pending (fst run) (snd run)).
Proof.
  apply (login_command_never_reaches_the_end failing_login "login" "task-1").
  reflexivity.
Defined.

End WorkflowClaim.

(* ================================================================== *)
(** * Further properties *)

(* ------------------------------------------------------------------ *)
(** ** The workflow: how often [observe] runs, and the ways out *)

Section WorkflowBound.

Import PyStr Orchestrator WorkflowSpec WorkflowBounds.

Variable c : Collaborators.
Hypothesis Hc : well_behaved c.

Lemma as_int_get_default (k : string) (state : Dict) :
  as_int (get k (VInt 0) state) = as_int (get k VNone state).
Proof.
  induction state as [|[k' v] state IH]; [reflexivity|].
  cbn [get]. destruct (String.eqb k' k); [reflexivity | exact IH].
Qed.

(** [_observe] adds one to the counter; past five it sets the error. *)
Lemma observe_count (t : nat) (state : Dict) :
  count (_observe c t state) = count state + 1
  /\ (5 <= count state -> stopped (_observe c t state) = true)
  /\ (count state < 5 -> stopped (_observe c t state) = stopped state).
Proof.
  unfold count, stopped, _observe.
  cbn [get set String.eqb Ascii.eqb Bool.eqb as_int].
  rewrite as_int_get_default.
  set (n := as_int (get "iteration_count" VNone state)).
  destruct (n + 1 >? 5) eqn:E; rewrite Z.gtb_ltb in E.
  - apply Z.ltb_lt in E. cbn. split; [reflexivity|]. split; [reflexivity|lia].
  - apply Z.ltb_ge in E. cbn. split; [reflexivity|]. split; [lia|reflexivity].
Qed.

Lemma analyze_keeps (state : Dict) :
  count (_analyze c state) = count state
  /\ stopped (_analyze c state) = stopped state.
Proof.
  unfold _analyze, count, stopped.
  destruct (truthy (get "query_session_follow_up" VNone state)
            && truthy (get "pending_query" VNone state)
            && truthy (get "pending_app" VNone state)); [split; reflexivity|].
  destruct (truthy (get "whatsapp_follow_up" VNone state)
            && truthy (get "intent_parts" VNone state)
            && is_str (get "action" VNone (sub "intent_parts" state))
                 "send_whatsapp_message"); split; reflexivity.
Qed.

Lemma act_keeps (t : nat) (state : Dict) :
  count (_act c t state) = count state
  /\ (stopped state = true -> stopped (_act c t state) = true).
Proof.
  unfold _act.
  destruct (truthy (get "query_session_follow_up" VNone state));
    [split; [reflexivity | intros H; exact H]|].
  destruct (is_str (get "action" VNone (sub "intent_parts" state)) "open_app").
  { split; [apply (act_keeps_count c Hc) | apply (act_keeps_error c Hc)]. }
  destruct (is_str (get "action" VNone (sub "intent_parts" state)) "close_app");
    [split; [reflexivity | intros H; exact H]|].
  destruct (is_str (get "action" VNone (sub "intent_parts" state)) "login");
    [split; [reflexivity | intros H; exact H]|].
  split; [apply (act_keeps_count c Hc) | apply (act_keeps_error c Hc)].
Qed.

Lemma authenticate_keeps (t : nat) (state : Dict) :
  count (_authenticate c t state) = count state
  /\ (stopped state = true -> stopped (_authenticate c t state) = true).
Proof.
  unfold _authenticate.
  destruct (truthy (get "login_complete" VNone state)
            && is_str (get "login_method" VNone state) "google");
    [split; [reflexivity | intros H; exact H]|].
  pose proof (login_failure_has_message c Hc t) as Hm.
  destruct (_perform_llm_guided_login c t) as [success message].
  destruct success; [split; [reflexivity | intros H; exact H]|].
  split; [reflexivity|]. intros _. unfold stopped.
  cbn [get set String.eqb Ascii.eqb Bool.eqb truthy]. apply Hm. reflexivity.
Qed.

Lemma verify_keeps (t : nat) (state : Dict) :
  count (_verify c t state) = count state
  /\ (stopped state = true -> stopped (_verify c t state) = true).
Proof.
  unfold _verify.
  destruct (flag "action_success" state); [|split; [reflexivity | intros H; exact H]].
  destruct (is_str (get "action" VNone (sub "intent_parts" state)) "open_app").
  { split; [apply (verify_keeps_count c Hc) | apply (verify_keeps_error c Hc)]. }
  destruct (is_str (get "action" VNone (sub "intent_parts" state)) "extract"
            || is_str (get "action" VNone (sub "intent_parts" state)) "query");
    split; try reflexivity; intros H; exact H.
Qed.

(** With an error set, [_is_complete] does not answer continue. *)
Lemma stopped_never_continues (state : Dict) :
  stopped state = true ->
  verify_edges (_is_complete state) <> observe.
Proof.
  unfold stopped. intros H. unfold _is_complete. rewrite H.
  destruct (flag "needs_auth" state); [discriminate|].
  destruct (flag "task_complete" state && negb (flag "session_active" state));
    [discriminate|].
  destruct (flag "needs_confirmation" state); [discriminate|].
  destruct (flag "needs_query_execution" state); [discriminate|].
  destruct (flag "session_active" state); discriminate.
Qed.

Lemma budget_bound (n : Node) (state : Dict) :
  budget n state <= Z.max 1 (6 - count state).
Proof.
  unfold budget. destruct n; try lia; destruct (stopped state); lia.
Qed.

(** One node execution uses up the budget it counts for. *)
Lemma step_budget (t : nat) (n : Node) (state : Dict) :
  (match n with observe => 1 | _ => 0 end)
  + budget (fst (step c t n state)) (snd (step c t n state))
  <= budget n state.
Proof.
  destruct n; cbn [step fst snd].
  - destruct (observe_count t state) as (Hcount & Hstop & Hkeep).
    unfold budget at 1 2. rewrite Hcount.
    destruct (Z_lt_ge_dec (count state) 5) as [Hlt | Hge].
    + destruct (stopped (_observe c t state)); lia.
    + rewrite (Hstop ltac:(lia)). lia.
  - destruct (analyze_keeps state) as (Hcount & Hstop).
    assert (E : budget (analyze_edges (_should_authenticate (_analyze c state)))
                  (_analyze c state) = budget analyze state).
    { unfold analyze_edges.
      destruct (String.eqb (_should_authenticate (_analyze c state))
                  "authenticate"); unfold budget; rewrite Hcount, Hstop;
        reflexivity. }
    rewrite E. lia.
  - destruct (act_keeps t state) as (Hcount & Hstop). unfold budget.
    rewrite Hcount. destruct (stopped state).
    + rewrite (Hstop eq_refl). lia.
    + destruct (stopped (_act c t state)); lia.
  - destruct (authenticate_keeps t state) as (Hcount & Hstop). unfold budget.
    rewrite Hcount. destruct (stopped state).
    + rewrite (Hstop eq_refl). lia.
    + destruct (stopped (_authenticate c t state)); lia.
  - destruct (verify_keeps t state) as (Hcount & Hstop).
    unfold budget at 2. destruct (stopped state) eqn:Es.
    + specialize (Hstop eq_refl).
      pose proof (stopped_never_continues _ Hstop) as Hne.
      unfold budget. rewrite Hstop.
      destruct (verify_edges (_is_complete (_verify c t state)));
        try lia; contradiction.
    + pose proof (budget_bound
                    (verify_edges (_is_complete (_verify c t state)))
                    (_verify c t state)) as Hb.
      rewrite Hcount in Hb. lia.
  - cbn. lia.
  - cbn. lia.
  - destruct (truthy (get "needs_query_execution" VNone
                        (_confirm_action c t state))); cbn; lia.
  - cbn. lia.
  - cbn. lia.
Qed.

Lemma observe_entries_budget (fuel : nat) :
  forall (t : nat) (n : Node) (state : Dict),
    Z.of_nat (observe_entries c fuel t n state) <= budget n state.
Proof.
  induction fuel as [|fuel IH]; intros t n state.
  - cbn [observe_entries]. unfold budget.
    destruct n; try lia; destruct (stopped state); lia.
  - cbn [observe_entries]. pose proof (step_budget t n state) as Hs.
    destruct (step c t n state) as [n' state']. cbn [fst snd] in Hs.
    specialize (IH (S t) n' state'). destruct n; lia.
Qed.

End WorkflowBound.

Section WorkflowExits.

Import PyStr Orchestrator WorkflowSpec WorkflowBounds.

(** X1.  When the collaborators leave the iteration counter alone and do
    not clear an error, a run that starts with a counter that is not negative
    executes [observe] at most six times, however long it goes on: five
    counted observations and the one on which the guard fires. *)
Theorem observe_runs_at_most_six_times :
  forall c : Collaborators,
    well_behaved c ->
    forall (fuel t : nat) (state : Dict),
      0 <= count state ->
      (observe_entries c fuel t observe state <= 6)%nat.
Proof.
  intros c Hc fuel t state H0.
  pose proof (observe_entries_budget c Hc fuel t observe state) as H.
  unfold budget in H. lia.
Qed.

Lemma failing_login_well_behaved : well_behaved failing_login.
Proof. constructor; intros; try reflexivity; assumption. Qed.

(** X1 on a login command whose guided login fails each time. *)
Lemma observe_runs_at_most_six_times_witness :
  (observe_entries failing_login 100 0 observe
     (initial_state "login" "task-1") <= 6)%nat.
Proof.
  apply (observe_runs_at_most_six_times failing_login
           failing_login_well_behaved 100 0 (initial_state "login" "task-1")).
  unfold count. cbn. lia.
Defined.

Lemma run_from_end (c : Collaborators) (fuel : nat) :
  forall (t : nat) (state : Dict),
    fst (run_from c fuel t END state) = END
    /\ observe_entries c fuel t END state = 0%nat.
Proof.
  induction fuel as [|fuel IH]; intros t state; [split; reflexivity|].
  cbn [run_from observe_entries step]. destruct (IH (S t) state) as [H1 H2].
  rewrite H1, H2. split; reflexivity.
Qed.

Lemma run_from_respond (c : Collaborators) (fuel t : nat) (state : Dict) :
  observe_entries c fuel t respond state = 0%nat
  /\ ((1 <= fuel)%nat -> fst (run_from c fuel t respond state) = END).
Proof.
  destruct fuel as [|fuel]; [split; [reflexivity | lia]|].
  cbn [run_from observe_entries step].
  destruct (run_from_end c fuel (S t) (_respond c t state)) as [H1 H2].
  rewrite H1, H2. split; [reflexivity | intros _; reflexivity].
Qed.

(** X2.  From [confirm_action], [execute_query], [handle_error] and
    [respond] the graph reaches its end within three node executions and
    never comes back to [observe], whatever the state and whatever the
    collaborators do; [handle_error] and [execute_query] take two. *)
Theorem late_nodes_reach_the_end :
  forall (c : Collaborators) (t : nat) (state : Dict),
    fst (run_from c 1 t respond state) = END
    /\ fst (run_from c 2 t handle_error state) = END
    /\ fst (run_from c 2 t execute_query state) = END
    /\ fst (run_from c 3 t confirm_action state) = END
    /\ forall (fuel : nat) (n : Node),
         n = confirm_action \/ n = execute_query
         \/ n = handle_error \/ n = respond \/ n = END ->
         observe_entries c fuel t n state = 0%nat
         /\ ((3 <= fuel)%nat -> fst (run_from c fuel t n state) = END).
Proof.
  intros c t state.
  pose proof (run_from_end c) as Hend.
  pose proof (run_from_respond c) as Hresp.
  assert (Hto_resp : forall (f : nat -> Dict -> Dict) fuel t' s n,
             step c t' n s = (respond, f t' s) ->
             n <> observe ->
             observe_entries c fuel t' n s = 0%nat
             /\ ((2 <= fuel)%nat -> fst (run_from c fuel t' n s) = END)).
  { intros f [|fuel] t' s n Hs Hn; [split; [reflexivity | lia]|].
    cbn [run_from observe_entries]. rewrite Hs.
    destruct (Hresp fuel (S t') (f t' s)) as [H1 H2]. rewrite H1.
    split; [destruct n; try reflexivity; contradiction|].
    intros Hf. apply H2. lia. }
  split; [reflexivity|]. split; [reflexivity|]. split; [reflexivity|].
  split.
  { cbn [run_from step].
    destruct (truthy (get "needs_query_execution" VNone
                        (_confirm_action c t state))); reflexivity. }
  intros fuel n [-> | [-> | [-> | [-> | ->]]]].
  - destruct fuel as [|fuel]; [split; [reflexivity | lia]|].
    cbn [run_from observe_entries step].
    destruct (truthy (get "needs_query_execution" VNone
                        (_confirm_action c t state))).
    + destruct (Hto_resp (_execute_query c) fuel (S t)
                  (_confirm_action c t state) execute_query eq_refl
                  ltac:(discriminate)) as [H1 H2].
      rewrite H1. split; [reflexivity|]. intros Hf. apply H2. lia.
    + destruct (Hresp fuel (S t) (_confirm_action c t state)) as [H1 H2].
      rewrite H1. split; [reflexivity|]. intros Hf. apply H2. lia.
  - destruct (Hto_resp (_execute_query c) fuel t state execute_query eq_refl
                ltac:(discriminate)) as [H1 H2].
    split; [exact H1|]. intros Hf. apply H2. lia.
  - destruct (Hto_resp (_handle_error c) fuel t state handle_error eq_refl
                ltac:(discriminate)) as [H1 H2].
    split; [exact H1|]. intros Hf. apply H2. lia.
  - destruct (Hresp fuel t state) as [H1 H2].
    split; [exact H1|]. intros Hf. apply H2. lia.
  - destruct (Hend fuel t state) as [H1 H2]. split; [exact H2|].
    intros _. exact H1.
Qed.

(** X3.  A command that [_parse_intent] reads as the action close_app, with
    no login wanted, runs through [observe], [analyze], [act], [verify] and
    [respond] and is at the end of the graph after five node executions,
    whatever the other collaborators do.  [_verify] has then put the session
    flag on and the completion flag off, so the run ends by the session
    rule of [_is_complete]. *)
Theorem close_command_ends_in_five_steps :
  forall (c : Collaborators) (user_command task_id : string),
    is_str (get "action" VNone (_parse_intent c user_command)) "close_app"
    = true ->
    truthy (get "wants_login" (VBool false) (_parse_intent c user_command))
    = false ->
    let init := initial_state user_command task_id in
    map (fun k => fst (invoke c k init)) [0; 1; 2; 3; 4; 5]%nat
    = [observe; analyze; act; verify; respond; END]
    /\ (forall fuel, (5 <= fuel)%nat -> fst (invoke c fuel init) = END)
    /\ flag "session_active" (snd (invoke c 4 init)) = true
    /\ flag "task_complete" (snd (invoke c 4 init)) = false
    /\ flag "action_success" (snd (invoke c 4 init)) = true
    /\ count (snd (invoke c 4 init)) = 1.
Proof.
  intros c user_command task_id Hact Hlogin init.
  apply is_str_eq in Hact.
  set (s1 := _observe c 0 init).
  set (s2 := _analyze c s1).
  set (s3 := _act c 2 s2).
  set (s4 := _verify c 3 s3).
  assert (A2 : get "action" VNone (sub "intent_parts" s2) = VStr "close_app"
               /\ flag "needs_auth" s2 = false
               /\ truthy (get "query_session_follow_up" VNone s2) = false
               /\ flag "needs_confirmation" s2 = false
               /\ flag "needs_query_execution" s2 = false
               /\ count s2 = 1).
  { unfold s2, s1, init, initial_state, _observe.
    cbn [get set String.eqb Ascii.eqb Bool.eqb as_int Z.add Z.gtb Z.compare
         Pos.compare Pos.compare_cont Pos.add].
    unfold _analyze.
    cbn [get set String.eqb Ascii.eqb Bool.eqb truthy andb].
    unfold sub, flag, count.
    cbn [get set String.eqb Ascii.eqb Bool.eqb truthy andb as_int].
    repeat split; assumption || reflexivity. }
  destruct A2 as (A2 & N2 & Q2 & P2 & R2 & C2).
  assert (S1 : step c 1 analyze s1 = (act, s2)).
  { cbn [step]. fold s2. f_equal. unfold _should_authenticate.
    rewrite A2, N2. reflexivity. }
  assert (A3 : get "action" VNone (sub "intent_parts" s3) = VStr "close_app"
               /\ flag "needs_auth" s3 = false
               /\ flag "action_success" s3 = true
               /\ flag "needs_confirmation" s3 = false
               /\ flag "needs_query_execution" s3 = false
               /\ count s3 = 1).
  { unfold s3, _act. rewrite Q2, A2.
    cbn [is_str String.eqb Ascii.eqb Bool.eqb].
    unfold sub, flag, count in *.
    cbn [get set String.eqb Ascii.eqb Bool.eqb truthy andb as_int].
    repeat split; assumption || reflexivity. }
  destruct A3 as (A3 & N3 & K3 & P3 & R3 & C3).
  assert (A4 : flag "needs_auth" s4 = false
               /\ flag "session_active" s4 = true
               /\ flag "task_complete" s4 = false
               /\ flag "action_success" s4 = true
               /\ flag "needs_confirmation" s4 = false
               /\ flag "needs_query_execution" s4 = false
               /\ count s4 = 1).
  { unfold s4, _verify. rewrite K3, A3.
    cbn [is_str String.eqb Ascii.eqb Bool.eqb orb].
    unfold sub, flag, count in *.
    cbn [get set String.eqb Ascii.eqb Bool.eqb truthy andb as_int].
    repeat split; assumption || reflexivity. }
  destruct A4 as (N4 & F1 & F2 & F3 & P4 & R4 & F4).
  assert (S3 : step c 3 verify s3 = (respond, s4)).
  { cbn [step]. fold s4. f_equal. unfold _is_complete.
    rewrite N4, F2, F1, P4, R4. cbn [andb negb].
    destruct (truthy (get "error" VNone s4)); reflexivity. }
  assert (E1 : invoke c 1 init = (analyze, s1)) by reflexivity.
  assert (E2 : invoke c 2 init = (act, s2)).
  { unfold invoke. cbn [run_from]. change (step c 0 observe init) with (analyze, s1).
    cbv iota beta. rewrite S1. reflexivity. }
  assert (E3 : invoke c 3 init = (verify, s3)).
  { unfold invoke. cbn [run_from]. change (step c 0 observe init) with (analyze, s1).
    cbv iota beta. rewrite S1. reflexivity. }
  assert (E4 : invoke c 4 init = (respond, s4)).
  { unfold invoke. cbn [run_from]. change (step c 0 observe init) with (analyze, s1).
    cbv iota beta. rewrite S1. change (step c 2 act s2) with (verify, s3).
    cbv iota beta. rewrite S3. reflexivity. }
  assert (E5 : forall fuel, (5 <= fuel)%nat -> fst (invoke c fuel init) = END).
  { intros fuel Hf. unfold invoke.
    replace fuel with (4 + (fuel - 4))%nat by lia. rewrite run_from_split.
    fold (invoke c 4 init). rewrite E4. cbn [fst snd].
    apply (run_from_respond c (fuel - 4) (4 + 0) s4). lia. }
  split; [|split; [exact E5|]].
  - cbn [map]. rewrite (E5 5%nat ltac:(lia)), E4, E3, E2, E1. reflexivity.
  - rewrite E4. cbn [snd]. repeat split; assumption.
Qed.

Lemma close_command_ends_in_five_steps_witness :
  let init := initial_state "close app" "task-2" in
  map (fun k => fst (invoke closing k init)) [0; 1; 2; 3; 4; 5]%nat
  = [observe; analyze; act; verify; respond; END]
  /\ (forall fuel, (5 <= fuel)%nat -> fst (invoke closing fuel init) = END)
  /\ flag "session_active" (snd (invoke closing 4 init)) = true
  /\ flag "task_complete" (snd (invoke closing 4 init)) = false
  /\ flag "action_success" (snd (invoke closing 4 init)) = true
  /\ count (snd (invoke closing 4 init)) = 1.
Proof.
  apply (close_command_ends_in_five_steps closing "close app" "task-2");
    reflexivity.
Defined.

End WorkflowExits.

(* ------------------------------------------------------------------ *)
(** ** Coordinates: validation before a tap, bounds of the mapping *)

Section CoordinatesMore.

Import Actions Orchestrator Sample.

(** The command of a tap whose clamped coordinates are positive. *)
Lemma tap_sends_clamped (self : DeviceActions) (x y : Z) (delay : Q) :
  0 < clamped_x self x -> 0 < clamped_y self y ->
  shell_commands (snd (tap self x y delay))
  = [tap_command (clamped_x self x) (clamped_y self y)].
Proof.
  intros Hx Hy. unfold tap. fold (clamped_x self x) (clamped_y self y).
  set (cx := clamped_x self x) in *. set (cy := clamped_y self y) in *.
  assert (E1 : (cx =? 0) = false) by (apply Z.eqb_neq; lia).
  assert (E2 : (cx <=? 0) = false) by (apply Z.leb_gt; lia).
  assert (E3 : (cy <=? 0) = false) by (apply Z.leb_gt; lia).
  rewrite E1, E2, E3. cbn [andb orb].
  destruct (shell (device self) (tap_command cx cy)) as [result|];
    [|reflexivity].
  destruct (PyStr.nonempty result
            && PyStr.contains "error" (PyStr.lower result)); [reflexivity|].
  destruct (Qle_bool 0 delay); reflexivity.
Qed.

(** X4.  [_validate_coordinates] accepts exactly the points with x between
    1 and the screen width and y between the status bar margin of 100 and
    the screen height; and a point that it accepts is tapped where it is:
    the clamping of [tap] does not move it, and the one device command
    carries the point's own coordinates. *)
Theorem validated_point_is_tapped_where_it_is :
  forall (da : DeviceActions) (x y : Z) (delay : Q),
    (_validate_coordinates da x y = true
     <-> 1 <= x <= SCREEN_WIDTH da /\ 100 <= y <= SCREEN_HEIGHT da)
    /\ (_validate_coordinates da x y = true ->
        clamped_x da x = x /\ clamped_y da y = y
        /\ shell_commands (snd (tap da x y delay)) = [tap_command x y]).
Proof.
  intros da x y delay.
  assert (Hiff : _validate_coordinates da x y = true
                 <-> 1 <= x <= SCREEN_WIDTH da /\ 100 <= y <= SCREEN_HEIGHT da).
  { unfold _validate_coordinates. rewrite !Z.gtb_ltb.
    destruct (x <? 1) eqn:T1; cbn [orb].
    { apply Z.ltb_lt in T1. split; [discriminate | lia]. }
    destruct (y <? 1) eqn:T2.
    { apply Z.ltb_lt in T2. split; [discriminate | lia]. }
    destruct (SCREEN_WIDTH da <? x) eqn:T3; cbn [orb].
    { apply Z.ltb_lt in T3. split; [discriminate | lia]. }
    destruct (SCREEN_HEIGHT da <? y) eqn:T4.
    { apply Z.ltb_lt in T4. split; [discriminate | lia]. }
    destruct (y <? 100) eqn:T5.
    { apply Z.ltb_lt in T5. split; [discriminate | lia]. }
    apply Z.ltb_ge in T1, T3, T4, T5. split; [intros _; lia | reflexivity]. }
  split; [exact Hiff|]. intros H. apply Hiff in H. destruct H as [Hx Hy].
  assert (Ex : clamped_x da x = x) by (unfold clamped_x; lia).
  assert (Ey : clamped_y da y = y) by (unfold clamped_y; lia).
  split; [exact Ex|]. split; [exact Ey|].
  rewrite <- Ex at 2. rewrite <- Ey at 2. apply tap_sends_clamped; lia.
Qed.

(** [int(f)] of a float that is not negative is its floor, and of one that
    is not positive its ceiling. *)
Lemma int_of_float_nonneg (q : Q) :
  ((0 <= q)%Q -> (inject_Z (int_of_float q) <= q)%Q)
  /\ ((0 <= q)%Q -> 0 <= int_of_float q).
Proof.
  destruct q as [a b]. unfold int_of_float, Qle, inject_Z. cbn [Qnum Qden].
  rewrite !Z.mul_1_r.
  split; intros Ha.
  - assert (Hq : 0 <= Z.quot a (Zpos b)) by (apply Z.quot_pos; lia).
    pose proof (Z.quot_rem' a (Zpos b)) as E.
    pose proof (Z.rem_bound_pos a (Zpos b) Ha ltac:(lia)) as Hr. nia.
  - apply Z.quot_pos; lia.
Qed.

Lemma int_of_float_nonpos (q : Q) :
  ((q <= 0)%Q -> (q <= inject_Z (int_of_float q))%Q)
  /\ ((q <= 0)%Q -> int_of_float q <= 0).
Proof.
  destruct q as [a b]. unfold int_of_float, Qle, inject_Z. cbn [Qnum Qden].
  rewrite !Z.mul_1_r.
  assert (E : a <= 0 -> Z.quot a (Zpos b) = - Z.quot (- a) (Zpos b)).
  { intros Ha. rewrite <- (Z.opp_involutive a) at 1.
    rewrite Z.quot_opp_l by lia. reflexivity. }
  assert (Hq : a <= 0 -> 0 <= Z.quot (- a) (Zpos b))
    by (intros Ha; apply Z.quot_pos; lia).
  split; intros Ha; rewrite (E Ha); specialize (Hq Ha); [|lia].
  pose proof (Z.quot_rem' (- a) (Zpos b)) as Er.
  pose proof (Z.rem_bound_pos (- a) (Zpos b) ltac:(lia) ltac:(lia)) as Hr.
  nia.
Qed.

Lemma int_of_float_monotone (p q : Q) :
  (p <= q)%Q -> int_of_float p <= int_of_float q.
Proof.
  intros Hpq.
  destruct (int_of_float_close p) as [Pl Ph].
  destruct (int_of_float_close q) as [Ql Qh].
  destruct (Qlt_le_dec p 0) as [Hp | Hp].
  - destruct (Qlt_le_dec q 0) as [Hq | Hq].
    + destruct (int_of_float_nonpos q) as [Hq1 _].
      specialize (Hq1 (Qlt_le_weak _ _ Hq)).
      assert (H : (inject_Z (int_of_float p) - 1 < inject_Z (int_of_float q))%Q)
        by lra.
      assert (H' : (inject_Z (int_of_float p - 1) < inject_Z (int_of_float q))%Q).
      { unfold Z.sub. rewrite inject_Z_plus, inject_Z_opp. exact H. }
      rewrite <- Zlt_Qlt in H'. lia.
    + destruct (int_of_float_nonpos p) as [_ Hp1].
      destruct (int_of_float_nonneg q) as [_ Hq1].
      specialize (Hp1 (Qlt_le_weak _ _ Hp)). specialize (Hq1 Hq). lia.
  - destruct (int_of_float_nonneg p) as [Hp1 _]. specialize (Hp1 Hp).
    assert (H : (inject_Z (int_of_float p) < inject_Z (int_of_float q) + 1)%Q)
      by lra.
    assert (H' : (inject_Z (int_of_float p) < inject_Z (int_of_float q + 1))%Q).
    { rewrite inject_Z_plus. exact H. }
    rewrite <- Zlt_Qlt in H'. lia.
Qed.

Lemma scale_bounds (w sw x : Z) :
  0 < sw -> 0 <= w -> 0 <= x <= sw ->
  (0 <= inject_Z x * (inject_Z w / inject_Z sw)
   /\ inject_Z x * (inject_Z w / inject_Z sw) <= inject_Z w)%Q.
Proof.
  intros Hsw Hw [Hx0 Hx1].
  assert (Qsw : (0 < inject_Z sw)%Q)
    by (change 0%Q with (inject_Z 0); rewrite <- Zlt_Qlt; exact Hsw).
  assert (Qw : (0 <= inject_Z w)%Q)
    by (change 0%Q with (inject_Z 0); rewrite <- Zle_Qle; exact Hw).
  assert (Qx0 : (0 <= inject_Z x)%Q)
    by (change 0%Q with (inject_Z 0); rewrite <- Zle_Qle; exact Hx0).
  assert (Qx1 : (inject_Z x <= inject_Z sw)%Q)
    by (rewrite <- Zle_Qle; exact Hx1).
  assert (E : (inject_Z x * (inject_Z w / inject_Z sw)
               == inject_Z x * inject_Z w / inject_Z sw)%Q)
    by (field; lra).
  rewrite E. split.
  - apply Qle_shift_div_l; [exact Qsw|]. nra.
  - apply Qle_shift_div_r; [exact Qsw|]. nra.
Qed.

Lemma scale_nonneg (w sw : Z) :
  0 < sw -> 0 <= w -> (0 <= inject_Z w / inject_Z sw)%Q.
Proof.
  intros Hsw Hw.
  apply Qle_shift_div_l.
  - change 0%Q with (inject_Z 0). rewrite <- Zlt_Qlt. exact Hsw.
  - rewrite Qmult_0_l. change 0%Q with (inject_Z 0). rewrite <- Zle_Qle.
    exact Hw.
Qed.

Lemma inject_Z_lt_le (a b : Z) :
  (inject_Z a < inject_Z b + 1)%Q -> a <= b.
Proof.
  intros H.
  assert (H' : (inject_Z a < inject_Z (b + 1))%Q)
    by (rewrite inject_Z_plus; exact H).
  rewrite <- Zlt_Qlt in H'. lia.
Qed.

Lemma int_of_float_integer (n : Z) : int_of_float (inject_Z n * 1) = n.
Proof.
  unfold int_of_float, inject_Z, Qmult. cbn [Qnum Qden].
  rewrite Z.mul_1_r. apply Z.quot_1_r.
Qed.

(** X5.  [map_vision_to_device_coords] keeps a point of the image on the
    screen horizontally and between the status bar and the screen height
    plus the status bar vertically; it is monotone in both coordinates; and
    for a screenshot size that is not positive it leaves x as it is and only
    adds the status bar height to y. *)
Theorem mapped_point_bounds :
  forall (self : DeviceActions) (sw sh : Z),
    let to_device := fun x y => map_vision_to_device_coords self x y sw sh in
    (0 < sw -> 0 <= SCREEN_WIDTH self ->
     (forall x y, 0 <= x <= sw ->
                  0 <= fst (to_device x y) <= SCREEN_WIDTH self)
     /\ (forall x x' y y', x <= x' ->
                           fst (to_device x y) <= fst (to_device x' y')))
    /\ (0 < sh -> 0 <= SCREEN_HEIGHT self ->
        (forall x y, 0 <= y <= sh ->
                     STATUS_BAR_HEIGHT self <= snd (to_device x y)
                     <= SCREEN_HEIGHT self + STATUS_BAR_HEIGHT self)
        /\ (forall x x' y y', y <= y' ->
                              snd (to_device x y) <= snd (to_device x' y')))
    /\ (sw <= 0 -> forall x y, fst (to_device x y) = x)
    /\ (sh <= 0 -> forall x y,
          snd (to_device x y) = y + STATUS_BAR_HEIGHT self).
Proof.
  intros self sw sh to_device. unfold to_device, map_vision_to_device_coords.
  cbn [fst snd]. split; [|split; [|split]].
  - intros Hsw Hw. assert (E : (0 <? sw) = true) by (apply Z.ltb_lt; exact Hsw).
    rewrite E. split.
    + intros x _ Hx.
      destruct (scale_bounds (SCREEN_WIDTH self) sw x Hsw Hw Hx) as [Q0 Q1].
      destruct (int_of_float_nonneg
                  (inject_Z x * (inject_Z (SCREEN_WIDTH self) / inject_Z sw)))
        as [F1 F2].
      split; [apply F2; exact Q0|].
      specialize (F1 Q0). rewrite Zle_Qle. lra.
    + intros x x' _ _ Hxx. apply int_of_float_monotone.
      pose proof (scale_nonneg (SCREEN_WIDTH self) sw Hsw Hw) as Hs.
      assert (Qx : (inject_Z x <= inject_Z x')%Q)
        by (rewrite <- Zle_Qle; exact Hxx).
      nra.
  - intros Hsh Hh. assert (E : (0 <? sh) = true) by (apply Z.ltb_lt; exact Hsh).
    rewrite E. split.
    + intros _ y Hy.
      destruct (scale_bounds (SCREEN_HEIGHT self) sh y Hsh Hh Hy) as [Q0 Q1].
      destruct (int_of_float_close
                  (inject_Z y * (inject_Z (SCREEN_HEIGHT self) / inject_Z sh)
                   + inject_Z (STATUS_BAR_HEIGHT self))) as [Cl Ch].
      split.
      * apply inject_Z_lt_le. lra.
      * apply inject_Z_lt_le. rewrite inject_Z_plus. lra.
    + intros _ _ y y' Hyy. apply int_of_float_monotone.
      pose proof (scale_nonneg (SCREEN_HEIGHT self) sh Hsh Hh) as Hs.
      assert (Qy : (inject_Z y <= inject_Z y')%Q)
        by (rewrite <- Zle_Qle; exact Hyy).
      nra.
  - intros Hsw x _. assert (E : (0 <? sw) = false) by (apply Z.ltb_ge; exact Hsw).
    rewrite E. apply int_of_float_integer.
  - intros Hsh _ y. assert (E : (0 <? sh) = false) by (apply Z.ltb_ge; exact Hsh).
    rewrite E. unfold int_of_float, inject_Z, Qmult, Qplus. cbn [Qnum Qden].
    rewrite !Z.mul_1_r. apply Z.quot_1_r.
Qed.

End CoordinatesMore.

(* ------------------------------------------------------------------ *)
(** ** The stable sort under any total preorder *)

Section SortByPreorder.

Import PyList.

Context {A : Type}.
Variable le : A -> A -> bool.
Hypothesis le_total : forall a b, le a b = false -> le b a = true.
Hypothesis le_trans :
  forall a b c, le a b = true -> le b c = true -> le a c = true.

Lemma le_refl (a : A) : le a a = true.
Proof.
  destruct (le a a) eqn:E; [reflexivity|].
  pose proof (le_total a a E) as H. rewrite E in H. exact H.
Qed.

Lemma insert_by_sorted_le (a : A) (l : list A) :
  StronglySorted (fun u v => le u v = true) l ->
  StronglySorted (fun u v => le u v = true) (insert_by le a l).
Proof.
  induction l as [|b l IH]; intros Hs; cbn [insert_by].
  - constructor; constructor.
  - inversion Hs as [|? ? Hl Hb]; subst.
    destruct (le a b) eqn:E.
    + constructor; [exact Hs|]. constructor; [exact E|].
      eapply Forall_impl; [|exact Hb]. cbn. intros u Hu.
      eapply le_trans; eassumption.
    + constructor; [apply IH; exact Hl|].
      eapply Permutation_Forall; [apply Permutation_sym, insert_by_perm|].
      constructor; [apply le_total; exact E | exact Hb].
Qed.

Lemma sort_by_sorted_le (l : list A) :
  StronglySorted (fun u v => le u v = true) (sort_by le l).
Proof.
  induction l as [|a l IH]; cbn [sort_by fold_right].
  - constructor.
  - apply insert_by_sorted_le. exact IH.
Qed.

(** The first element after the sort comes before every element. *)
Lemma sort_by_head_le (l : list A) (h : A) (rest : list A) :
  sort_by le l = h :: rest ->
  In h l /\ Forall (fun a => le h a = true) l.
Proof.
  intros E. pose proof (sort_by_perm le l) as P.
  pose proof (sort_by_sorted_le l) as S. rewrite E in P, S. split.
  - eapply Permutation_in; [exact P | left; reflexivity].
  - eapply Permutation_Forall; [exact P|].
    inversion S as [|? ? _ Hb]; subst. constructor; [apply le_refl | exact Hb].
Qed.

End SortByPreorder.

(* ------------------------------------------------------------------ *)
(** ** The button below a field *)

Section ButtonBelow.

Import PyStr PyList Re Accessibility Locators LocatorSpec LocatorsSpec Sample.

Lemma below_candidate_some (tree : string) (min_y min_width min_height : Z)
    (m : Match) (b : Button) :
  below_candidate tree min_y min_width min_height m = Some b ->
  large_below tree min_y min_width min_height m /\ b = button_of tree m.
Proof.
  unfold below_candidate.
  fold (node_width tree m) (node_height tree m) (class_read tree m)
       (node_center_y tree m).
  destruct (node_center_y tree m <=? min_y + 50) eqn:E0; [discriminate|].
  destruct (node_width tree m >=? min_width) eqn:E1; [|discriminate].
  destruct (node_height tree m >=? min_height) eqn:E2; [|discriminate].
  cbn [andb].
  destruct (any_in below_input_types (lower (class_read tree m))) eqn:E3;
    [discriminate|].
  intros H. injection H as <-.
  apply Z.leb_gt in E0. rewrite Z.geb_leb in E1, E2. apply Z.leb_le in E1, E2.
  split; [repeat split; assumption | reflexivity].
Qed.

Lemma below_candidate_large (tree : string) (min_y min_width min_height : Z)
    (m : Match) :
  large_below tree min_y min_width min_height m ->
  below_candidate tree min_y min_width min_height m = Some (button_of tree m).
Proof.
  intros (H0 & Hw & Hh & Hc). unfold below_candidate.
  fold (node_width tree m) (node_height tree m) (class_read tree m)
       (node_center_y tree m).
  assert (E0 : (node_center_y tree m <=? min_y + 50) = false)
    by (apply Z.leb_gt; exact H0).
  assert (E1 : (node_width tree m >=? min_width) = true)
    by (rewrite Z.geb_leb; apply Z.leb_le; exact Hw).
  assert (E2 : (node_height tree m >=? min_height) = true)
    by (rewrite Z.geb_leb; apply Z.leb_le; exact Hh).
  rewrite E0, E1, E2, Hc. reflexivity.
Qed.

(** An input class of [find_button_below_y] is one of
    [find_real_login_button]. *)
Lemma below_input_is_input (class_name : string) :
  is_input_field class_name = false ->
  any_in below_input_types (lower class_name) = false.
Proof.
  unfold is_input_field, any_in, input_types, below_input_types.
  cbn [existsb]. intros H.
  repeat (apply orb_false_iff in H; destruct H as [? H]).
  repeat (apply orb_false_iff; split); assumption || reflexivity.
Qed.


(** X7.  With its default sizes [find_button_below_y] keeps every button
    that [find_real_login_button] keeps and that lies more than 50 pixels
    below [min_y]: both read the class in the same 500 characters, and every
    input class of the first is one of the second.  So when the bottom-sheet
    rule returns a button that far below, [find_button_below_y] returns one
    that is not lower. *)
Theorem button_below_covers_bottom_sheet :
  forall (dev : Device) (min_y : Z),
    (forall b, In b (clickable_buttons dev) -> min_y + 50 < b_y b ->
               In b (buttons_below dev min_y 300 80))
    /\ (forall x y b,
           find_real_login_button dev = Some (x, y, b) ->
           min_y + 50 < y ->
           exists x' y' b',
             find_button_below_y dev min_y 300 80 = Some (x', y', b')
             /\ y' <= y).
Proof.
  intros dev min_y.
  assert (Hsub : forall b, In b (clickable_buttons dev) -> min_y + 50 < b_y b ->
                           In b (buttons_below dev min_y 300 80)).
  { intros b Hb Hy. unfold clickable_buttons in Hb. unfold buttons_below.
    destruct (usable_tree dev) as [tree|]; [|contradiction].
    apply collect_In in Hb. destruct Hb as (m & Hm & Hc).
    apply login_candidate_some in Hc. destruct Hc as ((Hw & Hh & Hi) & ->).
    apply collect_In. exists m. split; [exact Hm|].
    apply below_candidate_large. unfold large_below.
    repeat split; try lia; [exact Hy | apply below_input_is_input; exact Hi]. }
  split; [exact Hsub|].
  intros x0 y0 b H Hy.
  assert (Hle : forall a b, button_y_le a b = (b_y a <=? b_y b))
    by reflexivity.
  rewrite find_real_login_button_of_list in H.
  destruct (sort_by button_y_le (clickable_buttons dev)) as [|b0 rest] eqn:E;
    [discriminate|].
  injection H as <- <- <-.
  destruct (sort_by_head b_y button_y_le Hle _ b0 rest E) as [Hin _].
  specialize (Hsub b0 Hin Hy).
  unfold find_button_below_y.
  destruct (sort_by button_y_le (buttons_below dev min_y 300 80))
    as [|b1 rest1] eqn:E1.
  - apply sort_by_nil in E1. rewrite E1 in Hsub. contradiction.
  - exists (b_x b1), (b_y b1), b1. split; [reflexivity|].
    destruct (sort_by_head b_y button_y_le Hle _ b1 rest1 E1) as [_ Hmin].
    rewrite Forall_forall in Hmin. apply Hmin. exact Hsub.
Qed.

End ButtonBelow.

(* ------------------------------------------------------------------ *)
(** ** The WhatsApp send button *)

Section WhatsAppSend.

Import PyStr PyList Re Accessibility Locators LocatorSpec LocatorsSpec Sample.

Lemma whatsapp_key_total (a b : WhatsAppCandidate) :
  whatsapp_key_le a b = false -> whatsapp_key_le b a = true.
Proof.
  unfold whatsapp_key_le.
  destruct (- priority a =? - priority b) eqn:E1;
    destruct (- priority b =? - priority a) eqn:E2;
    rewrite ?Z.eqb_eq, ?Z.eqb_neq in E1, E2;
    rewrite ?Z.leb_gt, ?Z.leb_le, ?Z.ltb_ge, ?Z.ltb_lt; lia.
Qed.

Lemma whatsapp_key_trans (a b c : WhatsAppCandidate) :
  whatsapp_key_le a b = true -> whatsapp_key_le b c = true ->
  whatsapp_key_le a c = true.
Proof.
  unfold whatsapp_key_le.
  destruct (- priority a =? - priority b) eqn:E1;
    destruct (- priority b =? - priority c) eqn:E2;
    destruct (- priority a =? - priority c) eqn:E3;
    rewrite ?Z.eqb_eq, ?Z.eqb_neq in E1, E2, E3;
    rewrite ?Z.leb_le, ?Z.ltb_lt; lia.
Qed.

Lemma whatsapp_key_spec (a b : WhatsAppCandidate) :
  whatsapp_key_le a b = true ->
  priority b <= priority a
  /\ (priority b = priority a -> w_x b <= w_x a).
Proof.
  unfold whatsapp_key_le.
  destruct (- priority a =? - priority b) eqn:E1;
    rewrite ?Z.eqb_eq, ?Z.eqb_neq in E1;
    rewrite ?Z.leb_le, ?Z.ltb_lt; lia.
Qed.

Lemma whatsapp_candidate_some (e : Element) (cand : WhatsAppCandidate) :
  whatsapp_candidate e = Some cand ->
  w_x cand = x e /\ w_y cand = y e
  /\ 1000 <= x e <= 1080 /\ 1200 <= y e <= 1800
  /\ contains "edittext" (lower (class e)) = false
  /\ 2 <= priority cand <= 4
  /\ (priority cand = 4 <-> contains "send" (lower (content_desc e)) = true).
Proof.
  unfold whatsapp_candidate, WHATSAPP_SEND_REGION.
  destruct ((1000 <=? x e) && (x e <=? 1080) && (1200 <=? y e)
            && (y e <=? 1800)) eqn:R; cbn [negb]; [|discriminate].
  destruct (contains "edittext" (lower (class e))) eqn:C; [discriminate|].
  intros H. injection H as <-. cbn [w_x w_y priority].
  repeat (apply andb_true_iff in R; destruct R as [R ?]).
  rewrite Z.leb_le in *.
  split; [reflexivity|]. split; [reflexivity|].
  split; [lia|]. split; [lia|]. split; [reflexivity|].
  destruct (contains "send" (lower (content_desc e))).
  - split; [lia|]. split; intros; reflexivity.
  - destruct (contains "image" (lower (class e))
              || contains "button" (lower (class e)));
      (split; [lia|]); split; intros; discriminate || lia.
Qed.

(** X8.  [find_whatsapp_send_button] always answers.  When no clickable
    element lies in the region x 1000-1080, y 1200-1800 without being an
    edit text, the answer is the fixed point (1080, 1500); otherwise it is
    the centre of such an element, one of the highest priority (a
    content-desc with send first) and, among those, one farthest to the
    right. *)
Theorem whatsapp_send_button_always_answers :
  forall dev : Device,
    let candidates := collect whatsapp_candidate (find_clickable_elements dev) in
    let result := find_whatsapp_send_button dev in
    result <> None
    /\ (candidates = []
        <-> result = Some (1080, 1500, WFallback 1080 1500 "send (fallback)"))
    /\ (forall x0 y0 cand,
           result = Some (x0, y0, WCandidate cand) ->
           x0 = w_x cand /\ y0 = w_y cand
           /\ 1000 <= x0 <= 1080 /\ 1200 <= y0 <= 1800
           /\ (exists e, In e (find_clickable_elements dev)
                         /\ x e = x0 /\ y e = y0
                         /\ contains "edittext" (lower (class e)) = false
                         /\ (priority cand = 4
                             <-> contains "send" (lower (content_desc e))
                                 = true))
           /\ Forall (fun other =>
                        priority other <= priority cand
                        /\ (priority other = priority cand ->
                            w_x other <= w_x cand)) candidates).
Proof.
  intros dev candidates result. unfold result, find_whatsapp_send_button.
  fold candidates. cbn [WHATSAPP_SEND_FALLBACK].
  destruct (sort_by whatsapp_key_le candidates) as [|best rest] eqn:E.
  - apply sort_by_nil in E. split; [discriminate|]. split.
    + split; intros _; [reflexivity | exact E].
    + intros x0 y0 cand H. discriminate.
  - split; [discriminate|]. split.
    + split; intros H; [|discriminate].
      rewrite H in E. discriminate.
    + intros x0 y0 cand H. injection H as <- <- <-.
      destruct (sort_by_head_le whatsapp_key_le whatsapp_key_total
                  whatsapp_key_trans candidates best rest E) as [Hin Hmin].
      unfold candidates in Hin. apply collect_In in Hin.
      destruct Hin as (e & He & Hc).
      destruct (whatsapp_candidate_some e best Hc)
        as (Hx & Hy & Rx & Ry & Hedit & _ & Hsend).
      split; [reflexivity|]. split; [reflexivity|].
      split; [lia|]. split; [lia|]. split.
      * exists e. repeat split; try assumption; try (symmetry; assumption);
          apply Hsend; assumption.
      * eapply Forall_impl; [|exact Hmin]. intros other Ho.
        apply whatsapp_key_spec. exact Ho.
Qed.

End WhatsAppSend.

(* ------------------------------------------------------------------ *)
(** ** The input field *)

Section InputField.

Import PyStr PyList Re Accessibility Locators LocatorSpec LocatorsSpec Sample.

Lemma run_turns_raise {A B} (f : A -> Turn B) (l : list A) (a : A) :
  In a l -> f a = Raise -> run_turns f l = None.
Proof.
  induction l as [|b l IH]; intros Hin Hf; [contradiction|].
  cbn [run_turns]. destruct Hin as [-> | Hin].
  - rewrite Hf. reflexivity.
  - rewrite (IH Hin Hf). destruct (f b); reflexivity.
Qed.

Lemma run_turns_In {A B} (f : A -> Turn B) (l : list A) (bs : list B) (b : B) :
  run_turns f l = Some bs -> In b bs -> exists a, In a l /\ f a = Keep b.
Proof.
  revert bs. induction l as [|a l IH]; intros bs H Hb; cbn [run_turns] in H.
  - injection H as <-. contradiction.
  - destruct (f a) as [|b0|] eqn:E; [| |discriminate].
    + destruct (IH bs H Hb) as (a' & Ha' & Hf).
      exists a'. split; [right; exact Ha' | exact Hf].
    + destruct (run_turns f l) as [bs'|]; [|discriminate].
      injection H as <-. destruct Hb as [<- | Hb].
      * exists a. split; [left; reflexivity | exact E].
      * destruct (IH bs' eq_refl Hb) as (a' & Ha' & Hf).
        exists a'. split; [right; exact Ha' | exact Hf].
Qed.

(** X9.  When a node with bounds has no class attribute, the loop of
    [find_input_field] raises on it and the locator answers [None], whatever
    text boxes the dump holds before or after that node. *)
Theorem input_field_lost_to_a_classless_node :
  forall (dev : Device) (tree : string) (m : Match),
    usable_tree dev = Some tree ->
    In m (finditer true bounds_node tree) ->
    contains "class=" (group0 tree m) = false ->
    find_input_field dev = None.
Proof.
  intros dev tree m Ht Hm Hc. unfold find_input_field. rewrite Ht.
  assert (E : run_turns (input_candidate tree) (finditer true bounds_node tree)
              = None).
  { apply (run_turns_raise _ _ m Hm). unfold input_candidate.
    rewrite (search_attr_absent "class" (group0 tree m) Hc). reflexivity. }
  rewrite E. destruct (is_keyboard_visible dev); reflexivity.
Qed.

(** X9 on a dump with a text box in the keyboard region followed by a node
    without a class. *)
Lemma input_field_lost_to_a_classless_node_witness :
  find_input_field (showing classless_node_dump) = None.
Proof.
  apply (input_field_lost_to_a_classless_node (showing classless_node_dump)
           classless_node_dump
           {| m_start := 193; m_end := 233;
              m_groups := [(218, 219); (220, 221); (223, 225); (226, 228)]%nat |}).
  - vm_compute. reflexivity.
  - vm_compute. right. left. reflexivity.
  - vm_compute. reflexivity.
Defined.

Lemma input_candidate_keep (tree : string) (m : Match) (f : InputField) :
  input_candidate tree m = Keep f ->
  50 <= i_width f /\ 30 <= i_height f
  /\ any_in input_field_types (i_class f) = true.
Proof.
  unfold input_candidate.
  destruct (search (attr "class") (group0 tree m)) as [cm|]; [|discriminate].
  destruct (any_in input_field_types (lower (group (group0 tree m) cm 1)))
    eqn:Ei; cbn [negb]; [|discriminate].
  destruct ((int_group tree m 3 - int_group tree m 1 <? 50)
            || (int_group tree m 4 - int_group tree m 2 <? 30)) eqn:Es;
    [discriminate|].
  intros H. injection H as <-. cbn [i_width i_height i_class].
  apply orb_false_iff in Es. destruct Es as [E1 E2].
  apply Z.ltb_ge in E1, E2. repeat split; assumption.
Qed.

Lemma in_region_spec (y_min y_max : Z) (f : InputField) :
  in_region y_min y_max f = true <->
  300 <= i_x f <= 800 /\ y_min <= i_y f <= y_max.
Proof.
  unfold in_region. rewrite !andb_true_iff, !Z.leb_le. lia.
Qed.

Lemma dist_le_total (t : Z) (a b : InputField) :
  dist_le t a b = false -> dist_le t b a = true.
Proof. unfold dist_le. rewrite Z.leb_gt, Z.leb_le. lia. Qed.

Lemma dist_le_trans (t : Z) (a b c : InputField) :
  dist_le t a b = true -> dist_le t b c = true -> dist_le t a c = true.
Proof. unfold dist_le. rewrite !Z.leb_le. lia. Qed.

Lemma filter_nil_none {A} (p : A -> bool) (l : list A) :
  filter p l = [] -> Forall (fun c => p c = false) l.
Proof.
  induction l as [|a l IH]; intros E; [constructor|].
  cbn [filter] in E. destruct (p a) eqn:Ep; [discriminate|].
  constructor; [exact Ep | apply IH; exact E].
Qed.

(** The first candidate after the sort of one band. *)
Lemma nearest_in_band (t lo hi : Z) (l : list InputField)
    (best : InputField) (rest : list InputField) :
  sort_by (dist_le t) (filter (in_region lo hi) l) = best :: rest ->
  In best l
  /\ 300 <= i_x best <= 800 /\ lo <= i_y best <= hi
  /\ Forall (fun c => in_region lo hi c = true -> dist t best <= dist t c) l.
Proof.
  intros E.
  destruct (sort_by_head_le (dist_le t) (dist_le_total t) (dist_le_trans t)
              _ _ _ E) as [Hin Hmin].
  apply filter_In in Hin. destruct Hin as [Hin Hp].
  apply in_region_spec in Hp.
  split; [exact Hin|]. split; [tauto|]. split; [tauto|].
  apply Forall_forall. intros c Hc Hr.
  rewrite Forall_forall in Hmin.
  assert (Hc' : In c (filter (in_region lo hi) l))
    by (apply filter_In; split; assumption).
  specialize (Hmin c Hc'). unfold dist_le in Hmin.
  apply Z.leb_le in Hmin. exact Hmin.
Qed.

(** X10.  An answer of [find_input_field] is the centre of a node of an
    input class that is at least 50 wide and 30 high, with x between 300 and
    800 and y in the keyboard-open band 1200-1800 or in the keyboard-closed
    band 2000-2500; among the candidates of its band it is one nearest to
    (540, 1500) in the first band and to (540, 2200) in the second.  The band
    of the keyboard state comes first: the answer lies in the other band only
    when no candidate lies in the first. *)
Theorem input_field_lies_in_a_region :
  forall (dev : Device) (x0 y0 : Z) (f : InputField),
    find_input_field dev = Some (x0, y0, f) ->
    x0 = i_x f /\ y0 = i_y f
    /\ 300 <= x0 <= 800
    /\ (1200 <= y0 <= 1800 \/ 2000 <= y0 <= 2500)
    /\ 50 <= i_width f /\ 30 <= i_height f
    /\ any_in input_field_types (i_class f) = true
    /\ exists candidates,
         input_candidates dev = Some candidates /\ In f candidates
         /\ (y0 <= 1800 ->
             Forall (fun c => in_region 1200 1800 c = true ->
                              dist 1500 f <= dist 1500 c) candidates)
         /\ (2000 <= y0 ->
             Forall (fun c => in_region 2000 2500 c = true ->
                              dist 2200 f <= dist 2200 c) candidates)
         /\ (is_keyboard_visible dev = true -> 2000 <= y0 ->
             Forall (fun c => in_region 1200 1800 c = false) candidates)
         /\ (is_keyboard_visible dev = false -> y0 <= 1800 ->
             Forall (fun c => in_region 2000 2500 c = false) candidates).
Proof.
  intros dev x0 y0 f H. unfold find_input_field in H.
  unfold input_candidates.
  destruct (usable_tree dev) as [tree|]; [|discriminate].
  destruct (run_turns (input_candidate tree) (finditer true bounds_node tree))
    as [candidates|] eqn:Er;
    [|destruct (is_keyboard_visible dev); discriminate].
  assert (Hcand : forall c, In c candidates ->
             50 <= i_width c /\ 30 <= i_height c
             /\ any_in input_field_types (i_class c) = true).
  { intros c0 Hc0. destruct (run_turns_In _ _ _ _ Er Hc0) as (m & _ & Hk).
    apply (input_candidate_keep tree m c0 Hk). }
  destruct candidates as [|c0 cs];
    [destruct (is_keyboard_visible dev); discriminate|].
  set (cands := c0 :: cs) in *.
  destruct (is_keyboard_visible dev) eqn:Ek; cbv beta iota zeta in H.
  - destruct (filter (in_region 1200 1800) cands) as [|r1 rs1] eqn:E1.
    + destruct (filter (in_region 2000 2500) cands) as [|r2 rs2] eqn:E2;
        [simpl in H; discriminate|].
      rewrite <- E2 in H.
      destruct (sort_by (dist_le 2200) (filter (in_region 2000 2500) cands))
        as [|best rest] eqn:Es; [discriminate|].
      injection H as <- <- <-.
      destruct (nearest_in_band _ _ _ _ _ _ Es) as (Hin & Hx & Hy & Hmin).
      destruct (Hcand best Hin) as (Hw & Hh & Hi).
      split; [reflexivity|]. split; [reflexivity|]. split; [exact Hx|].
      split; [right; exact Hy|]. split; [exact Hw|]. split; [exact Hh|].
      split; [exact Hi|].
      exists cands. split; [reflexivity|]. split; [exact Hin|].
      split; [intros Hle; lia|]. split; [intros _; exact Hmin|].
      split; [intros _ _; apply filter_nil_none; exact E1 | discriminate].
    + rewrite <- E1 in H.
      destruct (sort_by (dist_le 1500) (filter (in_region 1200 1800) cands))
        as [|best rest] eqn:Es; [discriminate|].
      injection H as <- <- <-.
      destruct (nearest_in_band _ _ _ _ _ _ Es) as (Hin & Hx & Hy & Hmin).
      destruct (Hcand best Hin) as (Hw & Hh & Hi).
      split; [reflexivity|]. split; [reflexivity|]. split; [exact Hx|].
      split; [left; exact Hy|]. split; [exact Hw|]. split; [exact Hh|].
      split; [exact Hi|].
      exists cands. split; [reflexivity|]. split; [exact Hin|].
      split; [intros _; exact Hmin|]. split; [intros Hge; lia|].
      split; [intros _ Hge; lia | discriminate].
  - destruct (filter (in_region 2000 2500) cands) as [|r1 rs1] eqn:E1.
    + destruct (filter (in_region 1200 1800) cands) as [|r2 rs2] eqn:E2;
        [simpl in H; discriminate|].
      rewrite <- E2 in H.
      destruct (sort_by (dist_le 1500) (filter (in_region 1200 1800) cands))
        as [|best rest] eqn:Es; [discriminate|].
      injection H as <- <- <-.
      destruct (nearest_in_band _ _ _ _ _ _ Es) as (Hin & Hx & Hy & Hmin).
      destruct (Hcand best Hin) as (Hw & Hh & Hi).
      split; [reflexivity|]. split; [reflexivity|]. split; [exact Hx|].
      split; [left; exact Hy|]. split; [exact Hw|]. split; [exact Hh|].
      split; [exact Hi|].
      exists cands. split; [reflexivity|]. split; [exact Hin|].
      split; [intros _; exact Hmin|]. split; [intros Hge; lia|].
      split; [discriminate | intros _ _; apply filter_nil_none; exact E1].
    + rewrite <- E1 in H.
      destruct (sort_by (dist_le 2200) (filter (in_region 2000 2500) cands))
        as [|best rest] eqn:Es; [discriminate|].
      injection H as <- <- <-.
      destruct (nearest_in_band _ _ _ _ _ _ Es) as (Hin & Hx & Hy & Hmin).
      destruct (Hcand best Hin) as (Hw & Hh & Hi).
      split; [reflexivity|]. split; [reflexivity|]. split; [exact Hx|].
      split; [right; exact Hy|]. split; [exact Hw|]. split; [exact Hh|].
      split; [exact Hi|].
      exists cands. split; [reflexivity|]. split; [exact Hin|].
      split; [intros Hle; lia|]. split; [intros _; exact Hmin|].
      split; [discriminate | intros _ Hle; lia].
Qed.

(** X10 on a dump with one text box in the keyboard-open band; the device
    answers every command with the dump, so the keyboard counts as closed and
    the box is found in the second band tried. *)
Lemma input_field_lies_in_a_region_witness :
  find_input_field (showing keyboard_field_dump)
  = Some (550, 1450, keyboard_field)
  /\ 300 <= 550 <= 800 /\ (1200 <= 1450 <= 1800 \/ 2000 <= 1450 <= 2500).
Proof.
  assert (H : find_input_field (showing keyboard_field_dump)
              = Some (550, 1450, keyboard_field))
    by (vm_compute; reflexivity).
  split; [exact H|].
  destruct (input_field_lies_in_a_region _ _ _ _ H) as (_ & _ & Hx & Hy & _).
  split; [exact Hx | exact Hy].
Defined.

End InputField.

(* ------------------------------------------------------------------ *)
(** ** The Continue button *)

Section ContinueButtonSection.

Import PyStr PyList Re Accessibility Locators LocatorSpec LocatorsSpec Sample.

Lemma lower_first_total (a b : ContinueButton) :
  lower_first a b = false -> lower_first b a = true.
Proof. unfold lower_first. rewrite Z.leb_gt, Z.leb_le. lia. Qed.

Lemma lower_first_trans (a b c : ContinueButton) :
  lower_first a b = true -> lower_first b c = true -> lower_first a c = true.
Proof. unfold lower_first. rewrite !Z.leb_le. lia. Qed.

Lemma lower_right_first_total (a b : ContinueButton) :
  lower_right_first a b = false -> lower_right_first b a = true.
Proof.
  unfold lower_right_first.
  destruct (- k_y a =? - k_y b) eqn:E1;
    destruct (- k_y b =? - k_y a) eqn:E2;
    rewrite ?Z.eqb_eq, ?Z.eqb_neq in E1, E2;
    rewrite ?Z.leb_gt, ?Z.leb_le, ?Z.ltb_ge, ?Z.ltb_lt; lia.
Qed.

Lemma lower_right_first_trans (a b c : ContinueButton) :
  lower_right_first a b = true -> lower_right_first b c = true ->
  lower_right_first a c = true.
Proof.
  unfold lower_right_first.
  destruct (- k_y a =? - k_y b) eqn:E1;
    destruct (- k_y b =? - k_y c) eqn:E2;
    destruct (- k_y a =? - k_y c) eqn:E3;
    rewrite ?Z.eqb_eq, ?Z.eqb_neq in E1, E2, E3;
    rewrite ?Z.leb_le, ?Z.ltb_lt; lia.
Qed.

Lemma lower_right_first_spec (a b : ContinueButton) :
  lower_right_first a b = true ->
  k_y b < k_y a \/ (k_y b = k_y a /\ k_x b <= k_x a).
Proof.
  unfold lower_right_first.
  destruct (- k_y a =? - k_y b) eqn:E1;
    rewrite ?Z.eqb_eq, ?Z.eqb_neq in E1;
    rewrite ?Z.leb_le, ?Z.ltb_lt; lia.
Qed.

(** What every button that the loop keeps satisfies, and the two lists it
    goes to. *)
Lemma continue_candidate_some (tree : string) (m : Match)
    (b : ContinueButton) (tm pm : bool) :
  continue_candidate tree m = Some (b, tm, pm) ->
  80 <= k_width b /\ 30 <= k_height b
  /\ any_in ["edittext"; "edit"; "input"]%string (lower (k_class b)) = false
  /\ tm = any_in continue_keywords (combined_text b)
  /\ pm = ((k_y b >? 350) && (k_width b >? 80) && (k_height b >? 35)).
Proof.
  unfold continue_candidate, combined_text.
  destruct ((int_group tree m 3 - int_group tree m 1 <? 80)
            || (int_group tree m 4 - int_group tree m 2 <? 30)) eqn:Es;
    [discriminate|].
  destruct (any_in ["edittext"; "edit"; "input"]%string
              (lower (attr_or "class" (slice_chars (m_start m) 800 tree) "")))
    eqn:Ei; [discriminate|].
  intros H. injection H as <- <- <-.
  cbn [k_width k_height k_class k_text k_desc k_y].
  apply orb_false_iff in Es. destruct Es as [E1 E2].
  apply Z.ltb_ge in E1, E2.
  split; [exact E1|]. split; [exact E2|]. split; [exact Ei|].
  split; reflexivity.
Qed.

Lemma continue_candidates_some (dev : Device) (b : ContinueButton)
    (tm pm : bool) :
  In (b, tm, pm) (continue_candidates dev) ->
  80 <= k_width b /\ 30 <= k_height b
  /\ any_in ["edittext"; "edit"; "input"]%string (lower (k_class b)) = false
  /\ tm = any_in continue_keywords (combined_text b)
  /\ pm = ((k_y b >? 350) && (k_width b >? 80) && (k_height b >? 35)).
Proof.
  unfold continue_candidates.
  destruct (usable_tree dev) as [tree|]; [|contradiction].
  intros Hin. apply collect_In in Hin. destruct Hin as (m & _ & Hc).
  exact (continue_candidate_some tree m b tm pm Hc).
Qed.

Lemma text_matches_In (dev : Device) (b : ContinueButton) :
  In b (text_matches dev) ->
  80 <= k_width b /\ 30 <= k_height b
  /\ any_in ["edittext"; "edit"; "input"]%string (lower (k_class b)) = false
  /\ any_in continue_keywords (combined_text b) = true.
Proof.
  unfold text_matches. intros Hin. apply in_map_iff in Hin.
  destruct Hin as ([[b' tm] pm] & Hb & Hin). cbn [fst] in Hb. subst b'.
  apply filter_In in Hin. destruct Hin as [Hin Hf]. cbn [fst snd] in Hf.
  destruct (continue_candidates_some dev b tm pm Hin)
    as (Hw & Hh & Hi & Htm & _).
  rewrite Hf in Htm. repeat split; try assumption. symmetry. exact Htm.
Qed.

Lemma position_matches_In (dev : Device) (b : ContinueButton) :
  In b (position_matches dev) ->
  80 < k_width b /\ 35 < k_height b /\ 350 < k_y b
  /\ any_in ["edittext"; "edit"; "input"]%string (lower (k_class b)) = false.
Proof.
  unfold position_matches. intros Hin. apply in_map_iff in Hin.
  destruct Hin as ([[b' tm] pm] & Hb & Hin). cbn [fst] in Hb. subst b'.
  apply filter_In in Hin. destruct Hin as [Hin Hf]. cbn [fst snd] in Hf.
  destruct (continue_candidates_some dev b tm pm Hin)
    as (_ & _ & Hi & _ & Hpm).
  rewrite Hf in Hpm. symmetry in Hpm.
  repeat (apply andb_true_iff in Hpm; destruct Hpm as [Hpm ?]).
  rewrite Z.gtb_lt in *. repeat split; try assumption; lia.
Qed.

(** X11.  [find_continue_button] answers [None] exactly when no clickable
    node is kept in either list.  A button whose text or content-desc holds
    one of the six keywords wins over every button found by position alone,
    wherever that one lies: the answer is then a keyword button that no other
    keyword button lies below.  Without a keyword button the answer is the
    bottom-most, then right-most, button that lies below y 350 and is more
    than 80 wide and 35 high.  The class recorded for the answer, which is
    the class read in the 800 characters from the start of its node, is no
    input class. *)
Theorem continue_button_prefers_keywords :
  forall dev : Device,
    match find_continue_button dev with
    | None => text_matches dev = [] /\ position_matches dev = []
    | Some (x0, y0, b) =>
        x0 = k_x b /\ y0 = k_y b
        /\ 80 <= k_width b /\ 30 <= k_height b
        /\ any_in ["edittext"; "edit"; "input"]%string (lower (k_class b))
           = false
        /\ ((In b (text_matches dev)
             /\ any_in continue_keywords (combined_text b) = true
             /\ Forall (fun c => k_y c <= k_y b) (text_matches dev))
            \/ (text_matches dev = []
                /\ In b (position_matches dev)
                /\ 350 < k_y b /\ 80 < k_width b /\ 35 < k_height b
                /\ Forall (fun c => k_y c < k_y b
                                    \/ (k_y c = k_y b /\ k_x c <= k_x b))
                          (position_matches dev)))
    end.
Proof.
  intros dev. unfold find_continue_button.
  destruct (sort_by lower_first (text_matches dev)) as [|best rest] eqn:E.
  - apply sort_by_nil in E.
    destruct (sort_by lower_right_first (position_matches dev))
      as [|best rest] eqn:E'.
    + apply sort_by_nil in E'. split; assumption.
    + destruct (sort_by_head_le lower_right_first lower_right_first_total
                  lower_right_first_trans _ _ _ E') as [Hin Hmin].
      destruct (position_matches_In dev best Hin) as (Hw & Hh & Hy & Hi).
      split; [reflexivity|]. split; [reflexivity|].
      split; [lia|]. split; [lia|]. split; [exact Hi|].
      right. split; [exact E|]. split; [exact Hin|].
      split; [exact Hy|]. split; [exact Hw|]. split; [exact Hh|].
      eapply Forall_impl; [|exact Hmin]. intros c Hc.
      apply lower_right_first_spec. exact Hc.
  - destruct (sort_by_head_le lower_first lower_first_total
                lower_first_trans _ _ _ E) as [Hin Hmin].
    destruct (text_matches_In dev best Hin) as (Hw & Hh & Hi & Hk).
    split; [reflexivity|]. split; [reflexivity|].
    split; [exact Hw|]. split; [exact Hh|]. split; [exact Hi|].
    left. split; [exact Hin|]. split; [exact Hk|].
    eapply Forall_impl; [|exact Hmin]. intros c Hc.
    unfold lower_first in Hc. apply Z.leb_le in Hc. lia.
Qed.

End ContinueButtonSection.

(* ------------------------------------------------------------------ *)
(** ** The ranking of the send buttons *)

Section SendButtonRanking.

Import PyStr PyList Re Accessibility Locators LocatorSpec LocatorsSpec Sample.

Lemma send_key_total (a b : SendCandidate) :
  send_key_le a b = false -> send_key_le b a = true.
Proof.
  unfold send_key_le.
  destruct (has_up_arrow a), (has_up_arrow b), (has_send_indicator a),
    (has_send_indicator b); cbn; rewrite ?Z.leb_gt, ?Z.leb_le;
    try discriminate; try reflexivity; lia.
Qed.

Lemma send_key_trans (a b c : SendCandidate) :
  send_key_le a b = true -> send_key_le b c = true -> send_key_le a c = true.
Proof.
  unfold send_key_le.
  destruct (has_up_arrow a), (has_up_arrow b), (has_up_arrow c),
    (has_send_indicator a), (has_send_indicator b), (has_send_indicator c);
    cbn; rewrite ?Z.leb_le; try discriminate; try reflexivity; lia.
Qed.

Lemma send_key_spec (a b : SendCandidate) :
  send_key_le a b = true ->
  (has_up_arrow b = true -> has_up_arrow a = true)
  /\ (has_up_arrow b = has_up_arrow a ->
      has_send_indicator b = true -> has_send_indicator a = true)
  /\ (has_up_arrow b = has_up_arrow a ->
      has_send_indicator b = has_send_indicator a ->
      distance a <= distance b).
Proof.
  unfold send_key_le.
  destruct (has_up_arrow a), (has_up_arrow b), (has_send_indicator a),
    (has_send_indicator b); cbn; rewrite ?Z.leb_le; intros H;
    repeat split; intros; try discriminate; try reflexivity; try assumption.
Qed.

Lemma send_candidate_some (input_x input_y : Z) (e : Element)
    (c : SendCandidate) :
  send_candidate input_x input_y e = Some c ->
  c_x c = x e /\ c_y c = y e
  /\ input_x + 20 < x e <= input_x + 450
  /\ Z.abs (y e - input_y) <= 120
  /\ distance c = (x e - input_x) ^ 2 + (y e - input_y) ^ 2
  /\ has_send_indicator c
     = any_in ["send"; "submit"; "arrow"; "up"]%string
         (lower (content_desc e) ++ " " ++ lower (text e))%string.
Proof.
  unfold send_candidate. rewrite !Z.gtb_ltb.
  destruct ((x e <=? 0) || (y e <=? 0)); [discriminate|].
  destruct (x e <=? input_x + 20) eqn:T3; [discriminate|].
  destruct (450 <? x e - input_x) eqn:T4; [discriminate|].
  destruct (120 <? Z.abs (y e - input_y)) eqn:T5; [discriminate|].
  destruct ((bounds_width (bounds e) <? 20) || (180 <? bounds_width (bounds e))
            || (bounds_height (bounds e) <? 20)
            || (180 <? bounds_height (bounds e))); [discriminate|].
  intros H. injection H as <-.
  cbn [c_x c_y distance has_send_indicator].
  apply Z.leb_gt in T3. apply Z.ltb_ge in T4, T5.
  repeat split; try reflexivity; lia.
Qed.

(** X12.  A candidate that [find_send_button_near_input] answers lies right
    of the input by more than 20 and at most 450 pixels and within 120 pixels
    of its row, and it is first in the ranking: it holds the up arrow if any
    candidate does; among the candidates equal on that, it holds one of the
    words send, submit, arrow, up if any does; among the candidates equal on
    both, it is nearest to the input.  The words are looked for as
    substrings of the lowered content-desc and text. *)
Theorem send_button_is_first_in_ranking :
  forall (dev : Device) (input_x input_y x0 y0 : Z) (c : SendCandidate),
    find_send_button_near_input dev input_x input_y
    = Some (x0, y0, Candidate c) ->
    x0 = c_x c /\ y0 = c_y c
    /\ input_x + 20 < x0 <= input_x + 450
    /\ Z.abs (y0 - input_y) <= 120
    /\ distance c = (x0 - input_x) ^ 2 + (y0 - input_y) ^ 2
    /\ In c (send_candidates dev input_x input_y)
    /\ Forall (fun o =>
                 (has_up_arrow o = true -> has_up_arrow c = true)
                 /\ (has_up_arrow o = has_up_arrow c ->
                     has_send_indicator o = true ->
                     has_send_indicator c = true)
                 /\ (has_up_arrow o = has_up_arrow c ->
                     has_send_indicator o = has_send_indicator c ->
                     distance c <= distance o))
              (send_candidates dev input_x input_y).
Proof.
  intros dev input_x input_y x0 y0 c H.
  unfold find_send_button_near_input in H. unfold send_candidates.
  destruct (find_clickable_elements dev) as [|e0 es]; [discriminate|].
  set (elements := e0 :: es) in *.
  destruct (sort_by send_key_le (collect (send_candidate input_x input_y)
                                   elements)) as [|best rest] eqn:E;
    [discriminate|].
  injection H as <- <- <-.
  destruct (sort_by_head_le send_key_le send_key_total send_key_trans _ _ _ E)
    as [Hin Hmin].
  pose proof Hin as Hin'. apply collect_In in Hin'.
  destruct Hin' as (e & _ & Hc).
  destruct (send_candidate_some input_x input_y e best Hc)
    as (Hx & Hy & Rx & Ry & Hd & _).
  rewrite Hx, Hy.
  split; [reflexivity|]. split; [reflexivity|]. split; [exact Rx|].
  split; [exact Ry|]. split; [exact Hd|]. split; [exact Hin|].
  eapply Forall_impl; [|exact Hmin]. intros o Ho.
  apply send_key_spec. exact Ho.
Qed.

(** X12 on a dump where a nearer Sign up button, which holds the word up,
    is answered before the Send button. *)
Lemma send_button_is_first_in_ranking_witness :
  find_send_button_near_input (showing send_icon_dump) 540 1430
  = Some (930, 1350, Candidate sign_up_candidate)
  /\ 540 + 20 < 930 <= 540 + 450.
Proof.
  assert (H : find_send_button_near_input (showing send_icon_dump) 540 1430
              = Some (930, 1350, Candidate sign_up_candidate))
    by (vm_compute; reflexivity).
  split; [exact H|].
  destruct (send_button_is_first_in_ranking _ _ _ _ _ _ H)
    as (_ & _ & Hx & _).
  exact Hx.
Defined.

End SendButtonRanking.

(* ------------------------------------------------------------------ *)
(** ** Keys and typing *)

Section Typing.

Import PyStr Actions Gestures GestureSpec Sample.

Lemma shell_commands_app (t u : list Event) :
  shell_commands (t ++ u) = (shell_commands t ++ shell_commands u)%list.
Proof. unfold shell_commands. apply flat_map_app. Qed.

(** The dictionary [keycode_map] has the ten ASCII digits as its keys. *)
Lemma keycode_of_spec (c : ascii) :
  keycode_of c
  = if is_digit c then Some ("KEYCODE_" ++ String c EmptyString)%string
    else None.
Proof.
  destruct c as [[] [] [] [] [] [] [] []]; vm_compute; reflexivity.
Qed.

Lemma type_digits_loop_spec (dev : Device) (chars : list ascii) :
  let r := type_digits_loop dev chars in
  let wanted := map digit_command (filter is_digit chars) in
  (fst r = true ->
   shell_commands (snd r) = wanted /\ Forall (answers dev) wanted)
  /\ (fst r = false ->
      exists done cmd rest,
        wanted = (done ++ cmd :: rest)%list
        /\ shell_commands (snd r) = (done ++ [cmd])%list
        /\ shell dev cmd = None
        /\ Forall (answers dev) done).
Proof.
  induction chars as [|c chars IH]; cbn zeta.
  - cbn. split; [intros _; split; [reflexivity | constructor] | discriminate].
  - cbn [type_digits_loop filter]. rewrite keycode_of_spec.
    destruct (is_digit c) eqn:Ed; [|exact IH].
    cbn [map]. fold (digit_command c).
    change ("input keyevent " ++ "KEYCODE_" ++ String c EmptyString)%string
      with (digit_command c).
    destruct (shell dev (digit_command c)) as [out|] eqn:Es.
    + destruct (type_digits_loop dev chars) as [ok t] eqn:El.
      cbn [fst snd] in IH |- *. destruct IH as [IHt IHf].
      change (shell_commands (Shell (digit_command c) :: Sleep (3 # 20) :: t))
        with (digit_command c :: shell_commands t).
      assert (Ha : answers dev (digit_command c))
        by (unfold answers; rewrite Es; discriminate).
      split.
      * intros Hok. destruct (IHt Hok) as [E F].
        split; [rewrite E; reflexivity | constructor; assumption].
      * intros Hok. destruct (IHf Hok) as (done & cmd & rest & E & E' & N & F).
        exists (digit_command c :: done), cmd, rest.
        split; [rewrite E; reflexivity|].
        split; [rewrite E'; reflexivity|].
        split; [exact N | constructor; assumption].
    + cbn [fst snd]. split; [discriminate|]. intros _.
      exists [], (digit_command c), (map digit_command (filter is_digit chars)).
      split; [reflexivity|]. split; [reflexivity|].
      split; [exact Es | constructor].
Qed.

(** X13.  [type_digits_keyevent] sends one key event for each ASCII digit of
    its argument, in order, and passes over every other character without a
    word: a sign or a decimal point is dropped and the call still answers
    [True].  It answers [True] exactly when the device takes all of these
    key events, and otherwise stops at the first one that raises. *)
Theorem digits_are_typed_and_the_rest_is_dropped :
  forall (self : DeviceActions) (digits_str : string),
    let r := type_digits_keyevent self digits_str in
    let wanted := digit_commands digits_str in
    (fst r = true <-> Forall (answers (device self)) wanted)
    /\ (fst r = true -> shell_commands (snd r) = wanted)
    /\ (fst r = false ->
        exists done cmd rest,
          wanted = (done ++ cmd :: rest)%list
          /\ shell_commands (snd r) = (done ++ [cmd])%list
          /\ shell (device self) cmd = None
          /\ Forall (answers (device self)) done).
Proof.
  intros self digits_str r wanted.
  destruct (type_digits_loop_spec (device self)
              (list_ascii_of_string digits_str)) as [Ht Hf].
  fold r in Ht, Hf. unfold r, type_digits_keyevent in *.
  change (map digit_command
            (filter is_digit (list_ascii_of_string digits_str)))
    with wanted in *.
  split; [|split].
  - split; [intros H; apply Ht; exact H|].
    intros Hall.
    destruct (fst (type_digits_loop (device self)
                     (list_ascii_of_string digits_str))) eqn:E;
      [reflexivity|].
    destruct (Hf eq_refl) as (done & cmd & rest & Ew & _ & N & _).
    rewrite Ew in Hall. apply Forall_app in Hall. destruct Hall as [_ Hall].
    inversion Hall as [|? ? Hc _]; subst. exfalso. apply Hc. exact N.
  - intros H. apply Ht. exact H.
  - exact Hf.
Qed.

Lemma replace_spaces_has_no_space (text : string) :
  contains " " (replace_spaces text) = false.
Proof.
  induction text as [|c text IH]; [reflexivity|].
  cbn [replace_spaces]. destruct (Ascii.eqb c " ") eqn:E.
  - cbn. exact IH.
  - cbn [contains startswith]. rewrite Ascii.eqb_sym, E. cbn [andb].
    exact IH.
Qed.

Lemma replace_spaces_without_space (text : string) :
  contains " " text = false -> replace_spaces text = text.
Proof.
  induction text as [|c text IH]; [reflexivity|].
  cbn [contains startswith replace_spaces].
  rewrite (Ascii.eqb_sym " " c).
  destruct (Ascii.eqb c " "); cbn [andb].
  - destruct text; discriminate.
  - intros H. rewrite (IH H). reflexivity.
Qed.

(** X14.  [type_text] always ends with the one command input text followed
    by the text in which each space is replaced by %s, so the argument holds
    no space, and a text without a space is passed as it is: nothing else is
    escaped.  The command is sent whatever became of the clearing before it.
    The method answers neither [True] nor [False] but [None] exactly when
    that command raises. *)
Theorem type_text_sends_one_word :
  forall (self : DeviceActions) (text : string) (clear_first : bool),
    let r := type_text self text clear_first in
    let cmd := ("input text " ++ replace_spaces text)%string in
    contains " " (replace_spaces text) = false
    /\ (contains " " text = false -> replace_spaces text = text)
    /\ (exists before,
          shell_commands (snd r) = (before ++ [cmd])%list
          /\ (clear_first = false -> before = [])
          /\ (clear_first = true ->
              before = shell_commands (snd (clear_text_field self))))
    /\ (fst r = None <-> shell (device self) cmd = None)
    /\ (fst r = Some false <->
        exists out, shell (device self) cmd = Some out
                    /\ out <> EmptyString
                    /\ contains "error" (lower out) = true).
Proof.
  intros self text clear_first r cmd.
  split; [apply replace_spaces_has_no_space|].
  split; [apply replace_spaces_without_space|].
  unfold r, type_text. fold cmd.
  set (cleared := if clear_first then snd (clear_text_field self) else []).
  assert (Hb : (clear_first = false -> shell_commands cleared = [])
               /\ (clear_first = true ->
                   shell_commands cleared
                   = shell_commands (snd (clear_text_field self)))).
  { unfold cleared. destruct clear_first; split; intros; try discriminate;
      reflexivity. }
  destruct (shell (device self) cmd) as [out|] eqn:Es.
  - assert (Hne : nonempty out = true <-> out <> EmptyString)
      by (destruct out; cbn; split; intros; try discriminate; try reflexivity;
          congruence).
    destruct (nonempty out && contains "error" (lower out)) eqn:Ee;
      cbn [fst snd]; rewrite shell_commands_app.
    + split; [exists (shell_commands cleared); split; [reflexivity | exact Hb]|].
      split; [split; discriminate|]. split; [intros _|reflexivity].
      apply andb_true_iff in Ee. destruct Ee as [E1 E2].
      exists out. split; [reflexivity|]. split; [apply Hne; exact E1 | exact E2].
    + split; [exists (shell_commands cleared); split; [reflexivity | exact Hb]|].
      split; [split; discriminate|]. split; [discriminate|].
      intros (out' & Eo & Hn & Hc). injection Eo as <-.
      apply Hne in Hn. rewrite Hn, Hc in Ee. discriminate.
  - cbn [fst snd]. rewrite shell_commands_app.
    split; [exists (shell_commands cleared); split; [reflexivity | exact Hb]|].
    split; [split; reflexivity|]. split; [discriminate|].
    intros (out' & Eo & _). discriminate.
Qed.

End Typing.

(* ------------------------------------------------------------------ *)
(** ** Popups and recovery *)

Section PopupRecovery.

Import PyStr Actions Gestures Recovery Popups Sample.

Lemma back_commands (da : DeviceActions) :
  shell_commands (snd (back da)) = ["input keyevent KEYCODE_BACK"%string].
Proof.
  unfold back, press_key, shell_then_sleep.
  destruct (shell (device da) _); reflexivity.
Qed.

Lemma swipe_up_commands (da : DeviceActions) (distance : Z) :
  shell_commands (snd (swipe_up da distance))
  = [swipe_command (SCREEN_WIDTH da / 2) (SCREEN_HEIGHT da - 300)
       (SCREEN_WIDTH da / 2) (SCREEN_HEIGHT da - 300 - distance) 300].
Proof.
  unfold swipe_up, swipe, shell_then_sleep, NAVIGATION_BAR_HEIGHT.
  replace (SCREEN_HEIGHT da - 100 - 200) with (SCREEN_HEIGHT da - 300) by lia.
  destruct (shell (device da) _); reflexivity.
Qed.

(** The commands of a tap, whether it is sent or turned down. *)
Lemma tap_commands (da : DeviceActions) (x y : Z) (delay : Q) :
  shell_commands (snd (tap da x y delay))
  = if (0 <? clamped_x da x) && (0 <? clamped_y da y)
    then [tap_command (clamped_x da x) (clamped_y da y)] else [].
Proof.
  destruct (0 <? clamped_x da x) eqn:Ex; cbn [andb].
  - destruct (0 <? clamped_y da y) eqn:Ey.
    + apply Z.ltb_lt in Ex, Ey. apply tap_sends_clamped; assumption.
    + apply Z.ltb_ge in Ey. unfold tap. fold (clamped_x da x) (clamped_y da y).
      assert (E : (clamped_y da y <=? 0) = true) by (apply Z.leb_le; lia).
      rewrite E, orb_true_r.
      destruct ((clamped_x da x =? 0) && (clamped_y da y =? 0)); reflexivity.
  - apply Z.ltb_ge in Ex. unfold tap. fold (clamped_x da x) (clamped_y da y).
    assert (E : (clamped_x da x <=? 0) = true) by (apply Z.leb_le; lia).
    rewrite E. cbn [orb].
    destruct ((clamped_x da x =? 0) && (clamped_y da y =? 0)); reflexivity.
Qed.

Lemma find_first {A} (p : A -> bool) (before after : list A) (a : A) :
  Forall (fun b => p b = false) before -> p a = true ->
  find p (before ++ a :: after) = Some a.
Proof.
  induction before as [|b before IH]; intros Hb Ha; cbn [app find].
  - rewrite Ha. reflexivity.
  - inversion Hb as [|? ? Hb1 Hb2]; subst. rewrite Hb1. apply IH; assumption.
Qed.

Lemma find_none_all {A} (p : A -> bool) (l : list A) :
  Forall (fun b => p b = false) l -> find p l = None.
Proof.
  induction l as [|b l IH]; intros Hb; [reflexivity|].
  inversion Hb as [|? ? Hb1 Hb2]; subst. cbn [find]. rewrite Hb1.
  apply IH. exact Hb2.
Qed.

Lemma handle_popup_handled (self : Recoverer) :
  fst (handle_popup self None) = true
  <-> detect_popup (screen_analyzer self) = Returns true
      /\ analyze_screen (screen_analyzer self) <> Raises.
Proof.
  unfold handle_popup.
  destruct (detect_popup (screen_analyzer self)) as [[|]|];
    try (split; [discriminate | intros [H _]; discriminate]).
  destruct (analyze_screen (screen_analyzer self)) as [elements|].
  - destruct (find mentions_dismissal elements); cbn [fst];
      split; try reflexivity; intros _; split; try reflexivity; discriminate.
  - cbn [fst]. split; [discriminate | intros [_ H]; contradiction].
Qed.

Lemma handle_popup_unhandled (self : Recoverer) :
  fst (handle_popup self None) = false -> snd (handle_popup self None) = [].
Proof.
  unfold handle_popup.
  destruct (detect_popup (screen_analyzer self)) as [[|]|];
    try reflexivity.
  destruct (analyze_screen (screen_analyzer self)) as [elements|];
    [|reflexivity].
  destruct (find mentions_dismissal elements); cbn [fst]; discriminate.
Qed.

(** X15.  [handle_popup] with its default action answers [True] exactly when
    the analyzer detects a popup and its screen analysis returns; otherwise
    it answers [False] and does nothing.  When it answers [True], it has
    tried one thing only: a tap on the first element whose lowered
    description holds close, dismiss, ok, cancel or the letter x, or, when
    there is no such element, the back key.  The answer does not depend on
    the tap: when [tap] turns the point down, as it does for an element
    without coordinates, no command reaches the device and the popup still
    counts as handled. *)
Theorem popup_counts_as_handled_whatever_the_tap_did :
  forall self : Recoverer,
    let r := handle_popup self None in
    let da := device_actions self in
    (fst r = true
     <-> detect_popup (screen_analyzer self) = Returns true
         /\ analyze_screen (screen_analyzer self) <> Raises)
    /\ (fst r = false -> snd r = [])
    /\ (forall before element after,
           detect_popup (screen_analyzer self) = Returns true ->
           analyze_screen (screen_analyzer self)
           = Returns (before ++ element :: after)%list ->
           Forall (fun e => mentions_dismissal e = false) before ->
           mentions_dismissal element = true ->
           fst r = true
           /\ shell_commands (snd r)
              = if (0 <? clamped_x da (e_x element))
                   && (0 <? clamped_y da (e_y element))
                then [tap_command (clamped_x da (e_x element))
                                  (clamped_y da (e_y element))]
                else [])
    /\ (forall elements,
           detect_popup (screen_analyzer self) = Returns true ->
           analyze_screen (screen_analyzer self) = Returns elements ->
           Forall (fun e => mentions_dismissal e = false) elements ->
           fst r = true
           /\ shell_commands (snd r) = ["input keyevent KEYCODE_BACK"%string]).
Proof.
  intros self r da.
  split; [apply handle_popup_handled|].
  split; [apply handle_popup_unhandled|].
  split.
  - intros before element after Hd Ha Hb He. unfold r, handle_popup.
    rewrite Hd, Ha, (find_first _ _ _ _ Hb He). cbn [fst snd].
    split; [reflexivity|].
    rewrite shell_commands_app, tap_commands. cbn [shell_commands flat_map].
    apply app_nil_r.
  - intros elements Hd Ha Hall. unfold r, handle_popup.
    rewrite Hd, Ha, (find_none_all _ _ Hall). cbn [fst snd].
    split; [reflexivity|].
    rewrite shell_commands_app, back_commands. reflexivity.
Qed.

(** X16.  The answers of [recover_from_error] by kind of error.  For network
    it sleeps two seconds and answers [None], never success.  For a kind that
    is none of popup, timeout, element_not_found and network it presses the
    back key and answers [True], whether or not the key press went through.
    For timeout the answer is that of the back key.  For element_not_found
    it answers [True] exactly when a popup was handled; otherwise it sends
    one swipe up the middle of the screen, from 300 above the bottom and 500
    long, and answers [False]. *)
Theorem recovery_answers_by_kind :
  forall (self : Recoverer) (error_type : string),
    let r := recover_from_error self error_type in
    let da := device_actions self in
    (error_type = "network"%string -> r = (None, [Sleep 2%Q]))
    /\ (error_type <> "popup"%string -> error_type <> "timeout"%string ->
        error_type <> "element_not_found"%string ->
        error_type <> "network"%string ->
        fst r = Some true
        /\ shell_commands (snd r) = ["input keyevent KEYCODE_BACK"%string])
    /\ (error_type = "timeout"%string ->
        shell_commands (snd r) = ["input keyevent KEYCODE_BACK"%string]
        /\ (fst r = Some true
            <-> shell (device da) "input keyevent KEYCODE_BACK" <> None)
        /\ fst r <> None)
    /\ (error_type = "element_not_found"%string ->
        (fst r = Some true <-> fst (handle_popup self None) = true)
        /\ (fst r <> Some true ->
            fst r = Some false
            /\ shell_commands (snd r)
               = [swipe_command (SCREEN_WIDTH da / 2) (SCREEN_HEIGHT da - 300)
                    (SCREEN_WIDTH da / 2) (SCREEN_HEIGHT da - 800) 300])).
Proof.
  intros self error_type r da. unfold r, recover_from_error.
  split; [intros ->; reflexivity|].
  split; [|split].
  - intros H1 H2 H3 H4.
    apply String.eqb_neq in H1, H2, H3, H4. rewrite H1, H2, H3, H4.
    cbn [fst snd]. split; [reflexivity|].
    rewrite shell_commands_app, back_commands. reflexivity.
  - intros ->. cbn [String.eqb Ascii.eqb Bool.eqb].
    change (String.eqb "timeout" "popup") with false. cbn iota.
    change (String.eqb "timeout" "timeout") with true. cbn iota.
    pose proof (back_commands (device_actions self)) as Hb.
    unfold back, press_key, shell_then_sleep in *. fold da in Hb |- *.
    change ("input keyevent " ++ "KEYCODE_BACK")%string
      with "input keyevent KEYCODE_BACK"%string in *.
    destruct (shell (device da) "input keyevent KEYCODE_BACK");
      cbn [fst snd] in *.
    + split; [reflexivity|]. split; [split; [discriminate | reflexivity]|].
      discriminate.
    + split; [reflexivity|].
      split; [split; [discriminate | intros H; contradiction]|]. discriminate.
  - intros ->.
    change (String.eqb "element_not_found" "popup") with false. cbn iota.
    change (String.eqb "element_not_found" "timeout") with false. cbn iota.
    change (String.eqb "element_not_found" "element_not_found") with true.
    cbn iota. unfold handle_element_not_found.
    pose proof (handle_popup_unhandled self) as Hu.
    destruct (handle_popup self None) as [handled t]. cbn [fst snd] in *.
    destruct handled; cbn [strategy_succeeds existsb fst snd].
    + split; [split; reflexivity|]. intros H. contradiction.
    + split; [split; discriminate|]. intros _. split; [reflexivity|].
      rewrite (Hu eq_refl). cbn [app]. rewrite shell_commands_app.
      rewrite swipe_up_commands. cbn [shell_commands flat_map app].
      replace (SCREEN_HEIGHT (device_actions self) - 300 - 500)
        with (SCREEN_HEIGHT (device_actions self) - 800) by lia.
      reflexivity.
Qed.

End PopupRecovery.

(* ------------------------------------------------------------------ *)
(** ** The state manager *)

Section StateManager.

Import Orchestrator State StateSpec.

Lemma on_current_history (self : AgentStateManager)
    (f : TaskState -> TaskState) :
  task_history (on_current self f) = task_history self.
Proof. unfold on_current. destruct (current_task self); reflexivity. Qed.

Lemma on_current_current (self : AgentStateManager)
    (f : TaskState -> TaskState) :
  current_task (on_current self f) = option_map f (current_task self).
Proof.
  unfold on_current. destruct (current_task self) eqn:E; [reflexivity|].
  cbn. exact E.
Qed.

Ltac on_current_case self :=
  unfold update_state, add_step, set_current_step, increment_error,
    increment_retry, update_screen_context, set_authentication_state,
    clear_authentication_state, start_task, on_current, with_current;
  let E := fresh "E" in
  destruct (current_task self) eqn:E; cbn; rewrite ?E.

(** A call only ever appends to the history, and what it appends is a
    completed task. *)
Lemma call_history (self : AgentStateManager) (c : Call) :
  exists added,
    task_history (call self c) = (task_history self ++ added)%list
    /\ Forall (fun t => current_state t = COMPLETED) added.
Proof.
  destruct c; cbn [call];
    try (exists []; split; [|constructor];
         on_current_case self; rewrite ?app_nil_r; reflexivity).
  unfold complete_task. destruct (current_task self) as [t|].
  - eexists. cbn [task_history]. split; [reflexivity|].
    constructor; [reflexivity | constructor].
  - exists []. rewrite app_nil_r. split; [reflexivity | constructor].
Qed.

(** Only [start_task] adds a task to those the manager holds. *)
Lemma call_held_length (self : AgentStateManager) (c : Call) :
  (List.length (held (call self c))
   <= List.length (held self) + (if is_start c then 1 else 0))%nat.
Proof.
  unfold held.
  destruct c; cbn [call is_start];
    try (on_current_case self; rewrite ?length_app; cbn; lia).
  unfold complete_task. destruct (current_task self) as [t|] eqn:E; cbn.
  - rewrite !length_app. cbn. lia.
  - rewrite E. lia.
Qed.

(** Only [increment_error] raises an error count, and by one. *)
Lemma call_error_count (self : AgentStateManager) (c : Call) (n : Z) :
  0 <= n ->
  Forall (fun t => 0 <= error_count t <= n) (held self) ->
  Forall (fun t => 0 <= error_count t
                   <= n + (if is_increment_error c then 1 else 0))
         (held (call self c)).
Proof.
  unfold held. intros Hn H. apply Forall_app in H. destruct H as [Hh Hc].
  assert (Hh' : forall k, 0 <= k ->
                  Forall (fun t => 0 <= error_count t <= n + k)
                         (task_history self)).
  { intros k Hk. eapply Forall_impl; [|exact Hh]. cbn. intros t Ht. lia. }
  assert (Hc' : forall t, current_task self = Some t ->
                  0 <= error_count t <= n).
  { intros t Et. rewrite Et in Hc. inversion Hc as [|? ? Ht _]; subst.
    exact Ht. }
  destruct (current_task self) as [t|] eqn:E;
    [specialize (Hc' t eq_refl)|];
    destruct c; cbn [call is_increment_error];
    unfold update_state, add_step, set_current_step, increment_error,
      increment_retry, update_screen_context, set_authentication_state,
      clear_authentication_state, start_task, complete_task, on_current,
      with_current;
    rewrite ?E; cbn [current_task task_history]; rewrite ?E;
    rewrite ?app_nil_r, ?Forall_app, ?Forall_cons_iff;
    repeat split; try (apply Hh'; lia); try apply Forall_nil;
    cbn [error_count new_task]; lia.
Qed.

Lemma after_snoc (calls : list Call) (c : Call) :
  after (calls ++ [c]) = call (after calls) c.
Proof. unfold after. rewrite fold_left_app. reflexivity. Qed.

Lemma after_history_completed (calls : list Call) :
  Forall (fun t => current_state t = COMPLETED) (task_history (after calls)).
Proof.
  induction calls as [|c calls IH] using rev_ind; [constructor|].
  rewrite after_snoc.
  destruct (call_history (after calls) c) as (added & E & Hc).
  rewrite E. apply Forall_app. split; assumption.
Qed.

Lemma after_history_grows (calls more : list Call) :
  exists added,
    task_history (after (calls ++ more))
    = (task_history (after calls) ++ added)%list.
Proof.
  induction more as [|c more IH] using rev_ind.
  - exists []. rewrite !app_nil_r. reflexivity.
  - destruct IH as (added & E). rewrite app_assoc, after_snoc.
    destruct (call_history (after (calls ++ more)) c) as (added' & E' & _).
    exists (added ++ added')%list. rewrite E', E, app_assoc. reflexivity.
Qed.

(** X17.  After any sequence of calls on a new [AgentStateManager]: every
    task of the history is in the state COMPLETED; the history only grows,
    later calls leave what it holds as it is; the manager holds no more
    tasks, current one included, than [start_task] was called, so a task
    that is current when [start_task] is called again is never recorded; and
    the error count of a task lies between zero and the number of
    [increment_error] calls. *)
Theorem history_holds_completed_tasks_only :
  forall calls more : list Call,
    let self := after calls in
    Forall (fun t => current_state t = COMPLETED) (task_history self)
    /\ (exists added,
           task_history (after (calls ++ more))
           = (task_history self ++ added)%list)
    /\ (List.length (held self)
        <= List.length (filter is_start calls))%nat
    /\ Forall (fun t =>
                 0 <= error_count t
                 <= Z.of_nat (List.length (filter is_increment_error calls)))
              (held self)
    /\ task_count (get_state_summary self)
       <= Z.of_nat (List.length (filter is_start calls)).
Proof.
  intros calls more self. unfold self.
  assert (Hlen : (List.length (held (after calls))
                  <= List.length (filter is_start calls))%nat).
  { clear more self.
    induction calls as [|c calls IH] using rev_ind; [cbn; lia|].
    rewrite after_snoc, filter_app, length_app.
    pose proof (call_held_length (after calls) c) as H.
    cbn [filter]. destruct (is_start c); cbn [List.length] in *; lia. }
  split; [apply after_history_completed|].
  split; [apply after_history_grows|].
  split; [exact Hlen|].
  split.
  - clear more self Hlen.
    induction calls as [|c calls IH] using rev_ind; [constructor|].
    rewrite after_snoc, filter_app, length_app, Nat2Z.inj_add.
    pose proof (call_error_count (after calls) c _ (Nat2Z.is_nonneg _) IH)
      as H.
    eapply Forall_impl; [|exact H]. cbn beta. intros t Ht.
    cbn [filter]. destruct (is_increment_error c); cbn [List.length]; lia.
  - cbn [get_state_summary task_count].
    unfold held in Hlen. rewrite length_app in Hlen. lia.
Qed.

End StateManager.

(* ------------------------------------------------------------------ *)
(** ** The click below a field *)

Section ClickBelowField.

Import PyStr PyList Re Actions Gestures Accessibility Locators LoginFlow.
Import LocatorSpec LocatorsSpec Sample.

Lemma press_key_commands (da : DeviceActions) (keycode : string) :
  shell_commands (snd (press_key da keycode))
  = [("input keyevent " ++ keycode)%string].
Proof.
  unfold press_key, shell_then_sleep.
  destruct (shell (device da) _); reflexivity.
Qed.

Lemma button_below_is_below (dev : Device) (min_y min_width min_height : Z)
    (x0 y0 : Z) (b : Button) :
  find_button_below_y dev min_y min_width min_height = Some (x0, y0, b) ->
  min_y + 50 < y0 /\ min_width <= b_width b /\ min_height <= b_height b.
Proof.
  unfold find_button_below_y. intros H.
  destruct (sort_by button_y_le
              (buttons_below dev min_y min_width min_height))
    as [|b0 rest] eqn:E; [discriminate|].
  injection H as <- <- <-.
  assert (Hin : In b0 (buttons_below dev min_y min_width min_height)).
  { eapply Permutation_in; [apply sort_by_perm|]. rewrite E. left.
    reflexivity. }
  unfold buttons_below in Hin.
  destruct (usable_tree dev) as [tree|]; [|contradiction].
  apply collect_In in Hin. destruct Hin as (m & _ & Hm).
  apply below_candidate_some in Hm. destruct Hm as ((H0 & Hw & Hh & _) & ->).
  repeat split; assumption.
Qed.

(** X18.  [_click_continue_button_below_field] and
    [_click_submit_button_below_field] send the same commands and at most
    one: when [find_button_below_y] finds a button at least 300 wide and 80
    high below the field, one tap on it, at its centre clamped into the
    screen, and never the Enter key; when it finds none, the Enter key alone.
    The button tapped lies more than 50 pixels below the field, so for a
    field on the screen the tap is not turned down for its y.  On a dump
    whose only large clickable node is a text box with 240 letters of two
    bytes each, which [find_button_below_y] skips, the Enter key is
    pressed. *)
Theorem click_below_field_taps_or_presses_enter :
  forall (da : DeviceActions) (field_y : Z),
    let continue_commands :=
      shell_commands (_click_continue_button_below_field da field_y) in
    let submit_commands :=
      shell_commands (_click_submit_button_below_field da field_y) in
    continue_commands = submit_commands
    /\ match find_button_below_y (device da) field_y 300 80 with
       | Some (x0, y0, b) =>
           field_y + 50 < y0 /\ 300 <= b_width b /\ 80 <= b_height b
           /\ (0 < SCREEN_HEIGHT da -> -50 <= field_y -> 0 < clamped_y da y0)
           /\ continue_commands
              = (if (0 <? clamped_x da x0) && (0 <? clamped_y da y0)
                 then [tap_command (clamped_x da x0) (clamped_y da y0)]
                 else [])
       | None => continue_commands = ["input keyevent KEYCODE_ENTER"%string]
       end
    /\ shell_commands
         (_click_continue_button_below_field
            (default_actions (showing two_byte_text_box_dump)) 0)
       = ["input keyevent KEYCODE_ENTER"%string].
Proof.
  intros da field_y continue_commands submit_commands.
  apply and_assoc. split; [|vm_compute; reflexivity].
  unfold continue_commands, submit_commands,
    _click_continue_button_below_field, _click_submit_button_below_field.
  destruct (find_button_below_y (device da) field_y 300 80)
    as [[[x0 y0] b]|] eqn:E.
  - rewrite !shell_commands_app, tap_commands. cbn [shell_commands flat_map].
    rewrite !app_nil_r. split; [reflexivity|].
    destruct (button_below_is_below _ _ _ _ _ _ _ E) as (Hy & Hw & Hh).
    split; [exact Hy|]. split; [exact Hw|]. split; [exact Hh|].
    split; [|reflexivity].
    intros HH Hf. unfold clamped_y. lia.
  - rewrite !shell_commands_app, press_key_commands.
    split; reflexivity.
Qed.

End ClickBelowField.

(* ------------------------------------------------------------------ *)
(** ** The confirmation of a login *)

Section LoginConfirmation.

Import PyStr Confirmation ConfirmationSpec.
Local Open Scope string_scope.

Lemma append_nil_r (s : string) : s ++ EmptyString = s.
Proof. induction s as [|c s IH]; [reflexivity|]. cbn. rewrite IH. reflexivity. Qed.

Lemma append_assoc (a b c : string) : (a ++ b) ++ c = a ++ (b ++ c).
Proof.
  induction a as [|x a IH]; [reflexivity|]. cbn. rewrite IH. reflexivity.
Qed.

Lemma startswith_append (w post : string) : startswith w (w ++ post) = true.
Proof.
  induction w as [|c w IH]; [destruct post; reflexivity|].
  cbn. rewrite Ascii.eqb_refl, IH. reflexivity.
Qed.

(** A string holds each of its substrings. *)
Lemma contains_middle (pre w post : string) :
  contains w (pre ++ w ++ post) = true.
Proof.
  induction pre as [|c pre IH].
  - apply contains_here. change (startswith w (w ++ post) = true).
    apply startswith_append.
  - cbn [String.append]. apply contains_tail. exact IH.
Qed.

Lemma spaceless_append (a b : string) :
  spaceless (a ++ b) = spaceless a && spaceless b.
Proof.
  induction a as [|c a IH]; [reflexivity|].
  cbn. rewrite IH. apply andb_assoc.
Qed.

(** A word of [split] is a run of the string without white space. *)
Lemma split_from_word (s : string) :
  forall cur w,
    spaceless cur = true -> In w (split_from cur s) ->
    spaceless w = true
    /\ exists pre post, cur ++ s = pre ++ w ++ post.
Proof.
  induction s as [|c s IH]; intros cur w Hcur Hin; cbn [split_from] in Hin.
  - destruct (nonempty cur); [|contradiction].
    destruct Hin as [<- | []]. split; [exact Hcur|].
    exists EmptyString, EmptyString. rewrite !append_nil_r. reflexivity.
  - destruct (is_space c) eqn:Ec.
    + assert (Hrest : In w (split_from EmptyString s) ->
                      spaceless w = true
                      /\ exists pre post, cur ++ String c s = pre ++ w ++ post).
      { intros Hw. destruct (IH EmptyString w eq_refl Hw)
          as (Hs & pre & post & E).
        split; [exact Hs|].
        exists (cur ++ String c pre), post. cbn [String.append] in E.
        rewrite E, append_assoc. reflexivity. }
      destruct (nonempty cur); [|exact (Hrest Hin)].
      destruct Hin as [<- | Hin]; [|exact (Hrest Hin)].
      split; [exact Hcur|].
      exists EmptyString, (String c s). reflexivity.
    + assert (Hcur' : spaceless (cur ++ String c EmptyString) = true).
      { rewrite spaceless_append, Hcur. cbn. rewrite Ec. reflexivity. }
      destruct (IH _ w Hcur' Hin) as (Hs & pre & post & E).
      split; [exact Hs|]. exists pre, post.
      rewrite <- E, append_assoc. reflexivity.
Qed.

(** [blank_punctuation] leaves a character that it does not turn into white
    space as it is. *)
Lemma blank_prefix (w : string) :
  forall s post,
    blank_punctuation s = w ++ post -> spaceless w = true ->
    exists post', s = w ++ post'.
Proof.
  induction w as [|c w IH]; intros s post E Hw.
  - exists s. reflexivity.
  - destruct s as [|c0 s]; [discriminate|].
    cbn [blank_punctuation String.append] in E. injection E as Ec E.
    cbn [spaceless] in Hw. apply andb_true_iff in Hw. destruct Hw as [Hc Hw].
    destruct (IH s post E Hw) as (post' & ->).
    assert (c0 = c).
    { destruct (is_word c0 || is_space c0); [exact Ec|].
      subst c. discriminate. }
    subst c0. exists post'. reflexivity.
Qed.

Lemma blank_middle (pre : string) :
  forall s w post,
    blank_punctuation s = pre ++ w ++ post -> spaceless w = true ->
    exists pre' post', s = pre' ++ w ++ post'.
Proof.
  induction pre as [|c pre IH]; intros s w post E Hw.
  - destruct (blank_prefix w s post E Hw) as (post' & ->).
    exists EmptyString, post'. reflexivity.
  - destruct s as [|c0 s]; [discriminate|].
    cbn [blank_punctuation String.append] in E. injection E as _ E.
    destruct (IH s w post E Hw) as (pre' & post' & ->).
    exists (String c0 pre'), post'. reflexivity.
Qed.

(** Each word of a text is a substring of the lowered text. *)
Lemma word_is_substring (text w : string) :
  In w (words_of text) -> contains w (lowered text) = true.
Proof.
  unfold words_of, split. intros Hin.
  destruct (split_from_word _ EmptyString w eq_refl Hin)
    as (Hs & pre & post & E).
  cbn [String.append] in E.
  destruct (blank_middle pre _ w post E Hs) as (pre' & post' & ->).
  apply contains_middle.
Qed.

Lemma mem_In (word : string) (words : list string) :
  mem word words = true <-> In word words.
Proof.
  unfold mem. rewrite existsb_exists. split.
  - intros (x & Hx & E). apply String.eqb_eq in E. subst x. exact Hx.
  - intros H. exists word. split; [exact H | apply String.eqb_refl].
Qed.

(** X19.  On an ASCII text, [_is_login_confirmation] answers [True] exactly
    when the lowered text holds one of the twenty-two phrases as a
    substring, or it has at most three words and one of them is go, or it
    has the words log and in.  The other six confirmation words and the word
    login add nothing: a text with one of them as a word holds it as a
    substring.  The phrases are looked for inside words as well, so a text
    that holds ok, yes or sure anywhere counts as a confirmation. *)
Theorem login_confirmation_is_a_substring_test :
  forall text : string,
    is_ascii text = true ->
    (_is_login_confirmation text = true
     <-> any_in confirmation_phrases (lowered text) = true
         \/ (In "go" (words_of text)
             /\ (List.length (words_of text) <= 3)%nat)
         \/ (In "log" (words_of text) /\ In "in" (words_of text)))
    /\ (forall word,
           In word ["yes"; "okay"; "ok"; "sure"; "proceed"; "continue";
                    "login"] ->
           In word (words_of text) -> _is_login_confirmation text = true)
    /\ (forall phrase,
           In phrase confirmation_phrases ->
           contains phrase (lowered text) = true ->
           _is_login_confirmation text = true).
Proof.
  intros text _.
  assert (Hphrase : forall phrase,
             In phrase confirmation_phrases ->
             contains phrase (lowered text) = true ->
             any_in confirmation_phrases (lowered text) = true).
  { intros phrase Hin Hc. unfold any_in. apply existsb_exists.
    exists phrase. split; assumption. }
  assert (Hfirst : any_in confirmation_phrases (lowered text) = true ->
                   _is_login_confirmation text = true).
  { intros H. unfold _is_login_confirmation. fold (lowered text).
    rewrite H. reflexivity. }
  assert (Hword : forall word,
             In word ["yes"; "okay"; "ok"; "sure"; "proceed"; "continue";
                      "login"] ->
             In word (words_of text) ->
             any_in confirmation_phrases (lowered text) = true).
  { intros word Hw Hin. apply (Hphrase word).
    - cbn in Hw |- *. intuition.
    - apply word_is_substring. exact Hin. }
  split; [|split].
  - split.
    + intros H. unfold _is_login_confirmation in H.
      fold (lowered text) in H. fold (words_of text) in H.
      destruct (any_in confirmation_phrases (lowered text)) eqn:E1;
        [left; reflexivity|].
      destruct (existsb (fun word => mem word (words_of text))
                  confirmation_words
                && Nat.leb (List.length (words_of text)) 3) eqn:E2.
      * apply andb_true_iff in E2. destruct E2 as [Ew El].
        apply Nat.leb_le in El. apply existsb_exists in Ew.
        destruct Ew as (word & Hw & Hm). apply mem_In in Hm.
        destruct (String.eqb word "go") eqn:Eg.
        { apply String.eqb_eq in Eg. subst word.
          right. left. split; assumption. }
        assert (Hw' : In word ["yes"; "okay"; "ok"; "sure"; "proceed";
                               "continue"; "login"]).
        { cbn in Hw |- *.
          destruct Hw as [<-|[<-|[<-|[<-|[<-|[<-|[<-|[]]]]]]]];
            try discriminate; intuition. }
        discriminate (Hword word Hw' Hm).
      * destruct (mem "log" (words_of text) && mem "in" (words_of text))
          eqn:E3.
        { apply andb_true_iff in E3. destruct E3 as [Ea Eb].
          apply mem_In in Ea, Eb. right. right. split; assumption. }
        destruct (mem "login" (words_of text)
                  && Nat.leb (List.length (words_of text)) 3) eqn:E4;
          [|discriminate].
        apply andb_true_iff in E4. destruct E4 as [Ea _].
        apply mem_In in Ea.
        assert (Hw' : In "login" ["yes"; "okay"; "ok"; "sure"; "proceed";
                                  "continue"; "login"])
          by (cbn; intuition).
        discriminate (Hword "login" Hw' Ea).
    + intros [H | [[Hgo Hlen] | [Hlog Hin]]].
      * apply Hfirst. exact H.
      * unfold _is_login_confirmation.
        fold (lowered text). fold (words_of text).
        destruct (any_in confirmation_phrases (lowered text)); [reflexivity|].
        assert (E : existsb (fun word => mem word (words_of text))
                      confirmation_words = true).
        { apply existsb_exists. exists "go". split; [cbn; intuition|].
          apply mem_In. exact Hgo. }
        rewrite E. apply Nat.leb_le in Hlen. rewrite Hlen. reflexivity.
      * unfold _is_login_confirmation.
        fold (lowered text). fold (words_of text).
        destruct (any_in confirmation_phrases (lowered text)); [reflexivity|].
        destruct (existsb (fun word => mem word (words_of text))
                    confirmation_words
                  && Nat.leb (List.length (words_of text)) 3); [reflexivity|].
        apply mem_In in Hlog, Hin. rewrite Hlog, Hin. reflexivity.
  - intros word Hw Hin. apply Hfirst. apply (Hword word Hw Hin).
  - intros phrase Hp Hc. apply Hfirst. apply (Hphrase phrase Hp Hc).
Qed.

(** X19 on a short text with the word go. *)
Lemma login_confirmation_is_a_substring_test_witness :
  is_ascii "Go now!" = true /\ _is_login_confirmation "Go now!" = true.
Proof.
  split; [reflexivity|].
  destruct (login_confirmation_is_a_substring_test "Go now!" eq_refl)
    as [[_ H] _].
  apply H. right. left. split; [left; reflexivity | vm_compute; lia].
Defined.

End LoginConfirmation.
